(** * Document Knowledge Converter (dkc): ingestion pipeline

    A shallow embedding of the Python package [dkc]: the loader, the
    chunker, the click commands [build] and [inspect] with their writers,
    and the sibling pipeline of processors.py; then the properties of the
    identity scheme, the fact extraction, the chunk engine, the
    orchestration loop and the manifest.  The highlight picker [hi5] of
    the same repository follows the pipeline.

    Conventions.
    - A Python [str] is a list of Unicode code points ([N]); [len] of a
      string is the length of that list.  A Python [int] is a [Z].
      [bytes] is a list of [N] below 256.
    - A call that may raise returns a [res]: [Ok v], [Raise] (an exception,
      which the nearest [except Exception] catches) or [OutOfFuel] (the fuel
      given to a [while] loop ran out before the loop exited).  A call
      that returns [OutOfFuel] for every fuel does not terminate.
    - The file system is a list of regular files with their bytes; [stat]
      and [exists] do not fail, there are no symbolic links.  What pypdf
      makes of the bytes of a file is a parameter of the run.
    - hashlib.sha1, the UTF-8 codec, [str.split], [str.strip],
      [str.splitlines], slices, the sort of lists and the parts of pathlib
      that the code calls are written out.
    - [str.lower] is written out for the letters A-Z, which is all that
      the comparison of a file suffix needs.  Where the picker lowers a
      whole line, [str.lower] is a parameter, and so is the order in which
      the set of keywords is gone through.
    - Logging is left out.  So are the [acronyms] and [entities] of a card,
      two regular-expression scans that no property here reads. *)

From Stdlib Require Import ZArith NArith List Bool Lia String Ascii.
From Stdlib Require Import Permutation.
Import ListNotations.

(* ================================================================== *)
(** ** Python strings *)
(* ================================================================== *)

Module Py.

Local Open Scope N_scope.

Definition char := N.
Definition str := list char.

(** An ASCII literal as a Python string. *)
Definition lit (s : string) : str :=
  List.map N_of_ascii (list_ascii_of_string s).

Definition len {A} (l : list A) : Z := Z.of_nat (List.length l).

Fixpoint str_eqb (a b : str) : bool :=
  match a, b with
  | [], [] => true
  | x :: a', y :: b' => N.eqb x y && str_eqb a' b'
  | _, _ => false
  end.

(** [a < b] on strings: code point by code point, a proper prefix first. *)
Fixpoint str_ltb (a b : str) : bool :=
  match a, b with
  | _, [] => false
  | [], _ :: _ => true
  | x :: a', y :: b' =>
      if N.ltb x y then true
      else if N.eqb x y then str_ltb a' b' else false
  end.

(** [c.isspace()] for one code point: the Unicode white space of CPython
    (bidirectional types WS, B, S and category Zs). *)
Definition isspace (c : char) : bool :=
  ((9 <=? c) && (c <=? 13)) || ((28 <=? c) && (c <=? 32))
  || (c =? 133) || (c =? 160) || (c =? 5760)
  || ((8192 <=? c) && (c <=? 8202))
  || (c =? 8232) || (c =? 8233) || (c =? 8239) || (c =? 8287)
  || (c =? 12288).

Fixpoint lstrip (s : str) : str :=
  match s with
  | [] => []
  | c :: s' => if isspace c then lstrip s' else s
  end.

Definition rstrip (s : str) : str := rev (lstrip (rev s)).

(** [s.strip()] *)
Definition strip (s : str) : str := rstrip (lstrip s).

(** [s.split(sep)] for a one-character separator: every occurrence cuts,
    empty pieces are kept, and the empty string gives one empty piece. *)
Fixpoint split_on (sep : char) (s : str) : list str :=
  match s with
  | [] => [[]]
  | c :: s' =>
      if N.eqb c sep then [] :: split_on sep s'
      else match split_on sep s' with
           | [] => [[c]]
           | p :: ps => (c :: p) :: ps
           end
  end.

(** [s.split()]: the maximal runs of non-space characters. *)
Fixpoint split (s : str) : list str :=
  match s with
  | [] => []
  | c :: s' =>
      if isspace c then split s'
      else match s' with
           | [] => [[c]]
           | d :: _ =>
               if isspace d then [c] :: split s'
               else match split s' with
                    | [] => [[c]]
                    | w :: ws => (c :: w) :: ws
                    end
           end
  end.

(** [sep.join(l)] *)
Fixpoint join (sep : str) (l : list str) : str :=
  match l with
  | [] => []
  | w :: rest =>
      match rest with
      | [] => w
      | _ :: _ => w ++ sep ++ join sep rest
      end
  end.

(** An index of a slice brought into [0, len]: a negative index counts
    from the end. *)
Definition slice_index (n i : Z) : Z :=
  (if i <? 0 then Z.max (i + n) 0 else Z.min i n)%Z.

(** [l[i:j]] *)
Definition slice {A} (l : list A) (i j : Z) : list A :=
  let n := len l in
  let i' := slice_index n i in
  let j' := slice_index n j in
  firstn (Z.to_nat (j' - i')%Z) (skipn (Z.to_nat i') l).

(** [l[:j]] *)
Definition slice_to {A} (l : list A) (j : Z) : list A := slice l 0 j.

Fixpoint of_uint (d : Decimal.uint) : str :=
  match d with
  | Decimal.Nil => []
  | Decimal.D0 d => 48 :: of_uint d
  | Decimal.D1 d => 49 :: of_uint d
  | Decimal.D2 d => 50 :: of_uint d
  | Decimal.D3 d => 51 :: of_uint d
  | Decimal.D4 d => 52 :: of_uint d
  | Decimal.D5 d => 53 :: of_uint d
  | Decimal.D6 d => 54 :: of_uint d
  | Decimal.D7 d => 55 :: of_uint d
  | Decimal.D8 d => 56 :: of_uint d
  | Decimal.D9 d => 57 :: of_uint d
  end.

(** [str(n)] for an int: decimal digits, a minus sign when negative. *)
Definition str_of_int (z : Z) : str :=
  match z with
  | Z0 => [48]
  | Zpos p => of_uint (Pos.to_uint p)
  | Zneg p => 45 :: of_uint (Pos.to_uint p)
  end.

(** The ASCII range of [c.lower()]. *)
Definition lower_char (c : char) : char :=
  if (65 <=? c) && (c <=? 90) then c + 32 else c.

Definition lower (s : str) : str := List.map lower_char s.

(** [s.encode('utf-8')]: one to four bytes per code point; a surrogate
    (U+D800..U+DFFF) raises UnicodeEncodeError. *)
Definition encode_char (c : char) : option (list N) :=
  if c <? 128 then Some [c]
  else if c <? 2048 then
    Some [N.lor 192 (N.shiftr c 6); N.lor 128 (N.land c 63)]
  else if c <? 65536 then
    if (55296 <=? c) && (c <=? 57343) then None
    else Some [N.lor 224 (N.shiftr c 12);
               N.lor 128 (N.land (N.shiftr c 6) 63);
               N.lor 128 (N.land c 63)]
  else if c <? 1114112 then
    Some [N.lor 240 (N.shiftr c 18);
          N.lor 128 (N.land (N.shiftr c 12) 63);
          N.lor 128 (N.land (N.shiftr c 6) 63);
          N.lor 128 (N.land c 63)]
  else None.

Fixpoint encode_utf8 (s : str) : option (list N) :=
  match s with
  | [] => Some []
  | c :: s' =>
      match encode_char c, encode_utf8 s' with
      | Some b, Some bs => Some (b ++ bs)
      | _, _ => None
      end
  end.

Definition encodable (s : str) : bool :=
  match encode_utf8 s with Some _ => true | None => false end.

(** [l.sort(key=...)] on string keys.  The sort is stable: an element
    goes before the first one whose key is not smaller. *)
Section Sort.
Context {A : Type} (key : A -> str).

Fixpoint insert_by (d : A) (l : list A) : list A :=
  match l with
  | [] => [d]
  | x :: l' =>
      if str_ltb (key x) (key d) then x :: insert_by d l'
      else d :: l
  end.

Fixpoint sort_by (l : list A) : list A :=
  match l with
  | [] => []
  | d :: l' => insert_by d (sort_by l')
  end.
End Sort.

(** [needle in s] *)
Fixpoint starts_with (needle s : str) : bool :=
  match needle, s with
  | [], _ => true
  | _ :: _, [] => false
  | x :: needle', y :: s' => N.eqb x y && starts_with needle' s'
  end.

Fixpoint contains (needle s : str) : bool :=
  starts_with needle s
  || match s with
     | [] => false
     | _ :: s' => contains needle s'
     end.

(** [s.split(sep)] for a separator of the two characters [a], [b]. *)
Fixpoint split_on2 (a b : char) (s : str) : list str :=
  match s with
  | [] => [[]]
  | c :: s' =>
      let keep := match split_on2 a b s' with
                  | [] => [[c]]
                  | p :: ps => (c :: p) :: ps
                  end in
      match s' with
      | d :: s'' =>
          if N.eqb c a && N.eqb d b then [] :: split_on2 a b s'' else keep
      | [] => keep
      end
  end.

End Py.

(* ================================================================== *)
(** ** hashlib.sha1 (FIPS 180-4), on 32-bit words kept in [N] *)
(* ================================================================== *)

Module SHA1.

Local Open Scope N_scope.

Definition w32 (x : N) : N := x mod 2 ^ 32.

Definition add32 (x y : N) : N := w32 (x + y).

Definition rotl (n x : N) : N :=
  w32 (N.lor (N.shiftl x n) (N.shiftr x (32 - n))).

Definition not32 (x : N) : N := N.lxor x (2 ^ 32 - 1).

(** The 64-bit big-endian bit length that closes the padding. *)
Definition be64 (x : N) : list N :=
  List.map (fun k => N.shiftr x (8 * k) mod 256) [7; 6; 5; 4; 3; 2; 1; 0].

(** Message, then 0x80, then zero bytes up to 56 modulo 64, then the
    bit length. *)
Definition pad (msg : list N) : list N :=
  let l := N.of_nat (List.length msg) in
  let zeros := N.to_nat ((119 - l mod 64) mod 64) in
  msg ++ [128] ++ List.repeat 0 zeros ++ be64 (8 * l).

Fixpoint be_words (fuel : nat) (bs : list N) : list N :=
  match fuel with
  | O => []
  | S fuel' =>
      match bs with
      | b0 :: b1 :: b2 :: b3 :: rest =>
          (b0 * 16777216 + b1 * 65536 + b2 * 256 + b3) :: be_words fuel' rest
      | _ => []
      end
  end.

(** The message schedule: a window of the last sixteen words, newest
    first, extended [n] times; the words come out oldest first. *)
Fixpoint schedule (n : nat) (win : list N) : list N :=
  match n with
  | O => []
  | S n' =>
      let wt := rotl 1 (N.lxor (N.lxor (nth 2 win 0) (nth 7 win 0))
                               (N.lxor (nth 13 win 0) (nth 15 win 0))) in
      wt :: schedule n' (wt :: firstn 15 win)
  end.

Definition expand (block : list N) : list N :=
  block ++ schedule 64 (rev block).

Definition f_t (t : nat) (b c d : N) : N :=
  if (t <? 20)%nat then N.lor (N.land b c) (N.land (not32 b) d)
  else if (t <? 40)%nat then N.lxor (N.lxor b c) d
  else if (t <? 60)%nat then
    N.lor (N.lor (N.land b c) (N.land b d)) (N.land c d)
  else N.lxor (N.lxor b c) d.

Definition k_t (t : nat) : N :=
  if (t <? 20)%nat then 1518500249
  else if (t <? 40)%nat then 1859775393
  else if (t <? 60)%nat then 2400959708
  else 3395469782.

Record state := mkState { ha : N; hb : N; hc : N; hd : N; he : N }.

Definition h0 : state :=
  mkState 1732584193 4023233417 2562383102 271733878 3285377520.

Fixpoint rounds (t : nat) (ws : list N) (s : state) : state :=
  match ws with
  | [] => s
  | wt :: ws' =>
      let tmp := add32 (add32 (add32 (add32 (rotl 5 (ha s))
                   (f_t t (hb s) (hc s) (hd s))) (he s)) (k_t t)) wt in
      rounds (S t) ws' (mkState tmp (ha s) (rotl 30 (hb s)) (hc s) (hd s))
  end.

Definition compress (s : state) (block : list N) : state :=
  let r := rounds 0 (expand block) s in
  mkState (add32 (ha s) (ha r)) (add32 (hb s) (hb r)) (add32 (hc s) (hc r))
          (add32 (hd s) (hd r)) (add32 (he s) (he r)).

Fixpoint blocks (fuel : nat) (ws : list N) (s : state) : state :=
  match fuel with
  | O => s
  | S fuel' =>
      match ws with
      | [] => s
      | _ :: _ => blocks fuel' (skipn 16 ws) (compress s (firstn 16 ws))
      end
  end.

Definition digest_state (msg : list N) : state :=
  let bs := pad msg in
  let ws := be_words (List.length bs) bs in
  blocks (List.length ws) ws h0.

Definition hex_digit (n : N) : Py.char :=
  if n <? 10 then 48 + n else 87 + n.

(** Eight lowercase hexadecimal digits of a 32-bit word. *)
Definition hex8 (x : N) : Py.str :=
  List.map (fun k => hex_digit (N.shiftr x (4 * k) mod 16))
           [7; 6; 5; 4; 3; 2; 1; 0].

(** [hashlib.sha1(msg).hexdigest()] *)
Definition hexdigest (msg : list N) : Py.str :=
  let s := digest_state msg in
  hex8 (ha s) ++ hex8 (hb s) ++ hex8 (hc s) ++ hex8 (hd s) ++ hex8 (he s).

End SHA1.

(* ================================================================== *)
(** ** Results of calls, records of schema.py *)
(* ================================================================== *)

Inductive res (A : Type) : Type :=
| Ok (a : A)
| Raise
| OutOfFuel.

Arguments Ok {A} a.
Arguments Raise {A}.
Arguments OutOfFuel {A}.

Definition bind {A B} (r : res A) (k : A -> res B) : res B :=
  match r with
  | Ok a => k a
  | Raise => Raise
  | OutOfFuel => OutOfFuel
  end.

Notation "x <- r ;; k" := (bind r (fun x => k))
  (at level 61, r at next level, right associativity).

(** The fields of the pydantic models that the pipeline fills.  The card's
    [acronyms] and [entities] (two regular-expression scans put through
    [list(set(...))]) are not part of this development. *)
Record Citation := mkCitation {
  cit_doc_id : Py.str;
  cit_source_path : Py.str;
  cit_text_excerpt : Py.str;
  cit_page : option Z;
  cit_line : option Z
}.

Record KnowledgeCard := mkCard {
  card_id : Py.str;
  card_title : Py.str;
  card_date : option Py.str;
  card_source_path : Py.str;
  card_facts : list Py.str;
  card_citations : list Citation
}.

Record Chunk := mkChunk {
  chunk_id : Py.str;
  chunk_doc_id : Py.str;
  chunk_ordinal : Z;
  chunk_text : Py.str;
  chunk_source_path : Py.str;
  chunk_page : option Z;
  chunk_line_start : option Z;
  chunk_line_end : option Z
}.

(* ================================================================== *)
(** ** utils.py *)
(* ================================================================== *)

Module Utils.

(** [sha1(s)]: [hashlib.sha1(s.encode('utf-8')).hexdigest()]. *)
Definition sha1 (s : Py.str) : res Py.str :=
  match Py.encode_utf8 s with
  | Some bs => Ok (SHA1.hexdigest bs)
  | None => Raise
  end.

Definition slash : Py.char := 47%N.
Definition dot : Py.char := 46%N.

Definition nonempty (s : Py.str) : bool :=
  match s with [] => false | _ :: _ => true end.

(** The components of a path between slashes. *)
Definition parts (p : Py.str) : list Py.str :=
  List.filter nonempty (Py.split_on slash p).

(** Components with [.] dropped and [..] cancelling its parent; [stack]
    holds the components kept so far, last first. *)
Fixpoint normalize (stack : list Py.str) (ps : list Py.str) : list Py.str :=
  match ps with
  | [] => rev stack
  | q :: ps' =>
      if Py.str_eqb q [dot] then normalize stack ps'
      else if Py.str_eqb q [dot; dot] then normalize (tl stack) ps'
      else normalize (q :: stack) ps'
  end.

Definition is_absolute (p : Py.str) : bool :=
  match p with
  | c :: _ => N.eqb c slash
  | [] => false
  end.

(** The root of an absolute path: exactly two leading slashes are kept,
    as POSIX allows, any other number is one. *)
Definition root (p : Py.str) : Py.str :=
  match p with
  | a :: b :: rest =>
      if N.eqb a slash && N.eqb b slash
         && negb (match rest with c :: _ => N.eqb c slash | [] => false end)
      then [slash; slash] else [slash]
  | _ => [slash]
  end.

(** [canon(path)]: [str(Path(path).resolve())] on a POSIX file system
    with no symbolic links and working directory [cwd]. *)
Definition canon (cwd : Py.str) (path : Py.str) : Py.str :=
  let full := if is_absolute path then path else cwd ++ [slash] ++ path in
  root full ++ Py.join [slash] (normalize [] (parts full)).

(** [Path(path).name]: the last component. *)
Definition name (path : Py.str) : Py.str :=
  last (List.filter (fun q => negb (Py.str_eqb q [dot])) (parts path)) [].

(** Index of the last dot of [s] at position [i] or later, as
    [rfind('.')] finds it. *)
Fixpoint rfind_dot (i : nat) (s : Py.str) : option nat :=
  match s with
  | [] => None
  | c :: s' =>
      match rfind_dot (S i) s' with
      | Some j => Some j
      | None => if N.eqb c dot then Some i else None
      end
  end.

(** Where [suffix] and [stem] cut the name: at the last dot, unless that
    dot opens or closes the name. *)
Definition suffix_cut (nm : Py.str) : option nat :=
  match rfind_dot 0 nm with
  | Some i =>
      if (0 <? i)%nat && (i <? List.length nm - 1)%nat then Some i else None
  | None => None
  end.

(** [Path(path).suffix] *)
Definition suffix (path : Py.str) : Py.str :=
  let nm := name path in
  match suffix_cut nm with
  | Some i => skipn i nm
  | None => []
  end.

(** [Path(path).stem] *)
Definition stem (path : Py.str) : Py.str :=
  let nm := name path in
  match suffix_cut nm with
  | Some i => firstn i nm
  | None => nm
  end.

End Utils.

(* ================================================================== *)
(** ** The file system seen by the readers *)
(* ================================================================== *)

Module Fs.

Local Open Scope N_scope.

(** A regular file: its bytes, and whether [open] succeeds on it. *)
Record file := mkFile {
  file_bytes : list N;
  file_readable : bool
}.

Definition t := list (Py.str * file).

Fixpoint lookup (fs : t) (path : Py.str) : option file :=
  match fs with
  | [] => None
  | (q, f) :: fs' => if Py.str_eqb q path then Some f else lookup fs' path
  end.

(** [file_path.stat().st_size] *)
Definition st_size (f : file) : Z := Py.len (file_bytes f).

Definition is_cont (b : N) : bool := (128 <=? b) && (b <=? 191).

(** The strict UTF-8 decoder: shortest forms only, no surrogates, nothing
    above U+10FFFF; [None] is UnicodeDecodeError. *)
Fixpoint decode_utf8 (bs : list N) : option Py.str :=
  match bs with
  | [] => Some []
  | b0 :: r0 =>
      if b0 <? 128 then option_map (cons b0) (decode_utf8 r0)
      else if (194 <=? b0) && (b0 <=? 223) then
        match r0 with
        | b1 :: r1 =>
            if is_cont b1
            then option_map (cons ((b0 - 192) * 64 + (b1 - 128)))
                            (decode_utf8 r1)
            else None
        | _ => None
        end
      else if (224 <=? b0) && (b0 <=? 239) then
        match r0 with
        | b1 :: b2 :: r2 =>
            let c := (b0 - 224) * 4096 + (b1 - 128) * 64 + (b2 - 128) in
            if is_cont b1 && is_cont b2 && (2048 <=? c)
               && negb ((55296 <=? c) && (c <=? 57343))
            then option_map (cons c) (decode_utf8 r2)
            else None
        | _ => None
        end
      else if (240 <=? b0) && (b0 <=? 244) then
        match r0 with
        | b1 :: b2 :: b3 :: r3 =>
            let c := (b0 - 240) * 262144 + (b1 - 128) * 4096
                     + (b2 - 128) * 64 + (b3 - 128) in
            if is_cont b1 && is_cont b2 && is_cont b3
               && (65536 <=? c) && (c <? 1114112)
            then option_map (cons c) (decode_utf8 r3)
            else None
        | _ => None
        end
      else None
  end.

(** Text mode with the default [newline=None]: CR LF and a lone CR are
    read as LF. *)
Fixpoint universal_newlines (s : Py.str) : Py.str :=
  match s with
  | [] => []
  | c :: s' =>
      if c =? 13 then
        match s' with
        | d :: s'' =>
            if d =? 10 then 10 :: universal_newlines s''
            else 10 :: universal_newlines s'
        | [] => [10]
        end
      else c :: universal_newlines s'
  end.

(** [open(path, 'r', encoding='utf-8').read()] *)
Definition read_utf8 (f : file) : res Py.str :=
  if file_readable f then
    match decode_utf8 (file_bytes f) with
    | Some s => Ok (universal_newlines s)
    | None => Raise
    end
  else Raise.

(** [open(path, 'r', encoding='latin-1').read()]: every byte is a code
    point. *)
Definition read_latin1 (f : file) : res Py.str :=
  if file_readable f then Ok (universal_newlines (file_bytes f)) else Raise.

(** [open(path, 'rb')] read to the end. *)
Definition read_bytes (f : file) : res (list N) :=
  if file_readable f then Ok (file_bytes f) else Raise.

Definition is_linebreak (c : Py.char) : bool :=
  ((10 <=? c) && (c <=? 13)) || ((28 <=? c) && (c <=? 30))
  || (c =? 133) || (c =? 8232) || (c =? 8233).

(** [s.splitlines()] *)
Fixpoint splitlines (s : Py.str) : list Py.str :=
  match s with
  | [] => []
  | c :: s' =>
      if is_linebreak c then
        match s' with
        | d :: s'' =>
            if (c =? 13) && (d =? 10) then [] :: splitlines s''
            else [] :: splitlines s'
        | [] => [[]]
        end
      else match splitlines s' with
           | [] => [[c]]
           | l :: ls => (c :: l) :: ls
           end
  end.

(** What [pypdf.PdfReader] makes of the bytes of a file: [None] when
    opening or parsing raises, otherwise the pages, a page being [None]
    when its [extract_text()] raises. *)
Definition pdf_reader := list N -> option (list (option Py.str)).

End Fs.

(** The surroundings of one run. *)
Record env := mkEnv {
  cwd : Py.str;
  files : Fs.t;
  pdf : Fs.pdf_reader;
  out_writable : bool;
  now : Py.str
}.

(* ================================================================== *)
(** ** loader.py *)
(* ================================================================== *)

Module Loader.

Inductive kind := KindPdf | KindTxt.

(** The dictionary the readers return. *)
Record Document := mkDoc {
  doc_path : Py.str;
  doc_kind : kind;
  doc_text : Py.str;
  doc_pages : option (list Py.str);
  doc_lines : option (list Py.str);
  doc_bytes : Z
}.

Definition PDF_EXT : list Py.str := [Py.lit ".pdf"].
Definition TXT_EXT : list Py.str := [Py.lit ".txt"; Py.lit ".md"].

Definition newline : Py.str := [10%N].

(** The page loop of [read_pdf]: a page that fails to extract is kept as
    an empty page. *)
Fixpoint read_pages (ps : list (option Py.str)) (pages : list Py.str)
         (full_text : Py.str) : list Py.str * Py.str :=
  match ps with
  | [] => (pages, full_text)
  | Some page_text :: ps' =>
      read_pages ps' (pages ++ [page_text]) (full_text ++ page_text ++ newline)
  | None :: ps' =>
      read_pages ps' (pages ++ [[]]) (full_text ++ newline)
  end.

Definition read_pdf (e : env) (path : Py.str) : Document :=
  match Fs.lookup (files e) path with
  | None => mkDoc path KindPdf [] (Some []) None 0
  | Some f =>
      let file_size := Fs.st_size f in
      match (if Fs.file_readable f then pdf e (Fs.file_bytes f) else None) with
      | Some ps =>
          let '(pages, full_text) := read_pages ps [] [] in
          mkDoc path KindPdf (Py.strip full_text) (Some pages) None file_size
      | None => mkDoc path KindPdf [] (Some []) None file_size
      end
  end.

Definition read_txt (e : env) (path : Py.str) : Document :=
  match Fs.lookup (files e) path with
  | None => mkDoc path KindTxt [] None (Some []) 0
  | Some f =>
      let file_size := Fs.st_size f in
      match Fs.read_utf8 f with
      | Ok content =>
          mkDoc path KindTxt content None (Some (Fs.splitlines content))
                file_size
      | _ => mkDoc path KindTxt [] None (Some []) file_size
      end
  end.

Definition mem (x : Py.str) (l : list Py.str) : bool :=
  existsb (Py.str_eqb x) l.

(** The body of the walk: a reader by extension, other files passed
    over. *)
Fixpoint read_all (e : env) (walk : list Py.str) : list Document :=
  match walk with
  | [] => []
  | file_path :: walk' =>
      let file_ext := Py.lower (Utils.suffix file_path) in
      if mem file_ext PDF_EXT then read_pdf e file_path :: read_all e walk'
      else if mem file_ext TXT_EXT then
        read_txt e file_path :: read_all e walk'
      else read_all e walk'
  end.

(** [load_folder(folder)], [walk] being the paths of the files that
    [os.walk(folder)] comes across, in its order; the documents are
    sorted on their path at the end. *)
Definition load_folder (e : env) (walk : list Py.str) : list Document :=
  Py.sort_by doc_path (read_all e walk).

End Loader.

(* ================================================================== *)
(** ** chunker.py *)
(* ================================================================== *)

Module Chunker.

Import Loader.
Local Open Scope Z_scope.

Definition colon : Py.str := [58%N].
Definition space : Py.str := [32%N].

(** The [while start < len(words)] loop, one iteration per unit of
    fuel. *)
Fixpoint chunk_loop (fuel : nat) (words : list Py.str)
         (doc_id source_path : Py.str) (size overlap : Z)
         (start ordinal : Z) (chunks : list Chunk) : res (list Chunk) :=
  match fuel with
  | O => OutOfFuel
  | S fuel' =>
      if start <? Py.len words then
        let end_ := Z.min (start + size) (Py.len words) in
        let chunk_words := Py.slice words start end_ in
        let chunk_text := Py.join space chunk_words in
        chunk_id <- Utils.sha1 (doc_id ++ colon ++ Py.str_of_int ordinal) ;;
        let chunk :=
          mkChunk chunk_id doc_id ordinal chunk_text source_path
                  None None None in
        let chunks' := chunks ++ [chunk] in
        if end_ >=? Py.len words then Ok chunks'
        else chunk_loop fuel' words doc_id source_path size overlap
                        (end_ - overlap) (ordinal + 1) chunks'
      else Ok chunks
  end.

Definition chunk_doc (fuel : nat) (doc : Document) (doc_id : Py.str)
           (size overlap : Z) : res (list Chunk) :=
  let text := doc_text doc in
  let source_path := doc_path doc in
  let words := Py.split text in
  if Py.len words =? 0 then Ok []
  else if Py.len words <=? size then
    chunk_id <- Utils.sha1 (doc_id ++ colon ++ Py.lit "1") ;;
    let chunk_text := Py.join space words in
    Ok [mkChunk chunk_id doc_id 1 chunk_text source_path None None None]
  else chunk_loop fuel words doc_id source_path size overlap 0 1 [].

End Chunker.

(* ================================================================== *)
(** ** writer.py *)
(* ================================================================== *)

Module Writer.

Import Loader.

(** The JSON object of manifest.json. *)
Record Manifest := mkManifest {
  total_documents : Z;
  total_cards : Z;
  total_chunks : Z;
  skipped_files : list Py.str
}.

Definition write_manifest (docs : list Document) (cards : list KnowledgeCard)
           (chunks : list Chunk) (skipped : list Py.str) : Manifest :=
  mkManifest (Py.len docs) (Py.len cards) (Py.len chunks) skipped.

(** What a run leaves in the output folder: the records of cards.jsonl
    and chunks.jsonl, one per line, and the manifest. *)
Record Output := mkOutput {
  cards_jsonl : list KnowledgeCard;
  chunks_jsonl : list Chunk;
  manifest_json : Manifest
}.

End Writer.

(* ================================================================== *)
(** ** cli.py *)
(* ================================================================== *)

Module Cli.

Import Loader.
Local Open Scope Z_scope.

Definition ellipsis : Py.str := Py.lit "...".

(** [text[:200] + "..." if len(text) > 200 else text] *)
Definition text_excerpt (text : Py.str) : Py.str :=
  if Py.len text >? 200 then Py.slice_to text 200 ++ ellipsis else text.

(** [[s.strip() for s in text.split('.') if s.strip()]] *)
Definition sentences (text : Py.str) : list Py.str :=
  flat_map (fun s => if Utils.nonempty (Py.strip s) then [Py.strip s] else [])
           (Py.split_on Utils.dot text).

(** [[s for s in sentences[:5] if len(s) > 20]] *)
Definition facts_of (text : Py.str) : list Py.str :=
  List.filter (fun s => Py.len s >? 20) (Py.slice_to (sentences text) 5).

Definition build_knowledge_card (e : env) (doc : Document)
  : res KnowledgeCard :=
  doc_id <- Utils.sha1 (Utils.canon (cwd e) (doc_path doc) ++ Chunker.colon
                        ++ Py.str_of_int (doc_bytes doc)) ;;
  let text := doc_text doc in
  let title := Utils.stem (doc_path doc) in
  let facts := facts_of text in
  let citation :=
    mkCitation doc_id (doc_path doc) (text_excerpt text) None None in
  Ok (mkCard doc_id title None (doc_path doc) facts [citation]).

(** The accumulators of [build]. *)
Record acc := mkAcc {
  cards : list KnowledgeCard;
  all_chunks : list Chunk;
  skipped_files : list Py.str
}.

(** The [for doc in docs] loop with its [try]: the card is appended
    before the document is chunked, and any exception of either step
    puts the path on the skip list. *)
Fixpoint process (fuel : nat) (e : env) (chunk overlap : Z)
         (docs : list Document) (a : acc) : res acc :=
  match docs with
  | [] => Ok a
  | doc :: docs' =>
      match build_knowledge_card e doc with
      | Ok card =>
          let cards' := cards a ++ [card] in
          match Chunker.chunk_doc fuel doc (card_id card) chunk overlap with
          | Ok chunks =>
              process fuel e chunk overlap docs'
                      (mkAcc cards' (all_chunks a ++ chunks) (skipped_files a))
          | Raise =>
              process fuel e chunk overlap docs'
                      (mkAcc cards' (all_chunks a)
                             (skipped_files a ++ [doc_path doc]))
          | OutOfFuel => OutOfFuel
          end
      | Raise =>
          process fuel e chunk overlap docs'
                  (mkAcc (cards a) (all_chunks a)
                         (skipped_files a ++ [doc_path doc]))
      | OutOfFuel => OutOfFuel
      end
  end.

(** [dkc build --in folder --out out --chunk chunk --overlap overlap]:
    [walk] lists the files under the input folder, [fuel] bounds the
    iterations of each chunking loop.  [Raise] is the ClickException of
    the outer handler. *)
Definition build (fuel : nat) (e : env) (walk : list Py.str)
           (chunk overlap : Z) : res Writer.Output :=
  let docs := load_folder e walk in
  a <- process fuel e chunk overlap docs (mkAcc [] [] []) ;;
  if out_writable e then
    Ok (Writer.mkOutput (cards a) (all_chunks a)
          (Writer.write_manifest docs (cards a) (all_chunks a)
                                 (skipped_files a)))
  else Raise.

End Cli.

(* ================================================================== *)
(** ** processors.py, with the Manifest of schemas.py *)
(* ================================================================== *)

Module Processors.

Local Open Scope Z_scope.

Record Manifest := mkManifest {
  total_documents : Z;
  total_cards : Z;
  total_chunks : Z;
  skipped_files : list Py.str;
  checksums : list (Py.str * Py.str);
  created_at : Py.str
}.

(** [d[k] = v] on a dictionary kept as its items in insertion order. *)
Fixpoint dict_set (d : list (Py.str * Py.str)) (k v : Py.str)
  : list (Py.str * Py.str) :=
  match d with
  | [] => [(k, v)]
  | (k', v') :: d' =>
      if Py.str_eqb k' k then (k', v) :: d' else (k', v') :: dict_set d' k v
  end.

Definition calculate_checksum (e : env) (file_path : Py.str) : res Py.str :=
  match Fs.lookup (files e) file_path with
  | None => Raise
  | Some f => bs <- Fs.read_bytes f ;; Ok (SHA1.hexdigest bs)
  end.

Definition generate_doc_id (source_path checksum : Py.str) : res Py.str :=
  let canonical_string := source_path ++ Chunker.colon ++ checksum in
  match Py.encode_utf8 canonical_string with
  | Some bs => Ok (SHA1.hexdigest bs)
  | None => Raise
  end.

Definition generate_chunk_id (doc_id : Py.str) (ordinal : Z) : res Py.str :=
  let canonical_string := doc_id ++ Chunker.colon ++ Py.str_of_int ordinal in
  match Py.encode_utf8 canonical_string with
  | Some bs => Ok (SHA1.hexdigest bs)
  | None => Raise
  end.

(** UTF-8 first, latin-1 when that fails to decode; any other error of
    [open] goes up. *)
Definition read_txt_file (e : env) (file_path : Py.str)
  : res (Py.str * list Py.str) :=
  match Fs.lookup (files e) file_path with
  | None => Raise
  | Some f =>
      if Fs.file_readable f then
        match Fs.decode_utf8 (Fs.file_bytes f) with
        | Some s =>
            let content := Fs.universal_newlines s in
            Ok (content, Fs.splitlines content)
        | None =>
            content <- Fs.read_latin1 f ;;
            Ok (content, Fs.splitlines content)
        end
      else Raise
  end.

Fixpoint read_pdf_pages (ps : list (option Py.str)) (pages : list Py.str)
         (full_text : Py.str) : res (list Py.str * Py.str) :=
  match ps with
  | [] => Ok (pages, full_text)
  | Some page_text :: ps' =>
      read_pdf_pages ps' (pages ++ [page_text])
                     (full_text ++ page_text ++ Loader.newline)
  | None :: _ => Raise
  end.

(** Every failure is logged and raised again. *)
Definition read_pdf_file (e : env) (file_path : Py.str)
  : res (Py.str * list Py.str) :=
  match Fs.lookup (files e) file_path with
  | None => Raise
  | Some f =>
      match (if Fs.file_readable f then pdf e (Fs.file_bytes f) else None) with
      | Some ps =>
          r <- read_pdf_pages ps [] [] ;;
          Ok (Py.strip (snd r), fst r)
      | None => Raise
      end
  end.

(** The [for sentence in sentences[:max_facts]] loop. *)
Fixpoint collect_facts (ss : list Py.str) (facts : list Py.str)
  : list Py.str :=
  match ss with
  | [] => facts
  | sentence :: ss' =>
      if Py.len sentence >? 20 then collect_facts ss' (facts ++ [sentence])
      else collect_facts ss' facts
  end.

Definition extract_facts (text : Py.str) (max_facts : Z) : list Py.str :=
  let sentences := Cli.sentences text in
  collect_facts (Py.slice_to sentences max_facts) [].

(** [[p.strip() for p in text.split('\n\n') if p.strip()]] *)
Definition paragraphs (text : Py.str) : list Py.str :=
  flat_map (fun q => if Utils.nonempty (Py.strip q) then [Py.strip q] else [])
           (Py.split_on2 10%N 10%N text).

(** The first page, counted from 1, that contains the paragraph. *)
Fixpoint find_page (paragraph : Py.str) (page_idx : Z) (pages : list Py.str)
  : option Z :=
  match pages with
  | [] => None
  | page_text :: pages' =>
      if Py.contains paragraph page_text then Some (page_idx + 1)
      else find_page paragraph (page_idx + 1) pages'
  end.

(** The [for i, paragraph in enumerate(paragraphs)] loop. *)
Fixpoint chunk_paragraphs (i : Z) (ps : list Py.str)
         (doc_id source_path : Py.str) (pages : option (list Py.str))
         (chunks : list Chunk) : res (list Chunk) :=
  match ps with
  | [] => Ok chunks
  | paragraph :: ps' =>
      if Py.len paragraph <? 50 then
        chunk_paragraphs (i + 1) ps' doc_id source_path pages chunks
      else
        chunk_id <- generate_chunk_id doc_id i ;;
        let page_num :=
          match pages with
          | Some pgs => find_page paragraph 0 pgs
          | None => None
          end in
        chunk_paragraphs (i + 1) ps' doc_id source_path pages
          (chunks ++ [mkChunk chunk_id doc_id i paragraph source_path
                              page_num None None])
  end.

Definition create_chunks (text doc_id source_path : Py.str)
           (pages : option (list Py.str)) : res (list Chunk) :=
  chunk_paragraphs 0 (paragraphs text) doc_id source_path pages [].

Definition process_document (e : env) (file_path : Py.str)
  : res (KnowledgeCard * list Chunk * Py.str) :=
  let source_path := file_path in
  checksum <- calculate_checksum e file_path ;;
  doc_id <- generate_doc_id source_path checksum ;;
  let ext := Py.lower (Utils.suffix file_path) in
  tp <- (if Py.str_eqb ext (Py.lit ".pdf") then
           r <- read_pdf_file e file_path ;; Ok (fst r, Some (snd r))
         else if Py.str_eqb ext (Py.lit ".txt") then
           r <- read_txt_file e file_path ;; Ok (fst r, None)
         else Raise) ;;
  let text := fst tp in
  let pages := snd tp in
  let facts := extract_facts text 5 in
  let card :=
    mkCard doc_id (Utils.stem file_path) None source_path facts
           [mkCitation doc_id source_path (Cli.text_excerpt text) None None] in
  chunks <- create_chunks text doc_id source_path pages ;;
  Ok (card, chunks, checksum).

Record acc := mkAcc {
  cards : list KnowledgeCard;
  all_chunks : list Chunk;
  acc_checksums : list (Py.str * Py.str);
  acc_skipped : list Py.str
}.

(** The [for file_path in files] loop with its [try]. *)
Fixpoint process (e : env) (fs : list Py.str) (a : acc) : acc :=
  match fs with
  | [] => a
  | file_path :: fs' =>
      match process_document e file_path with
      | Ok (card, chunks, checksum) =>
          process e fs'
            (mkAcc (cards a ++ [card]) (all_chunks a ++ chunks)
                   (dict_set (acc_checksums a) file_path checksum)
                   (acc_skipped a))
      | _ =>
          process e fs'
            (mkAcc (cards a) (all_chunks a) (acc_checksums a)
                   (acc_skipped a ++ [file_path]))
      end
  end.

Definition write_manifest (e : env) (cards : list KnowledgeCard)
           (chunks : list Chunk) (skipped : list Py.str)
           (sums : list (Py.str * Py.str)) : Manifest :=
  mkManifest (Py.len cards) (Py.len cards) (Py.len chunks) skipped sums
             (now e).

Record Output := mkOutput {
  cards_jsonl : list KnowledgeCard;
  chunks_jsonl : list Chunk;
  manifest_json : Manifest
}.

(** [process_folder(input_folder, output_folder)], [glob] being the
    paths that the two [glob] calls find, in their order. *)
Definition process_folder (e : env) (glob : list Py.str) : res Output :=
  if out_writable e then
    let files := Py.sort_by (fun q => q) glob in
    let a := process e files (mkAcc [] [] [] []) in
    Ok (mkOutput (cards a) (all_chunks a)
          (write_manifest e (cards a) (all_chunks a) (acc_skipped a)
                          (acc_checksums a)))
  else Raise.

End Processors.

(* ================================================================== *)
(** ** Vocabulary of the properties *)
(* ================================================================== *)

(** A word: at least one character, none of them white space. *)
Definition is_word (w : Py.str) : bool :=
  Utils.nonempty w && forallb (fun c => negb (Py.isspace c)) w.

Definition ascii_only (s : Py.str) : bool := forallb (fun c => (c <? 128)%N) s.

Definition long_sentence (s : Py.str) : bool := (Py.len s >? 20)%Z.

(** The word index at which the [k]-th window (counted from 0) of a loop
    entered at [start] begins. *)
Definition window_start (size overlap start : Z) (k : nat) : Z :=
  (start + Z.of_nat k * (size - overlap))%Z.

(** What the loop stores in the [k]-th chunk it appends, when entered at
    word [start] with ordinal [ord]. *)
Definition chunk_at (words : list Py.str) (doc_id source_path : Py.str)
           (size overlap start ord : Z) (k : nat) (c : Chunk) : Prop :=
  let s := window_start size overlap start k in
  chunk_ordinal c = (ord + Z.of_nat k)%Z
  /\ chunk_text c
     = Py.join Chunker.space
         (Py.slice words s (Z.min (s + size) (Py.len words)))
  /\ chunk_doc_id c = doc_id
  /\ chunk_source_path c = source_path
  /\ Utils.sha1 (doc_id ++ Chunker.colon ++ Py.str_of_int (ord + Z.of_nat k))
     = Ok (chunk_id c)
  /\ (s < Py.len words)%Z.

(** The files [load_folder] reads, and the reader it uses for each. *)
Definition supported (file_path : Py.str) : bool :=
  let file_ext := Py.lower (Utils.suffix file_path) in
  Loader.mem file_ext Loader.PDF_EXT || Loader.mem file_ext Loader.TXT_EXT.

Definition reader (e : env) (file_path : Py.str) : Loader.Document :=
  if Loader.mem (Py.lower (Utils.suffix file_path)) Loader.PDF_EXT
  then Loader.read_pdf e file_path else Loader.read_txt e file_path.

(** What one document adds to the cards, to the chunks and to the skip
    list of [build]. *)
Definition card_of (e : env) (doc : Loader.Document) : list KnowledgeCard :=
  match Cli.build_knowledge_card e doc with
  | Ok card => [card]
  | _ => []
  end.

Definition chunks_of (fuel : nat) (e : env) (chunk overlap : Z)
           (doc : Loader.Document) : list Chunk :=
  match Cli.build_knowledge_card e doc with
  | Ok card =>
      match Chunker.chunk_doc fuel doc (card_id card) chunk overlap with
      | Ok chunks => chunks
      | _ => []
      end
  | _ => []
  end.

Definition skip_of (e : env) (doc : Loader.Document) : list Py.str :=
  match Cli.build_knowledge_card e doc with
  | Ok _ => []
  | _ => [Loader.doc_path doc]
  end.

(** The id of the card that [build] makes for the text file at [path],
    and the id of the card that [process_document] makes for it. *)
Definition built_id (e : env) (path : Py.str) : res Py.str :=
  card <- Cli.build_knowledge_card e (Loader.read_txt e path) ;;
  Ok (card_id card).

Definition processed_id (e : env) (path : Py.str) : res Py.str :=
  r <- Processors.process_document e path ;;
  Ok (card_id (fst (fst r))).

(** *** The statements of the specification, in its words *)

(** The document id: the digest of the canonical path, a colon and the
    checksum of the content. *)
Definition spec_doc_id (e : env) (path : Py.str) : res Py.str :=
  checksum <- Processors.calculate_checksum e path ;;
  Utils.sha1 (Utils.canon (cwd e) path ++ Chunker.colon ++ checksum).

(** The facts: split on periods, trim, drop what has 20 characters or
    fewer, keep the first five. *)
Definition spec_facts (text : Py.str) : list Py.str :=
  firstn 5 (List.filter long_sentence
              (List.map Py.strip (Py.split_on Utils.dot text))).

(** The chunk bound: one chunk at least for a text that is not empty,
    ordinals [1..N], no chunk for the empty text. *)
Definition spec_chunk_bound (fuel : nat) (doc : Loader.Document)
           (doc_id : Py.str) (size overlap : Z) : Prop :=
  (Loader.doc_text doc <> [] ->
   exists chunks,
     Chunker.chunk_doc fuel doc doc_id size overlap = Ok chunks
     /\ (1 <= List.length chunks)%nat
     /\ List.map chunk_ordinal chunks
        = List.map Z.of_nat (seq 1 (List.length chunks)))
  /\ (Loader.doc_text doc = [] ->
      Chunker.chunk_doc fuel doc doc_id size overlap = Ok []).

(** The excerpt: the text itself up to 200 characters, the first 200 and
    a marker beyond, never more than 200 characters. *)
Definition spec_excerpt (text excerpt : Py.str) : Prop :=
  ((Py.len text <= 200)%Z -> excerpt = text)
  /\ ((200 < Py.len text)%Z ->
      exists marker, marker <> [] /\ excerpt = firstn 200 text ++ marker)
  /\ (Py.len excerpt <= 200)%Z.

(** Skip isolation: the run succeeds, one card comes out, the file that
    cannot be decoded is on the skip list of the manifest. *)
Definition spec_skip_isolation (run : res Writer.Output) (bad : Py.str)
  : Prop :=
  exists out,
    run = Ok out
    /\ List.length (Writer.cards_jsonl out) = 1%nat
    /\ In bad (Writer.skipped_files (Writer.manifest_json out)).

(** *** Sample folders and documents *)

(** Readable text files, no PDF that parses, an output folder that can be
    written, /work as the working directory. *)
Definition text_file (text : Py.str) : Fs.file := Fs.mkFile text true.

Definition no_pdf : Fs.pdf_reader := fun _ => None.

Definition sample_env (fs : Fs.t) : env :=
  mkEnv (Py.lit "/work") fs no_pdf true (Py.lit "2024-05-01T12:00:00").

(** One file, a.txt, of three words; the document the loader makes of it;
    the same file rewritten with three other words of the same length. *)
Definition abc_env : env :=
  sample_env [(Py.lit "/in/a.txt", text_file (Py.lit "a b c"))].

Definition abc_doc : Loader.Document :=
  Loader.mkDoc (Py.lit "/in/a.txt") Loader.KindTxt (Py.lit "a b c") None
               (Some [Py.lit "a b c"]) 5.

Definition xyz_env : env :=
  sample_env [(Py.lit "/in/a.txt", text_file (Py.lit "x y z"))].

(** The folder given by a relative path, as [process_folder] globs it. *)
Definition rel_env : env :=
  sample_env [(Py.lit "in/a.txt", text_file (Py.lit "a b c"))].

(** Two text files, and the same folder at a later time. *)
Definition two_env : env :=
  sample_env [(Py.lit "/in/a.txt", text_file (Py.lit "a b c"));
              (Py.lit "/in/b.txt", text_file (Py.lit "a b c d e"))].

Definition two_env_later : env :=
  mkEnv (cwd two_env) (files two_env) (pdf two_env) true
        (Py.lit "2031-11-30T08:15:00").

Definition abcde_doc : Loader.Document :=
  Loader.mkDoc (Py.lit "/in/b.txt") Loader.KindTxt (Py.lit "a b c d e") None
               (Some [Py.lit "a b c d e"]) 9.

(** A text file of one space, and one of 201 letters x. *)
Definition blank_doc : Loader.Document :=
  Loader.mkDoc (Py.lit "/in/blank.txt") Loader.KindTxt (Py.lit " ") None
               (Some [Py.lit " "]) 1.

Definition doc_201 : Loader.Document :=
  Loader.mkDoc (Py.lit "/in/x.txt") Loader.KindTxt (List.repeat 120%N 201)
               None (Some [List.repeat 120%N 201]) 201.

(** Five short sentences, then a long one. *)
Definition short_then_long : Py.str :=
  Py.lit "One. Two. Three. Four. Five. The sixth sentence is a long one.".

(** The example text of the test suite. *)
Definition ml_text : Py.str :=
  Py.lit "Machine Learning (ML) is a subset of AI. "
  ++ Py.lit "It uses algorithms to learn patterns.".

(** A folder with a well-formed text file and a file whose two bytes are
    no UTF-8. *)
Definition bad_file : Fs.file := Fs.mkFile [255; 254]%N true.

Definition mixed_env : env :=
  sample_env [(Py.lit "/in/good.txt", text_file ml_text);
              (Py.lit "/in/bad.txt", bad_file)].

(* ================================================================== *)
(** ** cli.py: the command [inspect] *)
(* ================================================================== *)

Module Inspect.


End Inspect.

(* ================================================================== *)
(** ** More vocabulary *)
(* ================================================================== *)

(** The words of a chunk, read back from its text. *)
Definition chunk_words (c : Chunk) : list Py.str := Py.split (chunk_text c).

(** A list of paths in the order of [sort]: no path is followed by a
    smaller one. *)
Fixpoint sorted_paths (l : list Py.str) : bool :=
  match l with
  | [] => true
  | a :: l' =>
      match l' with
      | [] => true
      | b :: _ => negb (Py.str_ltb b a) && sorted_paths l'
      end
  end.

(** The text of a page as [read_pdf] keeps it. *)
Definition page_text (p : option Py.str) : Py.str :=
  match p with Some t => t | None => [] end.

Definition hex_char (c : Py.char) : bool :=
  ((48 <=? c) && (c <=? 57) || (97 <=? c) && (c <=? 102))%N.

(** The chunks put end to end, each after the first without the
    [overlap] words it shares with the one before. *)
Definition stitch (overlap : Z) (chunks : list Chunk) : list Py.str :=
  match chunks with
  | [] => []
  | c :: rest =>
      chunk_words c
      ++ flat_map (fun c' => skipn (Z.to_nat overlap) (chunk_words c')) rest
  end.

(** Seven words, and a document id. *)
Definition seven_doc : Loader.Document :=
  Loader.mkDoc (Py.lit "/in/c.txt") Loader.KindTxt
               (Py.lit "a  b c d e f g") None
               (Some [Py.lit "a  b c d e f g"]) 14.

Definition some_id : Py.str := Py.lit "d0c1d".

(** A string that neither begins nor ends with white space. *)
Definition trimmed (s : Py.str) : bool :=
  match s with
  | [] => true
  | c :: _ => negb (Py.isspace c) && negb (Py.isspace (last s c))
  end.


(** Whether a page came out of [extract_text]. *)
Definition extracted (p : option Py.str) : bool :=
  match p with Some _ => true | None => false end.

(** The text that the page loop of either PDF reader builds: each page and
    a newline. *)
Definition pages_text (ps : list (option Py.str)) : Py.str :=
  List.concat (List.map (fun p => page_text p ++ Loader.newline) ps).

(** A folder with one PDF of three pages, the second of which fails to
    extract, and one whose pages all extract. *)
Definition three_pages : list (option Py.str) :=
  [Some (Py.lit "page one"); None; Some (Py.lit "page three")].

Definition paged_env : env :=
  mkEnv (Py.lit "/work")
        [(Py.lit "/in/r.pdf", Fs.mkFile [37; 80; 68; 70]%N true);
         (Py.lit "/in/s.pdf", Fs.mkFile [37; 80; 68; 70; 50]%N true)]
        (fun bs => if (Py.len bs =? 4)%Z then Some three_pages
                   else Some [Some (Py.lit "only page")])
        true (Py.lit "2024-05-01T12:00:00").

(** [enumerate(l, i)] *)
Fixpoint enumerate_from {A} (i : Z) (l : list A) : list (Z * A) :=
  match l with
  | [] => []
  | x :: l' => (i, x) :: enumerate_from (i + 1) l'
  end.

(** Whether [process_document] returns for a file. *)
Definition processed (e : env) (file_path : Py.str) : bool :=
  match Processors.process_document e file_path with
  | Ok _ => true
  | _ => false
  end.

(** A text of three paragraphs, the second of them short. *)
Definition three_paragraphs : Py.str :=
  Py.lit "The first paragraph of the text has more than fifty characters."
  ++ [10; 10]%N ++ Py.lit "A short one." ++ [10; 10]%N
  ++ Py.lit "The third paragraph of the text is as long as the first one.".

Definition para_env : env :=
  sample_env [(Py.lit "in/p.txt", text_file three_paragraphs);
              (Py.lit "in/q.md", text_file (Py.lit "a b c"))].


(* ================================================================== *)
(** ** The highlight picker hi5: score.py, select.py and the command
    [pick] of its cli.py *)
(* ================================================================== *)

Module Hi5.

Local Open Scope Z_scope.

(** The set [KEYWORDS], its elements in the order of the source text. *)
Definition KEYWORDS : list Py.str :=
  [Py.lit "summary"; Py.lit "key"; Py.lit "result"; Py.lit "finding";
   Py.lit "todo"].

Definition MIN_LENGTH : Z := 40.
Definition MAX_LENGTH : Z := 160.
Definition MIN_CAPS_LENGTH : Z := 3.

(** [[line.rstrip() for line in raw.splitlines()]] *)
Definition normalize_lines (raw : Py.str) : list Py.str :=
  List.map Py.rstrip (Fs.splitlines raw).

Definition is_upper_letter (c : Py.char) : bool :=
  ((65 <=? c) && (c <=? 90))%N.

Definition is_lower_letter (c : Py.char) : bool :=
  ((97 <=? c) && (c <=? 122))%N.

(** [re.sub(r'[^a-zA-Z]', '', line)] *)
Definition letters_of (line : Py.str) : Py.str :=
  List.filter (fun c => is_lower_letter c || is_upper_letter c) line.

(** [letters.isupper()] on a string of the letters a-z and A-Z: there is a
    letter, and none is lowercase. *)
Definition isupper (letters : Py.str) : bool :=
  Utils.nonempty letters && negb (existsb is_lower_letter letters).

Definition is_all_caps (line : Py.str) : bool :=
  let letters := letters_of line in
  (Py.len letters >=? MIN_CAPS_LENGTH) && isupper letters.

(** [line.endswith('.')] *)
Definition ends_with_period (line : Py.str) : bool :=
  match rev line with
  | c :: _ => N.eqb c Utils.dot
  | [] => false
  end.

Section ScoreLine.

(** [str.lower], and the keywords in the order in which the iteration of
    the set [KEYWORDS] yields them in the run. *)
Variable lower : Py.str -> Py.str.
Variable keywords : list Py.str.

(** The [for keyword in KEYWORDS] loop with its [break]: the first
    keyword found in the line. *)
Definition first_keyword (line_lower : Py.str) : option Py.str :=
  List.find (fun keyword => Py.contains keyword line_lower) keywords.

Definition score_line (line : Py.str) : Z * list Py.str :=
  if negb (Utils.nonempty (Py.strip line)) then (0, [])
  else
    let '(score, reasons) :=
      if ends_with_period line then (1, [Py.lit "period"]) else (0, []) in
    let line_lower := lower line in
    let '(score, reasons) :=
      match first_keyword line_lower with
      | Some keyword =>
          (score + 1, reasons ++ [Py.lit "keyword=" ++ keyword])
      | None => (score, reasons)
      end in
    let '(score, reasons) :=
      if Py.starts_with (Py.lit "- ") line
         || Py.starts_with ([8226; 32]%N) line
      then (score + 1, reasons ++ [Py.lit "bullet"])
      else (score, reasons) in
    let line_len := Py.len line in
    let '(score, reasons) :=
      if (MIN_LENGTH <=? line_len) && (line_len <=? MAX_LENGTH)
      then (score + 1, reasons ++ [Py.lit "len=" ++ Py.str_of_int line_len])
      else (score, reasons) in
    if is_all_caps line then (score - 1, reasons ++ [Py.lit "all_caps"])
    else (score, reasons).

(** A candidate of [pick_highlights], and a highlight. *)
Record Candidate := mkCandidate {
  cand_score : Z;
  cand_line_no : Z;
  cand_text : Py.str;
  cand_reasons : list Py.str
}.

Record Highlight := mkHighlight {
  rank : Z;
  line_no : Z;
  text : Py.str;
  reason : Py.str
}.

(** The [for i, line in enumerate(lines, 1)] loop. *)
Fixpoint candidates_from (i : Z) (lines : list Py.str) : list Candidate :=
  match lines with
  | [] => []
  | line :: lines' =>
      let '(score, reasons) := score_line line in
      if score >? 0
      then mkCandidate score i line reasons :: candidates_from (i + 1) lines'
      else candidates_from (i + 1) lines'
  end.

(** The sort key [(-x['score'], x['line_no'])] and the order of tuples. *)
Definition sort_key (x : Candidate) : Z * Z :=
  (- cand_score x, cand_line_no x).

Definition key_ltb (a b : Z * Z) : bool :=
  (fst a <? fst b) || ((fst a =? fst b) && (snd a <? snd b)).

(** [candidates.sort(key=...)]: stable, an element goes before the first
    one whose key is not smaller. *)
Fixpoint insert_candidate (x : Candidate) (l : list Candidate)
  : list Candidate :=
  match l with
  | [] => [x]
  | y :: l' =>
      if key_ltb (sort_key y) (sort_key x) then y :: insert_candidate x l'
      else x :: l
  end.

Fixpoint sort_candidates (l : list Candidate) : list Candidate :=
  match l with
  | [] => []
  | x :: l' => insert_candidate x (sort_candidates l')
  end.

(** The [for rank, candidate in enumerate(candidates[:k], 1)] loop. *)
Fixpoint highlights_from (rank : Z) (cs : list Candidate) : list Highlight :=
  match cs with
  | [] => []
  | candidate :: cs' =>
      mkHighlight rank (cand_line_no candidate) (cand_text candidate)
                  (Py.join (Py.lit "; ") (cand_reasons candidate))
      :: highlights_from (rank + 1) cs'
  end.

Definition pick_highlights (lines : list Py.str) (k : Z) : list Highlight :=
  let candidates := sort_candidates (candidates_from 1 lines) in
  highlights_from 1 (Py.slice_to candidates k).

(** [hi5 pick --path path]: the checks on the path, the file read as
    UTF-8, the lines scored and the five best written to highlights.json
    and highlights.md beside the input.  [Raise] is [click.Abort], or the
    error of a write; what is returned is what is written. *)
Definition pick (e : env) (path : Py.str) : res (list Highlight) :=
  match Fs.lookup (files e) path with
  | None => Raise
  | Some f =>
      if negb (Loader.mem (Py.lower (Utils.suffix path))
                          [Py.lit ".txt"; Py.lit ".md"])
      then Raise
      else
        match Fs.read_utf8 f with
        | Ok raw_content =>
            let lines := normalize_lines raw_content in
            let highlights := pick_highlights lines 5 in
            if out_writable e then Ok highlights else Raise
        | _ => Raise
        end
  end.

End ScoreLine.

End Hi5.

(** A few lines for the picker, all of them ASCII. *)
Definition sample_lines : list Py.str :=
  [Py.lit "Short line";
   Py.lit "This is a longer line that ends with a period.";
   Py.lit "- This is a bullet point";
   Py.lit "The key result is here.";
   Py.lit "ANOTHER ALL CAPS LINE"].

(** One highlight stands before another: a higher score, or the same score
    and an earlier line. *)
Definition ranks_before (score : Py.str -> Z) (h h' : Hi5.Highlight) : Prop :=
  (score (Hi5.text h') < score (Hi5.text h))%Z
  \/ (score (Hi5.text h') = score (Hi5.text h)
      /\ (Hi5.line_no h < Hi5.line_no h')%Z).

(** A list of candidates in the order of the sort: no candidate is
    followed, at any distance, by one with a smaller key. *)
Fixpoint ordered (l : list Hi5.Candidate) : Prop :=
  match l with
  | [] => True
  | x :: l' =>
      Forall (fun y => Hi5.key_ltb (Hi5.sort_key y) (Hi5.sort_key x) = false)
             l'
      /\ ordered l'
  end.

(** What a candidate made from [lines], numbered from [i], holds. *)
Definition candidate_of (lower : Py.str -> Py.str) (keywords : list Py.str)
           (i : Z) (lines : list Py.str) (c : Hi5.Candidate) : Prop :=
  (i <= Hi5.cand_line_no c < i + Py.len lines)%Z
  /\ nth_error lines (Z.to_nat (Hi5.cand_line_no c - i))
     = Some (Hi5.cand_text c)
  /\ Hi5.score_line lower keywords (Hi5.cand_text c)
     = (Hi5.cand_score c, Hi5.cand_reasons c)
  /\ (0 < Hi5.cand_score c)%Z.

(** A file of notes for the picker. *)
Definition notes_env : env :=
  sample_env
    [(Py.lit "/in/notes.txt",
      text_file (Py.lit "Short line  " ++ [10%N]
                 ++ Py.lit "The key result is here." ++ [13; 10]%N
                 ++ Py.lit "- a bullet point   "))].

(* ================================================================== *)
(** * Properties *)
(* ================================================================== *)

(** Case analysis on the result of a call on concrete arguments: the two
    cases that evaluation rules out are closed. *)
Tactic Notation "evaluate" constr(r) "as" ident(v) ident(H) :=
  destruct r as [v| |] eqn:H; try (vm_compute in H; discriminate H).

(** Conjunctions of closed equations and inequations, by evaluation. *)
Ltac by_evaluation :=
  repeat apply conj; vm_compute; solve [reflexivity | discriminate].

Example split_on_ex :
  Py.split_on 46%N (Py.lit "a.b..c.") =
  [Py.lit "a"; Py.lit "b"; []; Py.lit "c"; []].
Proof. reflexivity. Qed.

Example split_ex :
  Py.split (Py.lit "  ab  c d ") = [Py.lit "ab"; Py.lit "c"; Py.lit "d"].
Proof. reflexivity. Qed.

Example slice_ex :
  Py.slice [1;2;3;4;5]%Z 1 (-1) = [2;3;4]%Z
  /\ Py.slice [1;2;3]%Z 2 1 = []
  /\ Py.slice [1;2;3]%Z (-5) 2 = [1;2]%Z.
Proof. repeat apply conj; reflexivity. Qed.

Example str_of_int_ex :
  Py.str_of_int 0 = Py.lit "0" /\ Py.str_of_int 1203 = Py.lit "1203"
  /\ Py.str_of_int (-45) = Py.lit "-45".
Proof. repeat apply conj; reflexivity. Qed.

Example sha1_vectors :
  SHA1.hexdigest [] = Py.lit "da39a3ee5e6b4b0d3255bfef95601890afd80709"
  /\ SHA1.hexdigest [97; 98; 99]%N
     = Py.lit "a9993e364706816aba3e25717850c26c9cd0d89d"
  /\ SHA1.hexdigest (List.repeat 97%N 55)
     = Py.lit "c1c8bbdc22796e28c0e15163d20899b65621d65a"
  /\ SHA1.hexdigest (List.repeat 97%N 56)
     = Py.lit "c2db330f6083854c99d4b5bfb6e8f29f201be699"
  /\ SHA1.hexdigest (List.repeat 97%N 64)
     = Py.lit "0098ba824b5c16427bd7a1122a5a442a25ec644d"
  /\ SHA1.hexdigest (List.repeat 97%N 119)
     = Py.lit "ee971065aaa017e0632a8ca6c77bb3bf8b1dfc56".
Proof. by_evaluation. Qed.

Example encode_utf8_ex :
  Py.encode_utf8 [104; 233; 8364; 128512]%N
  = Some [104; 195; 169; 226; 130; 172; 240; 159; 152; 128]%N
  /\ Py.encode_utf8 [56575]%N = None
  /\ Utils.sha1 (Py.lit "/in/a.txt:5")
     = Ok (Py.lit "7dc4dac95ce6bf282314c6874e3b62e8f804ddfa")
  /\ Utils.sha1 [56575]%N = Raise.
Proof. by_evaluation. Qed.

Example split_on2_ex :
  Py.split_on2 10%N 10%N [10; 10; 10]%N = [[]; [10%N]]
  /\ Py.split_on2 10%N 10%N [97; 10; 10; 10; 10; 98]%N
     = [[97%N]; []; [98%N]].
Proof. repeat apply conj; reflexivity. Qed.

Example canon_ex :
  Utils.canon (Py.lit "/home/u") (Py.lit "in/./a/../doc.txt")
  = Py.lit "/home/u/in/doc.txt"
  /\ Utils.canon (Py.lit "/home/u") (Py.lit "/data//x.md") = Py.lit "/data/x.md"
  /\ Utils.canon (Py.lit "/home/u") (Py.lit "../../../..") = Py.lit "/"
  /\ Utils.canon (Py.lit "/home/u") (Py.lit "//srv/x") = Py.lit "//srv/x"
  /\ Utils.canon (Py.lit "/home/u") (Py.lit "///srv/x") = Py.lit "/srv/x".
Proof. repeat apply conj; reflexivity. Qed.

Example suffix_stem_ex :
  Utils.suffix (Py.lit "/in/report.final.PDF") = Py.lit ".PDF"
  /\ Utils.stem (Py.lit "/in/report.final.PDF") = Py.lit "report.final"
  /\ Utils.suffix (Py.lit "/in/.bashrc") = []
  /\ Utils.stem (Py.lit "/in/.bashrc") = Py.lit ".bashrc"
  /\ Utils.suffix (Py.lit "notes.") = [].
Proof. repeat apply conj; reflexivity. Qed.

Example decode_utf8_ex :
  Fs.decode_utf8 [104; 195; 169; 226; 130; 172]%N = Some [104; 233; 8364]%N
  /\ Fs.decode_utf8 [255; 254]%N = None
  /\ Fs.decode_utf8 [192; 128]%N = None
  /\ Fs.decode_utf8 [237; 160; 128]%N = None.
Proof. repeat apply conj; reflexivity. Qed.

Example splitlines_ex :
  Fs.splitlines (Py.lit "ab" ++ [10] ++ [13; 10] ++ Py.lit "c" ++ [10])%N
  = [Py.lit "ab"; []; Py.lit "c"].
Proof. reflexivity. Qed.

(* ================================================================== *)
(** ** Words, joins and slices *)
(* ================================================================== *)

Lemma is_word_cons c w :
  is_word (c :: w) = true ->
  Py.isspace c = false /\ (w = [] \/ is_word w = true).
Proof.
  unfold is_word; simpl. intros H.
  apply andb_prop in H as [Hc Hw]. apply negb_true_iff in Hc.
  split; [exact Hc|]. destruct w as [|d w]; [now left|right; exact Hw].
Qed.

Lemma split_words s : Forall (fun w => is_word w = true) (Py.split s).
Proof.
  induction s as [|c s IH]; simpl; [constructor|].
  destruct (Py.isspace c) eqn:Hc; [exact IH|].
  destruct s as [|d s'].
  - constructor; [|constructor]. unfold is_word; simpl. now rewrite Hc.
  - destruct (Py.isspace d) eqn:Hd.
    + constructor; [|exact IH]. unfold is_word; simpl. now rewrite Hc.
    + destruct (Py.split (d :: s')) as [|w ws] eqn:Hs.
      * constructor; [|constructor]. unfold is_word; simpl. now rewrite Hc.
      * inversion IH as [|? ? Hw Hws]; subst.
        constructor; [|exact Hws].
        unfold is_word in *; simpl. rewrite Hc; simpl.
        apply andb_prop in Hw as [_ Hw]. exact Hw.
Qed.

Lemma split_one_word w : is_word w = true -> Py.split w = [w].
Proof.
  induction w as [|c w IH]; [discriminate|].
  intros H. apply is_word_cons in H as [Hc [-> | Hw]]; simpl; rewrite Hc.
  - reflexivity.
  - destruct w as [|d w']; [discriminate|].
    pose proof (is_word_cons _ _ Hw) as [Hd _]. rewrite Hd.
    now rewrite (IH Hw).
Qed.

Lemma split_word_space w t :
  is_word w = true -> Py.split (w ++ 32%N :: t) = w :: Py.split t.
Proof.
  induction w as [|c w IH]; [discriminate|].
  intros H. apply is_word_cons in H as [Hc [-> | Hw]]; simpl; rewrite Hc.
  - reflexivity.
  - destruct w as [|d w']; [discriminate|].
    pose proof (is_word_cons _ _ Hw) as [Hd _].
    rewrite (IH Hw). simpl. now rewrite Hd.
Qed.

(** Splitting the space-joined words gives the words back. *)
Lemma split_join ws :
  Forall (fun w => is_word w = true) ws ->
  Py.split (Py.join Chunker.space ws) = ws.
Proof.
  induction 1 as [|w ws Hw Hws IH]; [reflexivity|].
  destruct ws as [|v ws'].
  - simpl. now apply split_one_word.
  - change (Py.join Chunker.space (w :: v :: ws'))
      with (w ++ 32%N :: Py.join Chunker.space (v :: ws')).
    rewrite split_word_space by exact Hw. now rewrite IH.
Qed.

Lemma join_nonempty ws :
  ws <> [] -> Forall (fun w => is_word w = true) ws ->
  Py.join Chunker.space ws <> [].
Proof.
  intros Hne Hws. destruct ws as [|w ws]; [congruence|].
  inversion Hws as [|? ? Hw _]; subst.
  destruct w as [|c w]; [discriminate|].
  simpl. destruct ws; discriminate.
Qed.

Lemma len_nonneg {A} (l : list A) : (0 <= Py.len l)%Z.
Proof. unfold Py.len; lia. Qed.

(** A slice between two indices in range. *)
Lemma slice_in_range {A} (l : list A) (i j : Z) :
  (0 <= i <= j)%Z -> (j <= Py.len l)%Z ->
  Py.slice l i j = firstn (Z.to_nat (j - i)) (skipn (Z.to_nat i) l).
Proof.
  intros Hi Hj. unfold Py.slice, Py.slice_index.
  destruct (Z.ltb_spec i 0); [lia|]. destruct (Z.ltb_spec j 0); [lia|].
  rewrite !Z.min_l by lia. reflexivity.
Qed.

Lemma slice_length {A} (l : list A) (i j : Z) :
  (0 <= i <= j)%Z -> (j <= Py.len l)%Z ->
  Py.len (Py.slice l i j) = (j - i)%Z.
Proof.
  intros Hi Hj. rewrite slice_in_range by assumption.
  unfold Py.len in *. rewrite length_firstn, length_skipn. lia.
Qed.

Lemma In_firstn {A} (x : A) n l : In x (firstn n l) -> In x l.
Proof.
  intros H. rewrite <- (firstn_skipn n l). apply in_or_app. now left.
Qed.

Lemma In_skipn {A} (x : A) n l : In x (skipn n l) -> In x l.
Proof.
  intros H. rewrite <- (firstn_skipn n l). apply in_or_app. now right.
Qed.

Lemma slice_Forall {A} (P : A -> Prop) (l : list A) (i j : Z) :
  Forall P l -> Forall P (Py.slice l i j).
Proof.
  intros H. unfold Py.slice.
  apply Forall_forall. intros x Hx.
  apply In_firstn, In_skipn in Hx.
  rewrite Forall_forall in H. now apply H.
Qed.

(* ================================================================== *)
(** ** Encoding and digests *)
(* ================================================================== *)

Lemma encode_utf8_app a b :
  Py.encode_utf8 (a ++ b) =
  match Py.encode_utf8 a, Py.encode_utf8 b with
  | Some x, Some y => Some (x ++ y)
  | _, _ => None
  end.
Proof.
  induction a as [|c a IH]; simpl.
  - now destruct (Py.encode_utf8 b).
  - rewrite IH. destruct (Py.encode_char c); [|reflexivity].
    destruct (Py.encode_utf8 a); [|reflexivity].
    destruct (Py.encode_utf8 b); [|reflexivity].
    now rewrite app_assoc.
Qed.

Lemma encodable_app a b :
  Py.encodable (a ++ b) = Py.encodable a && Py.encodable b.
Proof.
  unfold Py.encodable. rewrite encode_utf8_app.
  destruct (Py.encode_utf8 a), (Py.encode_utf8 b); reflexivity.
Qed.

Lemma ascii_encodable s : ascii_only s = true -> Py.encodable s = true.
Proof.
  unfold Py.encodable. induction s as [|c s IH]; simpl; [reflexivity|].
  intros H. apply andb_prop in H as [Hc Hs]. specialize (IH Hs).
  unfold Py.encode_char. rewrite Hc.
  destruct (Py.encode_utf8 s); [reflexivity|discriminate].
Qed.

Lemma of_uint_ascii d : ascii_only (Py.of_uint d) = true.
Proof. induction d; simpl; auto. Qed.

Lemma str_of_int_ascii z : ascii_only (Py.str_of_int z) = true.
Proof. destruct z; simpl; auto using of_uint_ascii. Qed.

Lemma hex_digit_ascii n : (n < 16)%N -> (SHA1.hex_digit n <? 128)%N = true.
Proof.
  intros H. unfold SHA1.hex_digit. apply N.ltb_lt.
  destruct (N.ltb_spec n 10); lia.
Qed.

Lemma hex8_ascii x : ascii_only (SHA1.hex8 x) = true.
Proof.
  unfold SHA1.hex8, ascii_only. rewrite forallb_forall. intros c Hc.
  apply in_map_iff in Hc as [k [<- _]].
  apply hex_digit_ascii. apply N.mod_lt. discriminate.
Qed.

Lemma ascii_only_app a b : ascii_only (a ++ b) = ascii_only a && ascii_only b.
Proof. apply forallb_app. Qed.

Lemma hexdigest_ascii bs : ascii_only (SHA1.hexdigest bs) = true.
Proof.
  unfold SHA1.hexdigest. rewrite !ascii_only_app, !hex8_ascii. reflexivity.
Qed.

(** The digest is always forty characters long. *)
Lemma hexdigest_length bs : List.length (SHA1.hexdigest bs) = 40%nat.
Proof. unfold SHA1.hexdigest. rewrite !length_app. reflexivity. Qed.

(** [sha1] raises on a string that UTF-8 cannot encode, and on no
    other. *)
Lemma sha1_encodable s :
  Py.encodable s = true -> exists h, Utils.sha1 s = Ok h.
Proof.
  unfold Py.encodable, Utils.sha1.
  destruct (Py.encode_utf8 s); [eauto|discriminate].
Qed.

Lemma sha1_not_encodable s :
  Py.encodable s = false -> Utils.sha1 s = Raise.
Proof.
  unfold Py.encodable, Utils.sha1.
  destruct (Py.encode_utf8 s); [discriminate|reflexivity].
Qed.

Lemma sha1_never_times_out s : Utils.sha1 s <> OutOfFuel.
Proof. unfold Utils.sha1. destruct (Py.encode_utf8 s); discriminate. Qed.

Lemma sha1_Ok s h :
  Utils.sha1 s = Ok h ->
  Py.encodable s = true /\ List.length h = 40%nat /\ ascii_only h = true.
Proof.
  unfold Utils.sha1, Py.encodable. destruct (Py.encode_utf8 s); [|discriminate].
  intros [= <-]. auto using hexdigest_length, hexdigest_ascii.
Qed.

(** The string hashed for a chunk id can be encoded exactly when the
    document id can. *)
Lemma chunk_key_encodable doc_id ordinal :
  Py.encodable (doc_id ++ Chunker.colon ++ Py.str_of_int ordinal)
  = Py.encodable doc_id.
Proof.
  rewrite !encodable_app.
  rewrite (ascii_encodable (Py.str_of_int ordinal)) by apply str_of_int_ascii.
  change (Py.encodable Chunker.colon) with true.
  now rewrite !andb_true_r.
Qed.

(* ================================================================== *)
(** ** The chunking loop *)
(* ================================================================== *)

Section ChunkLoop.

Variables (words : list Py.str) (doc_id source_path : Py.str).
Variables (size overlap : Z).

Local Open Scope Z_scope.

Local Abbreviation n := (Py.len words).
Local Abbreviation loop fuel :=
  (Chunker.chunk_loop fuel words doc_id source_path size overlap).

(** One iteration. *)
Lemma chunk_loop_S fuel start ord acc :
  loop (S fuel) start ord acc =
  if start <? n then
    cid <- Utils.sha1 (doc_id ++ Chunker.colon ++ Py.str_of_int ord) ;;
    let acc' :=
      acc ++ [mkChunk cid doc_id ord
                (Py.join Chunker.space
                   (Py.slice words start (Z.min (start + size) n)))
                source_path None None None] in
    if Z.min (start + size) n >=? n then Ok acc'
    else loop fuel (Z.min (start + size) n - overlap) (ord + 1) acc'
  else Ok acc.
Proof. reflexivity. Qed.

(** Whatever the loop returns is the accumulator followed by the chunks
    of the successive windows; every window but the last is full. *)
Lemma chunk_loop_spec fuel : forall start ord acc res,
  loop fuel start ord acc = Ok res ->
  exists new,
    res = acc ++ new
    /\ (forall k c, nth_error new k = Some c ->
          chunk_at words doc_id source_path size overlap start ord k c)
    /\ (forall k, (S k < List.length new)%nat ->
          window_start size overlap start k + size < n)
    /\ (start < n -> new <> []).
Proof.
  induction fuel as [|fuel IH]; intros start ord acc res;
    [discriminate|]. rewrite chunk_loop_S.
  destruct (Z.ltb_spec start n) as [Hlt|Hge].
  2:{ intros [= <-]. exists []. rewrite app_nil_r.
      split; [reflexivity|]. split; [|split].
      - intros [|k] c; discriminate.
      - simpl; lia.
      - lia. }
  destruct (Utils.sha1 (doc_id ++ Chunker.colon ++ Py.str_of_int ord))
    as [cid| |] eqn:Hsha; simpl; try discriminate.
  set (c0 := mkChunk cid doc_id ord
              (Py.join Chunker.space
                 (Py.slice words start (Z.min (start + size) n)))
              source_path None None None).
  assert (H0 : chunk_at words doc_id source_path size overlap start ord 0 c0).
  { unfold chunk_at, window_start; simpl.
    rewrite !Z.add_0_r. repeat split; auto. }
  destruct (Z.geb_spec (Z.min (start + size) n) n) as [Hend|Hend].
  - intros [= <-]. exists [c0].
    split; [reflexivity|]. split; [|split].
    + intros [|[|k]] c; simpl; try discriminate. now intros [= <-].
    + simpl; lia.
    + discriminate.
  - intros Hrun. apply IH in Hrun as (new & -> & Hnth & Hfull & _).
    exists (c0 :: new). rewrite <- app_assoc.
    split; [reflexivity|]. split; [|split].
    + intros [|k] c; simpl; [now intros [= <-]|].
      intros Hk. apply Hnth in Hk.
      unfold chunk_at, window_start in *.
      replace (Z.min (start + size) n - overlap
               + Z.of_nat k * (size - overlap))
        with (start + Z.of_nat (S k) * (size - overlap)) in Hk by lia.
      replace (ord + 1 + Z.of_nat k) with (ord + Z.of_nat (S k)) in Hk by lia.
      exact Hk.
    + intros [|k] Hk; unfold window_start in *.
      * lia.
      * simpl in Hk. specialize (Hfull k ltac:(lia)). lia.
    + discriminate.
Qed.

(** More fuel does not change a result. *)
Lemma chunk_loop_fuel fuel : forall fuel' start ord acc res,
  (fuel <= fuel')%nat ->
  loop fuel start ord acc = Ok res -> loop fuel' start ord acc = Ok res.
Proof.
  induction fuel as [|fuel IH]; intros fuel' start ord acc res Hle;
    [discriminate|].
  destruct fuel' as [|fuel']; [lia|]. rewrite !chunk_loop_S.
  destruct (start <? n); [|auto].
  destruct (Utils.sha1 _); simpl; auto.
  destruct (_ >=? _); [auto|]. apply IH. lia.
Qed.

(** With [overlap < size] the start of the window moves forward, and the
    loop is over after at most [n - start] iterations. *)
Lemma chunk_loop_terminates fuel : forall start ord acc,
  overlap < size -> Py.encodable doc_id = true ->
  (Z.to_nat (n - start) < fuel)%nat ->
  exists res, loop fuel start ord acc = Ok res.
Proof.
  induction fuel as [|fuel IH]; intros start ord acc Hd Henc Hfuel;
    [lia|]. rewrite chunk_loop_S.
  destruct (Z.ltb_spec start n) as [Hlt|Hge]; [|eauto].
  destruct (sha1_encodable (doc_id ++ Chunker.colon ++ Py.str_of_int ord))
    as [cid ->]; [now rewrite chunk_key_encodable|]. simpl.
  destruct (Z.geb_spec (Z.min (start + size) n) n) as [Hend|Hend]; [eauto|].
  apply IH; auto. lia.
Qed.

(** With [overlap >= size] and more than [size] words the start never
    moves forward: the loop uses up any fuel. *)
Lemma chunk_loop_diverges fuel : forall start ord acc,
  size <= overlap -> Py.encodable doc_id = true ->
  0 < n -> size < n -> start <= 0 ->
  loop fuel start ord acc = OutOfFuel.
Proof.
  induction fuel as [|fuel IH]; intros start ord acc Hd Henc Hn Hsz Hst;
    [reflexivity|]. rewrite chunk_loop_S.
  destruct (Z.ltb_spec start n) as [Hlt|Hge]; [|lia].
  destruct (sha1_encodable (doc_id ++ Chunker.colon ++ Py.str_of_int ord))
    as [cid ->]; [now rewrite chunk_key_encodable|]. simpl.
  destruct (Z.geb_spec (Z.min (start + size) n) n) as [Hend|Hend]; [lia|].
  apply IH; auto. lia.
Qed.

(** A document id that cannot be encoded makes the first iteration
    raise. *)
Lemma chunk_loop_raises fuel start ord acc :
  Py.encodable doc_id = false -> start < n ->
  loop (S fuel) start ord acc = Raise.
Proof.
  intros Henc Hlt. rewrite chunk_loop_S.
  destruct (Z.ltb_spec start n); [|lia].
  rewrite sha1_not_encodable; [reflexivity|now rewrite chunk_key_encodable].
Qed.

End ChunkLoop.

(* ================================================================== *)
(** ** chunk_doc *)
(* ================================================================== *)

Lemma split_nil_iff s : Py.split s = [] <-> forallb Py.isspace s = true.
Proof.
  induction s as [|c s IH]; simpl; [tauto|].
  destruct (Py.isspace c); simpl; [exact IH|].
  split; [|discriminate].
  destruct s as [|d s']; [discriminate|].
  destruct (Py.isspace d); [discriminate|].
  destruct (Py.split (d :: s')); discriminate.
Qed.

Lemma len_zero_iff {A} (l : list A) : Py.len l = 0%Z <-> l = [].
Proof.
  unfold Py.len. destruct l; simpl; split; intros; try reflexivity; try lia.
  discriminate.
Qed.

Lemma len_pos {A} (l : list A) : l <> [] -> (0 < Py.len l)%Z.
Proof. destruct l; [congruence|]. unfold Py.len; simpl; lia. Qed.

Lemma chunk_doc_no_words fuel doc doc_id size overlap :
  Py.split (Loader.doc_text doc) = [] ->
  Chunker.chunk_doc fuel doc doc_id size overlap = Ok [].
Proof. intros H. unfold Chunker.chunk_doc. now rewrite H. Qed.

Lemma chunk_doc_short fuel doc doc_id size overlap :
  Py.split (Loader.doc_text doc) <> [] ->
  (Py.len (Py.split (Loader.doc_text doc)) <= size)%Z ->
  Chunker.chunk_doc fuel doc doc_id size overlap =
  (cid <- Utils.sha1 (doc_id ++ Chunker.colon ++ Py.lit "1") ;;
   Ok [mkChunk cid doc_id 1
         (Py.join Chunker.space (Py.split (Loader.doc_text doc)))
         (Loader.doc_path doc) None None None]).
Proof.
  intros Hne Hle. unfold Chunker.chunk_doc.
  destruct (Z.eqb_spec (Py.len (Py.split (Loader.doc_text doc))) 0) as [E|_].
  - apply len_zero_iff in E. contradiction.
  - destruct (Z.leb_spec (Py.len (Py.split (Loader.doc_text doc))) size);
      [reflexivity|lia].
Qed.

Lemma chunk_doc_long fuel doc doc_id size overlap :
  (size < Py.len (Py.split (Loader.doc_text doc)))%Z ->
  Py.split (Loader.doc_text doc) <> [] ->
  Chunker.chunk_doc fuel doc doc_id size overlap =
  Chunker.chunk_loop fuel (Py.split (Loader.doc_text doc)) doc_id
                     (Loader.doc_path doc) size overlap 0 1 [].
Proof.
  intros Hlt Hne. unfold Chunker.chunk_doc.
  destruct (Z.eqb_spec (Py.len (Py.split (Loader.doc_text doc))) 0) as [E|_].
  - apply len_zero_iff in E. contradiction.
  - destruct (Z.leb_spec (Py.len (Py.split (Loader.doc_text doc))) size);
      [lia|reflexivity].
Qed.

(** At least one word, more than [size] of them, and [overlap >= size]:
    [chunk_doc] returns for no amount of fuel. *)
Lemma chunk_doc_diverges fuel doc doc_id size overlap :
  Py.encodable doc_id = true ->
  Py.split (Loader.doc_text doc) <> [] ->
  (size < Py.len (Py.split (Loader.doc_text doc)))%Z ->
  (size <= overlap)%Z ->
  Chunker.chunk_doc fuel doc doc_id size overlap = OutOfFuel.
Proof.
  intros Henc Hne Hlt Hov.
  rewrite chunk_doc_long by assumption.
  apply chunk_loop_diverges; auto; try lia.
  now apply len_pos.
Qed.

Lemma slice_all {A} (l : list A) (j : Z) :
  (Py.len l <= j)%Z -> Py.slice l 0 (Z.min j (Py.len l)) = l.
Proof.
  intros H. pose proof (len_nonneg l).
  rewrite slice_in_range by lia.
  rewrite Z.min_r by lia. simpl. rewrite Z.sub_0_r.
  unfold Py.len. rewrite Nat2Z.id. apply firstn_all.
Qed.

(** The chunks of a call that returns: one per window, in order. *)
Lemma chunk_doc_spec fuel doc doc_id size overlap chunks :
  Chunker.chunk_doc fuel doc doc_id size overlap = Ok chunks ->
  let words := Py.split (Loader.doc_text doc) in
  (forall k c, nth_error chunks k = Some c ->
     chunk_at words doc_id (Loader.doc_path doc) size overlap 0 1 k c)
  /\ (forall k, (S k < List.length chunks)%nat ->
        (window_start size overlap 0 k + size < Py.len words)%Z)
  /\ (chunks = [] <-> words = []).
Proof.
  intros Hrun words.
  destruct (list_eq_dec (list_eq_dec N.eq_dec) words []) as [E|Hne].
  - rewrite chunk_doc_no_words in Hrun by exact E. injection Hrun as <-.
    split; [|split].
    + intros [|k] c; discriminate.
    + simpl; lia.
    + tauto.
  - destruct (Z.le_gt_cases (Py.len words) size) as [Hle|Hgt].
    + rewrite chunk_doc_short in Hrun by assumption.
      destruct (Utils.sha1 (doc_id ++ Chunker.colon ++ Py.lit "1"))
        as [cid| |] eqn:Hsha; simpl in Hrun; try discriminate.
      injection Hrun as <-. split; [|split].
      * intros [|[|k]] c; simpl; try discriminate. intros [= <-].
        unfold chunk_at, window_start; simpl.
        fold words. rewrite slice_all by lia.
        repeat split; auto. now apply len_pos.
      * simpl; lia.
      * split; [discriminate|]. intros E; contradiction.
    + rewrite chunk_doc_long in Hrun by (fold words; auto; lia).
      apply chunk_loop_spec in Hrun as (new & -> & Hnth & Hfull & Hnew).
      simpl. split; [exact Hnth|]. split; [exact Hfull|].
      split; [|intros E; contradiction].
      intros E. exfalso. apply Hnew; [|exact E]. now apply len_pos.
Qed.

(** [chunk_doc] returns, and the same chunks for any fuel above the number
    of words, when the document id can be encoded and the window moves
    forward. *)
Lemma chunk_doc_returns doc doc_id size overlap :
  Py.encodable doc_id = true ->
  (Py.len (Py.split (Loader.doc_text doc)) <= size \/ overlap < size)%Z ->
  exists chunks, forall fuel,
    (List.length (Py.split (Loader.doc_text doc)) < fuel)%nat ->
    Chunker.chunk_doc fuel doc doc_id size overlap = Ok chunks.
Proof.
  intros Henc Hcfg.
  set (words := Py.split (Loader.doc_text doc)) in *.
  destruct (list_eq_dec (list_eq_dec N.eq_dec) words []) as [E|Hne].
  - exists []. intros fuel _. now apply chunk_doc_no_words.
  - destruct (Z.le_gt_cases (Py.len words) size) as [Hle|Hgt].
    + destruct (sha1_encodable (doc_id ++ Chunker.colon ++ Py.lit "1"))
        as [cid Hcid].
      { change (Py.lit "1") with (Py.str_of_int 1).
        now rewrite chunk_key_encodable. }
      eexists. intros fuel _. rewrite chunk_doc_short by assumption.
      rewrite Hcid. reflexivity.
    + assert (Hov : (overlap < size)%Z) by lia.
      destruct (chunk_loop_terminates words doc_id (Loader.doc_path doc)
                  size overlap (S (List.length words)) 0 1 [] Hov Henc)
        as [res Hres].
      { unfold Py.len. lia. }
      exists res. intros fuel Hfuel.
      rewrite chunk_doc_long by (fold words; auto; lia).
      eapply chunk_loop_fuel; [|exact Hres]. lia.
Qed.

Lemma ordinals_from {A} (f : A -> Z) (l : list A) : forall a,
  (forall k c, nth_error l k = Some c -> f c = (a + Z.of_nat k)%Z) ->
  List.map f l = List.map (fun k => (a + Z.of_nat k)%Z) (seq 0 (List.length l)).
Proof.
  induction l as [|x l IH]; intros a H; [reflexivity|].
  simpl. f_equal.
  - apply (H 0%nat x). reflexivity.
  - rewrite <- seq_shift, map_map.
    rewrite (IH (a + 1)%Z).
    + apply map_ext. intros k. lia.
    + intros k c Hk. rewrite (H (S k) c Hk). lia.
Qed.

(** C5, as stated, fails: a text of one space is not empty, and [chunk_doc]
    returns no chunk for it. *)
Lemma chunk_bound_blank_text :
  ~ spec_chunk_bound 10 blank_doc (Py.lit "d0c1d") 800 120.
Proof.
  intros [H _]. destruct H as (chunks & Hrun & Hlen & _); [discriminate|].
  vm_compute in Hrun. injection Hrun as <-. simpl in Hlen. lia.
Qed.

(** C5 (amended): the chunks that [chunk_doc] returns have the ordinals
    [1..N] in order; there is at least one chunk when the text has a
    character that is not white space, and none when the text is white
    space only, the empty text included.  [chunk_doc] does return, the same
    chunks for any fuel above the number of words, when the document id
    can be encoded in UTF-8 and the window moves forward ([overlap < size],
    or all the words fit in one chunk); on a text without words it returns
    whatever the id and the configuration. *)
Theorem chunk_doc_ordinals doc doc_id size overlap :
  let text := Loader.doc_text doc in
  (forall fuel chunks,
     Chunker.chunk_doc fuel doc doc_id size overlap = Ok chunks ->
     List.map chunk_ordinal chunks
     = List.map Z.of_nat (seq 1 (List.length chunks))
     /\ (forallb Py.isspace text = false -> (1 <= List.length chunks)%nat)
     /\ (forallb Py.isspace text = true -> chunks = []))
  /\ (forall fuel, forallb Py.isspace text = true ->
        Chunker.chunk_doc fuel doc doc_id size overlap = Ok [])
  /\ (Py.encodable doc_id = true ->
      (Py.len (Py.split text) <= size \/ overlap < size)%Z ->
      exists chunks, forall fuel,
        (List.length (Py.split text) < fuel)%nat ->
        Chunker.chunk_doc fuel doc doc_id size overlap = Ok chunks).
Proof.
  intros text. split; [|split].
  - intros fuel chunks Hret.
    apply chunk_doc_spec in Hret as (Hnth & _ & Hnil).
    split; [|split].
    + rewrite (ordinals_from chunk_ordinal chunks 1).
      * rewrite <- seq_shift, map_map. apply map_ext. intros k. lia.
      * intros k c Hk. apply Hnth in Hk. apply Hk.
    + intros Hword. destruct chunks as [|c chunks]; [|simpl; lia].
      exfalso. destruct Hnil as [Hnil _]. specialize (Hnil eq_refl).
      apply split_nil_iff in Hnil. unfold text in Hword. congruence.
    + intros Hblank. apply Hnil. now apply split_nil_iff.
  - intros fuel Hblank. apply chunk_doc_no_words. now apply split_nil_iff.
  - apply chunk_doc_returns.
Qed.

(** A witness: three words, windows of two words overlapping by one. *)
Lemma chunk_doc_ordinals_witness :
  exists chunks,
    Chunker.chunk_doc 4 abc_doc (Py.lit "d0c1d") 2 1 = Ok chunks
    /\ List.map chunk_ordinal chunks = [1; 2]%Z.
Proof.
  destruct (chunk_doc_ordinals abc_doc (Py.lit "d0c1d") 2 1)
    as (Hord & _ & Hret).
  destruct Hret as [chunks Hret].
  - reflexivity.
  - right. lia.
  - exists chunks. specialize (Hret 4%nat ltac:(vm_compute; lia)).
    split; [exact Hret|].
    destruct (Hord 4%nat chunks Hret) as (-> & Hone & _).
    specialize (Hone eq_refl).
    vm_compute in Hret. injection Hret as <-. reflexivity.
Defined.

(** The words of a chunk, read back from its text, are the words of its
    window. *)
Lemma chunk_words_of_text doc i j :
  Py.split (Py.join Chunker.space
              (Py.slice (Py.split (Loader.doc_text doc)) i j))
  = Py.slice (Py.split (Loader.doc_text doc)) i j.
Proof.
  apply split_join, slice_Forall, split_words.
Qed.

(** C10: with more than [size] words and [0 < overlap < size], any two
    consecutive chunks that [chunk_doc] returns, numbers [k] and [k+1]
    from 0, overlap by exactly [overlap] words: the first holds the [size]
    words that end at word index [e = k * (size - overlap) + size], the
    second holds the words from [e - overlap] on, more than [overlap] of
    them, and the first [overlap] words of the second are the last
    [overlap] words of the first.  Every chunk has a text that is not
    empty, of at least one and at most [size] words.  And [chunk_doc] does
    return, the same chunks for any fuel above the number of words, when
    the document id can be encoded in UTF-8. *)
Theorem chunk_doc_overlap doc doc_id size overlap :
  let words := Py.split (Loader.doc_text doc) in
  (size < Py.len words)%Z -> (0 < overlap < size)%Z ->
  (forall fuel chunks,
     Chunker.chunk_doc fuel doc doc_id size overlap = Ok chunks ->
     (forall k c c',
        nth_error chunks k = Some c -> nth_error chunks (S k) = Some c' ->
        let e := (Z.of_nat k * (size - overlap) + size)%Z in
        let wc := Py.split (chunk_text c) in
        let wc' := Py.split (chunk_text c') in
        wc = Py.slice words (e - size) e
        /\ wc' = Py.slice words (e - overlap)
                          (Z.min (e - overlap + size) (Py.len words))
        /\ List.length wc = Z.to_nat size
        /\ (Z.to_nat overlap < List.length wc')%nat
        /\ firstn (Z.to_nat overlap) wc'
           = skipn (List.length wc - Z.to_nat overlap) wc)
     /\ Forall (fun c =>
                  chunk_text c <> []
                  /\ (1 <= Py.len (Py.split (chunk_text c)) <= size)%Z)
               chunks)
  /\ (Py.encodable doc_id = true ->
      exists chunks, forall fuel,
        (List.length words < fuel)%nat ->
        Chunker.chunk_doc fuel doc doc_id size overlap = Ok chunks).
Proof.
  intros words Hlong Hov.
  split; [|intros Henc; apply chunk_doc_returns; [exact Henc|right; lia]].
  intros fuel chunks Hret.
  apply chunk_doc_spec in Hret as (Hnth & Hfull & _). fold words in Hnth, Hfull.
  pose proof (len_nonneg words) as Hn.
  split.
  - intros k c c' Hc Hc' e wc wc'.
    assert (Hk : (S k < List.length chunks)%nat).
    { apply nth_error_Some. congruence. }
    specialize (Hfull k Hk). unfold window_start in Hfull.
    apply Hnth in Hc as (_ & Htc & _). apply Hnth in Hc' as (_ & Htc' & _).
    unfold window_start in Htc, Htc'.
    assert (Hwc : wc = Py.slice words (e - size) e).
    { unfold wc. rewrite Htc. unfold words. rewrite chunk_words_of_text.
      fold words. f_equal; unfold e; lia. }
    assert (Hwc' : wc' = Py.slice words (e - overlap)
                                  (Z.min (e - overlap + size) (Py.len words))).
    { unfold wc'. rewrite Htc'. unfold words.
      rewrite chunk_words_of_text.
      fold words. f_equal; unfold e; lia. }
    assert (He : (0 <= e - size /\ e < Py.len words)%Z) by (unfold e; nia).
    split; [exact Hwc|]. split; [exact Hwc'|].
    rewrite Hwc, Hwc'.
    rewrite !slice_in_range by lia.
    rewrite !length_firstn, !length_skipn.
    unfold Py.len in *.
    split; [lia|]. split; [lia|].
    rewrite firstn_firstn, skipn_firstn_comm, skipn_skipn.
    f_equal; [lia|]. f_equal. lia.
  - apply Forall_forall. intros c Hin.
    apply In_nth_error in Hin as [k Hk].
    apply Hnth in Hk as (_ & Htc & _ & _ & _ & Hs).
    unfold window_start in Htc, Hs.
    set (s := (0 + Z.of_nat k * (size - overlap))%Z) in *.
    assert (Hs0 : (0 <= s)%Z) by (unfold s; nia).
    assert (Hlen : Py.len (Py.slice words s (Z.min (s + size) (Py.len words)))
                   = (Z.min (s + size) (Py.len words) - s)%Z).
    { apply slice_length; lia. }
    rewrite Htc. unfold words in *.
    rewrite chunk_words_of_text.
    split; [|lia].
    apply join_nonempty; [|apply slice_Forall, split_words].
    intros E. rewrite E in Hlen. unfold Py.len in Hlen at 1. simpl in Hlen. lia.
Qed.

(** A witness: five words, windows of three words overlapping by one. *)
Lemma chunk_doc_overlap_witness :
  exists chunks,
    Chunker.chunk_doc 6 abcde_doc (Py.lit "d0c1d") 3 1 = Ok chunks
    /\ List.map chunk_text chunks = [Py.lit "a b c"; Py.lit "c d e"]
    /\ Forall (fun c => (1 <= Py.len (Py.split (chunk_text c)) <= 3)%Z) chunks.
Proof.
  destruct (chunk_doc_overlap abcde_doc (Py.lit "d0c1d") 3 1)
    as (Hprop & Hret).
  - vm_compute. reflexivity.
  - lia.
  - destruct (Hret eq_refl) as [chunks Hrun].
    specialize (Hrun 6%nat ltac:(vm_compute; lia)).
    exists chunks. split; [exact Hrun|].
    destruct (Hprop 6%nat chunks Hrun) as (_ & Hall).
    split.
    + vm_compute in Hrun. injection Hrun as <-. reflexivity.
    + eapply Forall_impl; [|exact Hall]. simpl. tauto.
Defined.

(** One document whose chunking does not end keeps the whole loop of
    [build] from ending. *)
Lemma process_diverges fuel e chunk overlap docs : forall a d card,
  In d docs ->
  Cli.build_knowledge_card e d = Ok card ->
  Chunker.chunk_doc fuel d (card_id card) chunk overlap = OutOfFuel ->
  Cli.process fuel e chunk overlap docs a = OutOfFuel.
Proof.
  induction docs as [|doc docs IH]; intros a d card Hin Hcard Hch;
    [contradiction|].
  cbn [Cli.process]. destruct Hin as [-> | Hin].
  - now rewrite Hcard, Hch.
  - destruct (Cli.build_knowledge_card e doc) as [c| |]; [|eauto|reflexivity].
    destruct (Chunker.chunk_doc fuel doc (card_id c) chunk overlap);
      [eauto|eauto|reflexivity].
Qed.

(** C4 (the code at the failing input): [build] takes [--chunk 2
    --overlap 2] as it is given, and on a folder whose one file has three
    words the chunking loop never exits: the run returns for no amount of
    fuel. *)
Theorem build_never_returns_overlap_eq_size :
  forall fuel, Cli.build fuel abc_env [Py.lit "/in/a.txt"] 2 2 = OutOfFuel.
Proof.
  intros fuel. unfold Cli.build.
  assert (Hdocs : Loader.load_folder abc_env [Py.lit "/in/a.txt"] = [abc_doc])
    by (vm_compute; reflexivity).
  rewrite Hdocs. clear Hdocs. cbn [Cli.process].
  evaluate (Cli.build_knowledge_card abc_env abc_doc) as card Hcard.
  assert (Hid : Py.encodable (card_id card) = true).
  { vm_compute in Hcard. injection Hcard as <-. reflexivity. }
  rewrite chunk_doc_diverges; [reflexivity|exact Hid| | |].
  - vm_compute. discriminate.
  - vm_compute. reflexivity.
  - lia.
Qed.

(* ================================================================== *)
(** ** Facts and the citation excerpt *)
(* ================================================================== *)

Lemma slice_to_firstn {A} (l : list A) (j : Z) :
  (0 <= j)%Z -> Py.slice_to l j = firstn (Z.to_nat j) l.
Proof.
  intros Hj. unfold Py.slice_to, Py.slice, Py.slice_index.
  pose proof (len_nonneg l) as Hn.
  destruct (Z.ltb_spec 0 0); [lia|]. destruct (Z.ltb_spec j 0); [lia|].
  rewrite (Z.min_l 0) by lia. simpl. rewrite Z.sub_0_r.
  destruct (Z.le_gt_cases j (Py.len l)).
  - now rewrite Z.min_l by lia.
  - rewrite Z.min_r by lia. unfold Py.len in *. rewrite Nat2Z.id.
    rewrite firstn_all. symmetry. apply firstn_all2. lia.
Qed.

Lemma collect_facts_filter ss : forall facts,
  Processors.collect_facts ss facts = facts ++ List.filter long_sentence ss.
Proof.
  induction ss as [|x ss IH]; intros facts; simpl.
  - now rewrite app_nil_r.
  - unfold long_sentence at 1. destruct (Py.len x >? 20)%Z; rewrite IH.
    + now rewrite <- app_assoc.
    + reflexivity.
Qed.

(** The list comprehension of the sentences, as a map and a filter. *)
Lemma sentences_filter_map text :
  Cli.sentences text
  = List.filter Utils.nonempty (List.map Py.strip (Py.split_on Utils.dot text)).
Proof.
  unfold Cli.sentences. induction (Py.split_on Utils.dot text) as [|x l IH];
    simpl; [reflexivity|].
  rewrite IH. now destruct (Utils.nonempty (Py.strip x)).
Qed.

Lemma filter_long_nonempty l :
  List.filter long_sentence (List.filter Utils.nonempty l)
  = List.filter long_sentence l.
Proof.
  induction l as [|x l IH]; simpl; [reflexivity|].
  destruct x as [|c x]; simpl; [exact IH|].
  now rewrite IH.
Qed.

Lemma filter_length_le {A} (f : A -> bool) l :
  (List.length (List.filter f l) <= List.length l)%nat.
Proof.
  induction l as [|x l IH]; simpl; [lia|]. destruct (f x); simpl; lia.
Qed.

(** C2, as stated, fails: after five short sentences the code finds no
    fact, where the specification keeps the long sixth sentence. *)
Lemma facts_short_then_long :
  Processors.extract_facts short_then_long 5 <> spec_facts short_then_long
  /\ Cli.facts_of short_then_long <> spec_facts short_then_long
  /\ Cli.facts_of short_then_long = []
  /\ spec_facts short_then_long
     = [Py.lit "The sixth sentence is a long one"].
Proof.
  by_evaluation.
Qed.

(** C2 (amended): the facts, in [process_document] as in the card of
    [build], are those of the first five non-empty trimmed sentences that
    have more than 20 characters, in their order.  They are at most five
    and a prefix of the list the specification describes, and they are
    that list when each of the first five non-empty sentences has more
    than 20 characters. *)
Theorem extract_facts_first_five text :
  let sentences :=
    List.filter Utils.nonempty
                (List.map Py.strip (Py.split_on Utils.dot text)) in
  let facts := Processors.extract_facts text 5 in
  facts = List.filter long_sentence (firstn 5 sentences)
  /\ Cli.facts_of text = facts
  /\ (List.length facts <= 5)%nat
  /\ (exists rest, spec_facts text = facts ++ rest)
  /\ (forallb long_sentence (firstn 5 sentences) = true ->
      facts = spec_facts text).
Proof.
  intros sentences facts.
  assert (Hf : facts = List.filter long_sentence (firstn 5 sentences)).
  { unfold facts, Processors.extract_facts.
    rewrite collect_facts_filter, slice_to_firstn by lia.
    now rewrite sentences_filter_map. }
  assert (Hc : spec_facts text
               = firstn 5 (facts ++ List.filter long_sentence
                                       (skipn 5 sentences))).
  { unfold spec_facts. rewrite Hf, <- filter_app, firstn_skipn.
    unfold sentences. now rewrite filter_long_nonempty. }
  assert (Hlen : (List.length facts <= 5)%nat).
  { rewrite Hf. etransitivity; [apply filter_length_le|].
    apply firstn_le_length. }
  split; [exact Hf|]. split; [|split; [exact Hlen|split]].
  - unfold Cli.facts_of. rewrite slice_to_firstn by lia.
    rewrite sentences_filter_map. now rewrite Hf.
  - rewrite Hc, firstn_app.
    rewrite (firstn_all2 facts) by exact Hlen. eauto.
  - intros Hall. rewrite Hc.
    assert (Hff : facts = firstn 5 sentences).
    { rewrite Hf. rewrite forallb_forall in Hall.
      clear - Hall. induction (firstn 5 sentences) as [|x l IH];
        [reflexivity|].
      simpl. rewrite (Hall x) by now left. f_equal.
      apply IH. intros y Hy. apply Hall. now right. }
    destruct (Nat.le_gt_cases 5 (List.length sentences)) as [H5|H5].
    + rewrite firstn_app. replace (5 - List.length facts)%nat with 0%nat.
      * rewrite firstn_0, app_nil_r. now rewrite firstn_all2 by exact Hlen.
      * rewrite Hff, length_firstn. lia.
    + rewrite (skipn_all2 sentences) by lia. cbn [List.filter].
      rewrite app_nil_r. now rewrite firstn_all2 by exact Hlen.
Qed.

(** A witness: both sentences of the sample text are long, and the facts
    are the list of the specification. *)
Lemma extract_facts_first_five_witness :
  forallb long_sentence
    (firstn 5 (List.filter Utils.nonempty
                 (List.map Py.strip (Py.split_on Utils.dot ml_text)))) = true
  /\ Processors.extract_facts ml_text 5 = spec_facts ml_text.
Proof.
  split; [vm_compute; reflexivity|].
  destruct (extract_facts_first_five ml_text) as (_ & _ & _ & _ & H).
  apply H. vm_compute. reflexivity.
Defined.

Lemma text_excerpt_short text :
  (Py.len text <= 200)%Z -> Cli.text_excerpt text = text.
Proof.
  intros H. unfold Cli.text_excerpt.
  destruct (Z.gtb_spec (Py.len text) 200); [lia|reflexivity].
Qed.

Lemma text_excerpt_long text :
  (200 < Py.len text)%Z ->
  Cli.text_excerpt text = firstn 200 text ++ Cli.ellipsis.
Proof.
  intros H. unfold Cli.text_excerpt.
  destruct (Z.gtb_spec (Py.len text) 200); [|lia].
  now rewrite slice_to_firstn by lia.
Qed.

Lemma build_knowledge_card_Ok e doc card :
  Cli.build_knowledge_card e doc = Ok card ->
  Utils.sha1 (Utils.canon (cwd e) (Loader.doc_path doc) ++ Chunker.colon
              ++ Py.str_of_int (Loader.doc_bytes doc)) = Ok (card_id card)
  /\ card = mkCard (card_id card) (Utils.stem (Loader.doc_path doc)) None
                   (Loader.doc_path doc) (Cli.facts_of (Loader.doc_text doc))
                   [mkCitation (card_id card) (Loader.doc_path doc)
                               (Cli.text_excerpt (Loader.doc_text doc))
                               None None].
Proof.
  unfold Cli.build_knowledge_card.
  destruct (Utils.sha1 _) as [h| |]; simpl; try discriminate.
  intros [= <-]. split; reflexivity.
Qed.

(** C6, as stated, fails: for a text of 201 characters the excerpt of the
    card has 203 characters. *)
Lemma excerpt_of_201_characters :
  exists card cit,
    Cli.build_knowledge_card abc_env doc_201 = Ok card
    /\ card_citations card = [cit]
    /\ Py.len (cit_text_excerpt cit) = 203%Z
    /\ ~ spec_excerpt (Loader.doc_text doc_201) (cit_text_excerpt cit).
Proof.
  evaluate (Cli.build_knowledge_card abc_env doc_201) as card Hcard.
  apply build_knowledge_card_Ok in Hcard as [_ ->].
  eexists. eexists. split; [reflexivity|]. split; [reflexivity|].
  split; [vm_compute; reflexivity|].
  intros (_ & _ & H). vm_compute in H. apply H. reflexivity.
Qed.

(** C6 (amended): a card has one citation, which carries the id and the
    path of the card; its excerpt is the text itself when the text has at
    most 200 characters, and the first 200 characters followed by the
    three-character marker "..." when it has more, 203 characters in all;
    so the excerpt never has more than 203 characters. *)
Theorem citation_excerpt e doc card :
  Cli.build_knowledge_card e doc = Ok card ->
  let text := Loader.doc_text doc in
  exists cit,
    card_citations card = [cit]
    /\ cit_doc_id cit = card_id card
    /\ cit_source_path cit = card_source_path card
    /\ ((Py.len text <= 200)%Z -> cit_text_excerpt cit = text)
    /\ ((200 < Py.len text)%Z ->
        cit_text_excerpt cit = firstn 200 text ++ Py.lit "..."
        /\ Py.len (cit_text_excerpt cit) = 203%Z)
    /\ (Py.len (cit_text_excerpt cit) <= 203)%Z
    /\ ((Py.len (cit_text_excerpt cit) <= 200)%Z <-> (Py.len text <= 200)%Z).
Proof.
  intros Hcard text. apply build_knowledge_card_Ok in Hcard as [_ ->].
  eexists. split; [reflexivity|]. cbn [cit_doc_id cit_source_path
    cit_text_excerpt card_id card_source_path]. fold text.
  split; [reflexivity|]. split; [reflexivity|].
  assert (Hlong : (200 < Py.len text)%Z ->
                  Py.len (Cli.text_excerpt text) = 203%Z).
  { intros H. rewrite text_excerpt_long by exact H.
    unfold Py.len in *. rewrite length_app, length_firstn.
    change (List.length Cli.ellipsis) with 3%nat. lia. }
  split; [apply text_excerpt_short|].
  split; [intros H; split; [now apply text_excerpt_long|now apply Hlong]|].
  destruct (Z.le_gt_cases (Py.len text) 200) as [Hs|Hl].
  - rewrite text_excerpt_short by exact Hs. split; [lia|tauto].
  - rewrite (Hlong ltac:(lia)). split; [lia|]. split; lia.
Qed.

(** A witness: the card of a.txt. *)
Lemma citation_excerpt_witness :
  exists card cit,
    Cli.build_knowledge_card abc_env abc_doc = Ok card
    /\ card_citations card = [cit]
    /\ cit_text_excerpt cit = Py.lit "a b c".
Proof.
  evaluate (Cli.build_knowledge_card abc_env abc_doc) as card Hcard.
  destruct (citation_excerpt abc_env abc_doc card Hcard)
    as (cit & Hcit & _ & _ & Hshort & _).
  exists card, cit. split; [reflexivity|]. split; [exact Hcit|].
  apply Hshort. vm_compute. discriminate.
Defined.

(* ================================================================== *)
(** ** Document ids *)
(* ================================================================== *)

(** C1 (the code at the failing input): [build] hashes the canonical path
    with the byte length of the file, not with a checksum of its content.
    The file /in/a.txt holding "a b c" and the same file holding "x y z"
    have different checksums and get the same id, the digest of
    "/in/a.txt:5"; the id the specification describes differs between the
    two and from the id of the card.  [process_document] does hash the
    checksum, but with the path as it was given: for in/a.txt under /work
    its id is the digest of "in/a.txt:<checksum>", not of
    "/work/in/a.txt:<checksum>". *)
Theorem doc_id_hashes_byte_length :
  Processors.calculate_checksum abc_env (Py.lit "/in/a.txt")
  <> Processors.calculate_checksum xyz_env (Py.lit "/in/a.txt")
  /\ built_id abc_env (Py.lit "/in/a.txt")
     = Utils.sha1 (Py.lit "/in/a.txt:5")
  /\ built_id xyz_env (Py.lit "/in/a.txt")
     = built_id abc_env (Py.lit "/in/a.txt")
  /\ spec_doc_id abc_env (Py.lit "/in/a.txt")
     <> built_id abc_env (Py.lit "/in/a.txt")
  /\ spec_doc_id abc_env (Py.lit "/in/a.txt")
     <> spec_doc_id xyz_env (Py.lit "/in/a.txt")
  /\ processed_id rel_env (Py.lit "in/a.txt")
     = Utils.sha1 (Py.lit "in/a.txt:" ++ SHA1.hexdigest (Py.lit "a b c"))
  /\ spec_doc_id rel_env (Py.lit "in/a.txt")
     = Utils.sha1 (Py.lit "/work/in/a.txt:" ++ SHA1.hexdigest (Py.lit "a b c"))
  /\ processed_id rel_env (Py.lit "in/a.txt")
     <> spec_doc_id rel_env (Py.lit "in/a.txt").
Proof.
  by_evaluation.
Qed.

(** The id of a card depends on the working directory, the path and the
    size of the file, and on nothing else of the document. *)
Lemma card_id_of_path_and_size e d1 d2 c1 c2 :
  Loader.doc_path d1 = Loader.doc_path d2 ->
  Loader.doc_bytes d1 = Loader.doc_bytes d2 ->
  Cli.build_knowledge_card e d1 = Ok c1 ->
  Cli.build_knowledge_card e d2 = Ok c2 ->
  card_id c1 = card_id c2.
Proof.
  intros Hp Hb H1 H2.
  apply build_knowledge_card_Ok in H1 as [H1 _].
  apply build_knowledge_card_Ok in H2 as [H2 _].
  rewrite Hp, Hb in H1. congruence.
Qed.

(** The document id of [build] is forty ASCII characters, the hexadecimal
    digits of the digest, whenever it is made. *)
Lemma doc_id_forty_hex e doc card :
  Cli.build_knowledge_card e doc = Ok card ->
  List.length (card_id card) = 40%nat /\ ascii_only (card_id card) = true.
Proof.
  intros H. apply build_knowledge_card_Ok in H as [H _].
  apply sha1_Ok in H. tauto.
Qed.

(* ================================================================== *)
(** ** The order on paths and the sort of [load_folder] *)
(* ================================================================== *)

Lemma str_eqb_eq a : forall b, Py.str_eqb a b = true <-> a = b.
Proof.
  induction a as [|x a IH]; intros [|y b]; simpl; split; intros H;
    try discriminate; try reflexivity.
  - apply andb_prop in H as [Hx Hab]. apply N.eqb_eq in Hx.
    apply IH in Hab. congruence.
  - injection H as -> ->. rewrite N.eqb_refl. now apply IH.
Qed.

Lemma str_eqb_refl a : Py.str_eqb a a = true.
Proof. now apply str_eqb_eq. Qed.

Lemma str_eqb_neq a b : a <> b -> Py.str_eqb a b = false.
Proof.
  intros H. destruct (Py.str_eqb a b) eqn:E; [|reflexivity].
  apply str_eqb_eq in E. contradiction.
Qed.

Lemma str_ltb_irrefl a : Py.str_ltb a a = false.
Proof.
  induction a as [|x a IH]; [reflexivity|]. simpl.
  now rewrite N.ltb_irrefl, N.eqb_refl.
Qed.

Lemma str_ltb_trans a : forall b c,
  Py.str_ltb a b = true -> Py.str_ltb b c = true -> Py.str_ltb a c = true.
Proof.
  induction a as [|x a IH]; intros [|y b] [|z c]; simpl; try discriminate;
    auto.
  destruct (N.ltb_spec x y), (N.eqb_spec x y), (N.ltb_spec y z),
    (N.eqb_spec y z), (N.ltb_spec x z), (N.eqb_spec x z);
    try discriminate; try lia; auto.
  apply IH.
Qed.

Lemma str_ltb_total a : forall b,
  Py.str_ltb a b = true \/ a = b \/ Py.str_ltb b a = true.
Proof.
  induction a as [|x a IH]; intros [|y b]; simpl; auto.
  destruct (N.ltb_spec x y), (N.eqb_spec x y), (N.ltb_spec y x),
    (N.eqb_spec y x); try lia; auto.
  subst y. destruct (IH b) as [Hab|[->|Hba]]; auto.
Qed.

Lemma str_ltb_asym a b : Py.str_ltb a b = true -> Py.str_ltb b a = false.
Proof.
  intros H. destruct (Py.str_ltb b a) eqn:E; [|reflexivity].
  pose proof (str_ltb_trans _ _ _ H E) as Haa.
  now rewrite str_ltb_irrefl in Haa.
Qed.

Section SortBy.

Context {A : Type} (key : A -> Py.str).

Lemma insert_by_perm d l : Permutation (Py.insert_by key d l) (d :: l).
Proof.
  induction l as [|x l IH]; simpl; [reflexivity|].
  destruct (Py.str_ltb (key x) (key d)); [|reflexivity].
  rewrite IH. apply perm_swap.
Qed.

Lemma sort_by_perm l : Permutation (Py.sort_by key l) l.
Proof.
  induction l as [|d l IH]; simpl; [reflexivity|].
  rewrite insert_by_perm. now constructor.
Qed.

Lemma sort_by_length l : List.length (Py.sort_by key l) = List.length l.
Proof. apply Permutation_length, sort_by_perm. Qed.

Lemma sort_by_In x l : In x (Py.sort_by key l) <-> In x l.
Proof.
  split; apply Permutation_in; [|symmetry]; apply sort_by_perm.
Qed.

(** Two insertions with different keys commute. *)
Lemma insert_by_comm x y l :
  key x <> key y ->
  Py.insert_by key x (Py.insert_by key y l)
  = Py.insert_by key y (Py.insert_by key x l).
Proof.
  intros Hxy. induction l as [|h l IH]; simpl.
  - destruct (str_ltb_total (key x) (key y)) as [H|[H|H]]; [|contradiction|];
      rewrite H, (str_ltb_asym _ _ H); reflexivity.
  - destruct (Py.str_ltb (key h) (key y)) eqn:Hhy,
             (Py.str_ltb (key h) (key x)) eqn:Hhx; simpl;
      rewrite ?Hhy, ?Hhx.
    + now rewrite IH.
    + assert (Hlt : Py.str_ltb (key x) (key y) = true).
      { destruct (str_ltb_total (key x) (key h)) as [H|[H|H]].
        - eapply str_ltb_trans; eauto.
        - now rewrite H.
        - congruence. }
      now rewrite Hlt.
    + assert (Hlt : Py.str_ltb (key y) (key x) = true).
      { destruct (str_ltb_total (key y) (key h)) as [H|[H|H]].
        - eapply str_ltb_trans; eauto.
        - now rewrite H.
        - congruence. }
      now rewrite Hlt.
    + destruct (str_ltb_total (key x) (key y)) as [H|[H|H]]; [|contradiction|];
        rewrite H, (str_ltb_asym _ _ H); reflexivity.
Qed.

(** The sort does not depend on the order in which the elements come,
    when no two of them have the same key. *)
Lemma sort_by_permutation l l' :
  Permutation l l' -> NoDup (List.map key l) ->
  Py.sort_by key l = Py.sort_by key l'.
Proof.
  induction 1 as [|x l l' Hp IH|x y l|l l' l'' H1 IH1 H2 IH2]; intros Hnd.
  - reflexivity.
  - simpl. inversion Hnd; subst. now rewrite IH.
  - simpl. apply insert_by_comm.
    simpl in Hnd. inversion Hnd as [|? ? Hin _]; subst.
    intros E. apply Hin. left. now symmetry.
  - rewrite IH1 by exact Hnd. apply IH2.
    eapply Permutation_NoDup; [|exact Hnd]. now apply Permutation_map.
Qed.

End SortBy.

(* ================================================================== *)
(** ** The readers and [load_folder] *)
(* ================================================================== *)

Lemma read_pdf_path e p : Loader.doc_path (Loader.read_pdf e p) = p.
Proof.
  unfold Loader.read_pdf. destruct (Fs.lookup (files e) p) as [f|];
    [|reflexivity].
  destruct (if Fs.file_readable f then pdf e (Fs.file_bytes f) else None)
    as [ps|]; [|reflexivity].
  now destruct (Loader.read_pages ps [] []).
Qed.

Lemma read_txt_path e p : Loader.doc_path (Loader.read_txt e p) = p.
Proof.
  unfold Loader.read_txt. destruct (Fs.lookup (files e) p) as [f|];
    [|reflexivity].
  now destruct (Fs.read_utf8 f).
Qed.

Lemma reader_path e p : Loader.doc_path (reader e p) = p.
Proof.
  unfold reader. destruct (Loader.mem _ _);
    [apply read_pdf_path|apply read_txt_path].
Qed.

(** The walk reads each supported file with its reader and passes over the
    others. *)
Lemma read_all_map e walk :
  Loader.read_all e walk = List.map (reader e) (List.filter supported walk).
Proof.
  induction walk as [|p walk IH]; [reflexivity|].
  cbn [Loader.read_all List.filter]. rewrite IH.
  assert (Hs : supported p
               = Loader.mem (Py.lower (Utils.suffix p)) Loader.PDF_EXT
                 || Loader.mem (Py.lower (Utils.suffix p)) Loader.TXT_EXT)
    by reflexivity.
  assert (Hr : reader e p
               = if Loader.mem (Py.lower (Utils.suffix p)) Loader.PDF_EXT
                 then Loader.read_pdf e p else Loader.read_txt e p)
    by reflexivity.
  rewrite Hs.
  destruct (Loader.mem (Py.lower (Utils.suffix p)) Loader.PDF_EXT);
    cbn [orb List.map]; [now rewrite Hr|].
  destruct (Loader.mem (Py.lower (Utils.suffix p)) Loader.TXT_EXT);
    cbn [List.map]; [now rewrite Hr|reflexivity].
Qed.

Lemma read_all_paths e walk :
  List.map Loader.doc_path (Loader.read_all e walk)
  = List.filter supported walk.
Proof.
  rewrite read_all_map, map_map.
  rewrite (map_ext _ (fun p => p)) by apply reader_path.
  apply map_id.
Qed.

Lemma load_folder_In e walk d :
  In d (Loader.load_folder e walk) <->
  exists p, In p walk /\ supported p = true /\ d = reader e p.
Proof.
  unfold Loader.load_folder. rewrite sort_by_In, read_all_map, in_map_iff.
  split.
  - intros (p & <- & Hp). apply filter_In in Hp as [Hin Hs]. eauto.
  - intros (p & Hin & Hs & ->). exists p. split; [reflexivity|].
    apply filter_In. auto.
Qed.

Lemma load_folder_length e walk :
  List.length (Loader.load_folder e walk)
  = List.length (List.filter supported walk).
Proof.
  unfold Loader.load_folder.
  now rewrite sort_by_length, read_all_map, length_map.
Qed.

(** The documents do not depend on the order of the walk. *)
Lemma load_folder_permutation e walk walk' :
  NoDup walk -> Permutation walk walk' ->
  Loader.load_folder e walk = Loader.load_folder e walk'.
Proof.
  intros Hnd Hp. unfold Loader.load_folder.
  apply sort_by_permutation.
  - rewrite !read_all_map. apply Permutation_map.
    clear Hnd. induction Hp; simpl.
    + constructor.
    + destruct (supported x); [constructor|]; assumption.
    + destruct (supported x), (supported y); try reflexivity.
      apply perm_swap.
    + etransitivity; eassumption.
  - rewrite read_all_paths. now apply NoDup_filter.
Qed.

(** The readers see the files and the PDF parser, nothing else. *)
Lemma reader_env e e' p :
  files e = files e' -> (forall bs, pdf e bs = pdf e' bs) ->
  reader e p = reader e' p.
Proof.
  intros Hf Hp. unfold reader, Loader.read_pdf, Loader.read_txt.
  rewrite Hf. destruct (Fs.lookup (files e') p) as [f|]; [|reflexivity].
  now rewrite Hp.
Qed.

Lemma load_folder_env e e' walk :
  files e = files e' -> (forall bs, pdf e bs = pdf e' bs) ->
  Loader.load_folder e walk = Loader.load_folder e' walk.
Proof.
  intros Hf Hp. unfold Loader.load_folder. rewrite !read_all_map.
  f_equal. apply map_ext. intros p. now apply reader_env.
Qed.

(* ================================================================== *)
(** ** The loop of [build] *)
(* ================================================================== *)

Lemma chunk_loop_never_raises words doc_id source_path size overlap fuel :
  Py.encodable doc_id = true -> forall start ord acc,
  Chunker.chunk_loop fuel words doc_id source_path size overlap start ord acc
  <> Raise.
Proof.
  intros Henc. induction fuel as [|fuel IH]; intros start ord acc;
    [discriminate|].
  rewrite chunk_loop_S. destruct (start <? Py.len words)%Z; [|discriminate].
  destruct (sha1_encodable (doc_id ++ Chunker.colon ++ Py.str_of_int ord))
    as [cid ->]; [now rewrite chunk_key_encodable|]. simpl.
  destruct (_ >=? _)%Z; [discriminate|apply IH].
Qed.

(** With an id that can be encoded, as every id made by [sha1] is,
    [chunk_doc] does not raise. *)
Lemma chunk_doc_never_raises fuel doc doc_id size overlap :
  Py.encodable doc_id = true ->
  Chunker.chunk_doc fuel doc doc_id size overlap <> Raise.
Proof.
  intros Henc. unfold Chunker.chunk_doc.
  destruct (_ =? 0)%Z; [discriminate|].
  destruct (_ <=? size)%Z.
  - destruct (sha1_encodable (doc_id ++ Chunker.colon ++ Py.lit "1"))
      as [cid ->]; [|discriminate].
    change (Py.lit "1") with (Py.str_of_int 1).
    now rewrite chunk_key_encodable.
  - now apply chunk_loop_never_raises.
Qed.

Lemma chunk_doc_fuel fuel fuel' doc doc_id size overlap chunks :
  (fuel <= fuel')%nat ->
  Chunker.chunk_doc fuel doc doc_id size overlap = Ok chunks ->
  Chunker.chunk_doc fuel' doc doc_id size overlap = Ok chunks.
Proof.
  intros Hle. unfold Chunker.chunk_doc.
  destruct (_ =? 0)%Z; [auto|]. destruct (_ <=? size)%Z; [auto|].
  now apply chunk_loop_fuel.
Qed.

Lemma chunk_doc_fuel_agree f1 f2 doc doc_id size overlap c1 c2 :
  Chunker.chunk_doc f1 doc doc_id size overlap = Ok c1 ->
  Chunker.chunk_doc f2 doc doc_id size overlap = Ok c2 ->
  c1 = c2.
Proof.
  intros H1 H2.
  apply (chunk_doc_fuel f1 (Nat.max f1 f2)) in H1; [|lia].
  apply (chunk_doc_fuel f2 (Nat.max f1 f2)) in H2; [|lia].
  congruence.
Qed.

Lemma build_knowledge_card_never_times_out e doc :
  Cli.build_knowledge_card e doc <> OutOfFuel.
Proof.
  unfold Cli.build_knowledge_card.
  destruct (Utils.sha1 _) eqn:H; simpl; try discriminate.
  now apply sha1_never_times_out in H.
Qed.

(** The card is made exactly when the canonical path can be encoded. *)
Lemma build_knowledge_card_encodable e doc :
  Py.encodable (Utils.canon (cwd e) (Loader.doc_path doc)) = true ->
  exists card, Cli.build_knowledge_card e doc = Ok card.
Proof.
  intros Henc. unfold Cli.build_knowledge_card.
  destruct (sha1_encodable (Utils.canon (cwd e) (Loader.doc_path doc)
                            ++ Chunker.colon
                            ++ Py.str_of_int (Loader.doc_bytes doc)))
    as [h ->]; [|simpl; eauto].
  now rewrite chunk_key_encodable.
Qed.

Lemma build_knowledge_card_env e e' doc :
  cwd e = cwd e' ->
  Cli.build_knowledge_card e doc = Cli.build_knowledge_card e' doc.
Proof. intros H. unfold Cli.build_knowledge_card. now rewrite H. Qed.

Lemma card_id_encodable e doc card :
  Cli.build_knowledge_card e doc = Ok card ->
  Py.encodable (card_id card) = true.
Proof.
  intros H. apply doc_id_forty_hex in H as [_ H]. now apply ascii_encodable.
Qed.

(** What the loop of [build] leaves in its three lists when it ends. *)
Lemma process_spec fuel e chunk overlap docs : forall a a',
  Cli.process fuel e chunk overlap docs a = Ok a' ->
  Cli.cards a' = Cli.cards a ++ flat_map (card_of e) docs
  /\ Cli.all_chunks a'
     = Cli.all_chunks a ++ flat_map (chunks_of fuel e chunk overlap) docs
  /\ Cli.skipped_files a'
     = Cli.skipped_files a ++ flat_map (skip_of e) docs.
Proof.
  induction docs as [|doc docs IH]; intros a a'; simpl.
  - intros [= <-]. now rewrite !app_nil_r.
  - unfold card_of at 1, chunks_of at 1, skip_of at 1.
    destruct (Cli.build_knowledge_card e doc) as [card| |] eqn:Hcard.
    + pose proof (chunk_doc_never_raises fuel doc (card_id card) chunk overlap
                    (card_id_encodable _ _ _ Hcard)) as Hnr.
      destruct (Chunker.chunk_doc fuel doc (card_id card) chunk overlap)
        as [chunks| |]; try discriminate; [|contradiction].
      intros H. apply IH in H as (Hc & Hch & Hs). simpl in *.
      rewrite Hc, Hch, Hs, <- !app_assoc. simpl. auto.
    + intros H. apply IH in H as (Hc & Hch & Hs). simpl in *.
      rewrite Hc, Hch, Hs, <- !app_assoc. simpl. auto.
    + discriminate.
Qed.

Lemma process_fuel fuel fuel' e chunk overlap docs : forall a a',
  (fuel <= fuel')%nat ->
  Cli.process fuel e chunk overlap docs a = Ok a' ->
  Cli.process fuel' e chunk overlap docs a = Ok a'.
Proof.
  induction docs as [|doc docs IH]; intros a a' Hle; simpl; [auto|].
  destruct (Cli.build_knowledge_card e doc) as [card| |] eqn:Hcard; auto.
  pose proof (chunk_doc_never_raises fuel doc (card_id card) chunk overlap
                (card_id_encodable _ _ _ Hcard)) as Hnr.
  destruct (Chunker.chunk_doc fuel doc (card_id card) chunk overlap)
    as [chunks| |] eqn:Hch; try discriminate; [|contradiction].
  rewrite (chunk_doc_fuel fuel fuel' _ _ _ _ _ Hle Hch). now apply IH.
Qed.

(** Two runs of the loop over the same documents from the same working
    directory end with the same lists, whatever fuel each was given. *)
Lemma process_agree f1 f2 e1 e2 chunk overlap docs : forall a a1 a2,
  cwd e1 = cwd e2 ->
  Cli.process f1 e1 chunk overlap docs a = Ok a1 ->
  Cli.process f2 e2 chunk overlap docs a = Ok a2 ->
  a1 = a2.
Proof.
  intros a a1 a2 Hcwd H1 H2.
  apply (process_fuel f1 (Nat.max f1 f2)) in H1; [|lia].
  apply (process_fuel f2 (Nat.max f1 f2)) in H2; [|lia].
  revert a a1 a2 H1 H2.
  induction docs as [|doc docs IH]; intros a a1 a2; simpl; [congruence|].
  rewrite (build_knowledge_card_env e1 e2 doc Hcwd).
  destruct (Cli.build_knowledge_card e2 doc) as [card| |]; try discriminate.
  - destruct (Chunker.chunk_doc _ doc (card_id card) chunk overlap);
      try discriminate; apply IH.
  - apply IH.
Qed.

(** With [overlap < chunk] the loop ends, given more fuel than any
    document has words. *)
Lemma process_returns fuel e chunk overlap docs : forall a,
  (overlap < chunk)%Z ->
  Forall (fun d => (List.length (Py.split (Loader.doc_text d)) < fuel)%nat)
         docs ->
  exists a', Cli.process fuel e chunk overlap docs a = Ok a'.
Proof.
  intros a Hov Hfuel. revert a.
  induction Hfuel as [|doc docs Hd _ IH]; intros a; simpl; [eauto|].
  destruct (Cli.build_knowledge_card e doc) as [card| |] eqn:Hcard.
  - destruct (chunk_doc_returns doc (card_id card) chunk overlap
                (card_id_encodable _ _ _ Hcard)) as [chunks Hret];
      [right; exact Hov|].
    rewrite (Hret fuel Hd). apply IH.
  - apply IH.
  - now apply build_knowledge_card_never_times_out in Hcard.
Qed.

Lemma flat_map_length_le {A B} (f : A -> list B) (l : list A) :
  (forall x, List.length (f x) <= 1)%nat ->
  (List.length (flat_map f l) <= List.length l)%nat.
Proof.
  intros H. induction l as [|x l IH]; simpl; [lia|].
  rewrite length_app. specialize (H x). lia.
Qed.

Lemma card_of_length e d : (List.length (card_of e d) <= 1)%nat.
Proof.
  unfold card_of. destruct (Cli.build_knowledge_card e d); simpl; lia.
Qed.

(* ================================================================== *)
(** ** [build] as a whole *)
(* ================================================================== *)

(** A run that returns wrote, for the sorted documents of the folder, the
    cards and the chunks of those whose card could be made, and a manifest
    that counts them. *)
Lemma build_spec fuel e walk chunk overlap out :
  Cli.build fuel e walk chunk overlap = Ok out ->
  let docs := Loader.load_folder e walk in
  Writer.cards_jsonl out = flat_map (card_of e) docs
  /\ Writer.chunks_jsonl out = flat_map (chunks_of fuel e chunk overlap) docs
  /\ Writer.manifest_json out
     = Writer.mkManifest (Py.len docs) (Py.len (Writer.cards_jsonl out))
                         (Py.len (Writer.chunks_jsonl out))
                         (flat_map (skip_of e) docs)
  /\ out_writable e = true.
Proof.
  intros H. cbv zeta. unfold Cli.build in H.
  set (docs := Loader.load_folder e walk) in *.
  destruct (Cli.process fuel e chunk overlap docs (Cli.mkAcc [] [] []))
    as [a| |] eqn:Hp; simpl in H; try discriminate.
  destruct (out_writable e); [|discriminate]. injection H as <-.
  apply process_spec in Hp as (Hc & Hch & Hs). simpl in *.
  unfold Writer.write_manifest. rewrite Hc, Hch, Hs. auto.
Qed.



(** [build] validates neither [--chunk] nor [--overlap]: a supported file
    of the folder with more words than [chunk], under [overlap >= chunk],
    keeps the run from ever returning. *)
Lemma build_diverges fuel e walk chunk overlap path :
  In path walk -> supported path = true ->
  Py.encodable (Utils.canon (cwd e) path) = true ->
  Py.split (Loader.doc_text (reader e path)) <> [] ->
  (chunk < Py.len (Py.split (Loader.doc_text (reader e path))))%Z ->
  (chunk <= overlap)%Z ->
  Cli.build fuel e walk chunk overlap = OutOfFuel.
Proof.
  intros Hin Hs Henc Hne Hlong Hov.
  destruct (build_knowledge_card_encodable e (reader e path)) as [card Hcard];
    [now rewrite reader_path|].
  unfold Cli.build.
  rewrite (process_diverges fuel e chunk overlap _ _ (reader e path) card);
    [reflexivity| |exact Hcard|].
  - apply load_folder_In. eauto.
  - apply chunk_doc_diverges; auto. eapply card_id_encodable; eauto.
Qed.

(** C8: when a run returns, [total_chunks] of the manifest is the number
    of chunk records written to chunks.jsonl and [total_cards] is at most
    [total_documents]; so it is for [build], where [total_documents]
    counts the documents loaded, and for [process_folder], where it counts
    the cards. *)
Theorem manifest_counts fuel e walk glob chunk overlap :
  (forall out,
     Cli.build fuel e walk chunk overlap = Ok out ->
     let m := Writer.manifest_json out in
     Writer.total_chunks m = Py.len (Writer.chunks_jsonl out)
     /\ Writer.total_cards m = Py.len (Writer.cards_jsonl out)
     /\ Writer.total_documents m = Py.len (List.filter supported walk)
     /\ (Writer.total_cards m <= Writer.total_documents m)%Z)
  /\ (forall out,
        Processors.process_folder e glob = Ok out ->
        let m := Processors.manifest_json out in
        Processors.total_chunks m = Py.len (Processors.chunks_jsonl out)
        /\ Processors.total_cards m = Py.len (Processors.cards_jsonl out)
        /\ (Processors.total_cards m <= Processors.total_documents m)%Z).
Proof.
  split.
  - intros out Hrun m. pose proof (build_spec _ _ _ _ _ _ Hrun) as Hspec.
    simpl in Hspec. destruct Hspec as (Hc & _ & Hm & _).
    unfold m. rewrite Hm. simpl.
    split; [reflexivity|]. split; [reflexivity|].
    unfold Py.len. rewrite load_folder_length. split; [reflexivity|].
    rewrite Hc. apply inj_le. rewrite <- (load_folder_length e walk).
    apply flat_map_length_le, card_of_length.
  - intros out Hrun m. unfold Processors.process_folder in Hrun.
    destruct (out_writable e); [|discriminate]. injection Hrun as <-.
    simpl. repeat split. lia.
Qed.

(** A witness: the run over the folder of a.txt. *)
Lemma manifest_counts_witness :
  exists out,
    Cli.build 10 abc_env [Py.lit "/in/a.txt"] 800 120 = Ok out
    /\ Writer.total_chunks (Writer.manifest_json out)
       = Py.len (Writer.chunks_jsonl out)
    /\ Writer.total_chunks (Writer.manifest_json out) = 1%Z.
Proof.
  evaluate (Cli.build 10 abc_env [Py.lit "/in/a.txt"] 800 120) as out Hrun.
  exists out. split; [reflexivity|].
  destruct (manifest_counts 10 abc_env [Py.lit "/in/a.txt"] [] 800 120)
    as [H _].
  destruct (H out Hrun) as (Hch & _). split; [exact Hch|].
  vm_compute in Hrun. injection Hrun as <-. reflexivity.
Defined.

(* ================================================================== *)
(** ** Two runs *)
(* ================================================================== *)

Lemma process_document_env e e' p :
  files e = files e' -> (forall bs, pdf e bs = pdf e' bs) ->
  Processors.process_document e p = Processors.process_document e' p.
Proof.
  intros Hf Hp.
  unfold Processors.process_document, Processors.calculate_checksum,
    Processors.read_pdf_file, Processors.read_txt_file.
  rewrite Hf. destruct (Fs.lookup (files e') p) as [f|]; [|reflexivity].
  now rewrite Hp.
Qed.

Lemma processors_process_env e e' fs : forall a,
  files e = files e' -> (forall bs, pdf e bs = pdf e' bs) ->
  Processors.process e fs a = Processors.process e' fs a.
Proof.
  intros a Hf Hp. revert a.
  induction fs as [|p fs IH]; intros a; simpl; [reflexivity|].
  rewrite (process_document_env e e' p Hf Hp).
  destruct (Processors.process_document e' p) as [[[card chunks] sum]| |];
    apply IH.
Qed.

(** C7: two runs over the same files (same working directory, same bytes
    under the same paths, the same PDF parser), which may differ in the
    order in which the folder is walked, in the time of the run and in the
    fuel given to the loops, write the same output when both return: the
    same document ids and the same chunk ids in the same order for
    [build], and for [process_folder] also the same checksums in the
    manifest. *)
Theorem two_runs_same_ids e1 e2 walk1 walk2 chunk overlap :
  cwd e1 = cwd e2 -> files e1 = files e2 ->
  (forall bs, pdf e1 bs = pdf e2 bs) ->
  NoDup walk1 -> Permutation walk1 walk2 ->
  (forall fuel1 fuel2 out1 out2,
     Cli.build fuel1 e1 walk1 chunk overlap = Ok out1 ->
     Cli.build fuel2 e2 walk2 chunk overlap = Ok out2 ->
     List.map card_id (Writer.cards_jsonl out1)
     = List.map card_id (Writer.cards_jsonl out2)
     /\ List.map chunk_id (Writer.chunks_jsonl out1)
        = List.map chunk_id (Writer.chunks_jsonl out2)
     /\ out1 = out2)
  /\ (forall out1 out2,
        Processors.process_folder e1 walk1 = Ok out1 ->
        Processors.process_folder e2 walk2 = Ok out2 ->
        List.map card_id (Processors.cards_jsonl out1)
        = List.map card_id (Processors.cards_jsonl out2)
        /\ List.map chunk_id (Processors.chunks_jsonl out1)
           = List.map chunk_id (Processors.chunks_jsonl out2)
        /\ Processors.checksums (Processors.manifest_json out1)
           = Processors.checksums (Processors.manifest_json out2)).
Proof.
  intros Hcwd Hfiles Hpdf Hnd Hperm. split.
  - intros fuel1 fuel2 out1 out2 H1 H2.
    assert (E : out1 = out2); [|now subst].
    unfold Cli.build in H1, H2.
    rewrite <- (load_folder_permutation e2 walk1 walk2 Hnd Hperm) in H2.
    rewrite <- (load_folder_env e1 e2 walk1 Hfiles Hpdf) in H2.
    destruct (Cli.process fuel1 e1 _ _ _ _) as [a1| |] eqn:Hp1;
      simpl in H1; try discriminate.
    destruct (Cli.process fuel2 e2 _ _ _ _) as [a2| |] eqn:Hp2;
      simpl in H2; try discriminate.
    rewrite (process_agree _ _ _ _ _ _ _ _ _ _ Hcwd Hp1 Hp2) in H1.
    destruct (out_writable e1); [|discriminate].
    destruct (out_writable e2); [|discriminate].
    congruence.
  - intros out1 out2 H1 H2. unfold Processors.process_folder in H1, H2.
    destruct (out_writable e1); [|discriminate].
    destruct (out_writable e2); [|discriminate].
    injection H1 as <-. injection H2 as <-. simpl.
    rewrite <- (sort_by_permutation (fun q => q) walk1 walk2 Hperm)
      by now rewrite map_id.
    rewrite <- (processors_process_env e1 e2 _ _ Hfiles Hpdf).
    auto.
Qed.

(** A witness: the folder of a.txt and b.txt walked in the two orders, at
    two times. *)
Lemma two_runs_same_ids_witness :
  exists out1 out2,
    Cli.build 10 two_env [Py.lit "/in/a.txt"; Py.lit "/in/b.txt"] 3 1
    = Ok out1
    /\ Cli.build 20 two_env_later [Py.lit "/in/b.txt"; Py.lit "/in/a.txt"] 3 1
       = Ok out2
    /\ List.map chunk_id (Writer.chunks_jsonl out1)
       = List.map chunk_id (Writer.chunks_jsonl out2)
    /\ List.length (Writer.chunks_jsonl out1) = 3%nat.
Proof.
  destruct (two_runs_same_ids two_env two_env_later
              [Py.lit "/in/a.txt"; Py.lit "/in/b.txt"]
              [Py.lit "/in/b.txt"; Py.lit "/in/a.txt"] 3 1) as [H _].
  - reflexivity.
  - reflexivity.
  - reflexivity.
  - repeat constructor; simpl; intuition discriminate.
  - apply perm_swap.
  - specialize (H 10%nat 20%nat).
    evaluate (Cli.build 10 two_env
                        [Py.lit "/in/a.txt"; Py.lit "/in/b.txt"] 3 1)
      as out1 H1.
    evaluate (Cli.build 20 two_env_later
                        [Py.lit "/in/b.txt"; Py.lit "/in/a.txt"] 3 1)
      as out2 H2.
    exists out1, out2. split; [reflexivity|]. split; [reflexivity|].
    destruct (H out1 out2 eq_refl eq_refl) as (_ & Hch & _).
    split; [exact Hch|].
    vm_compute in H1. injection H1 as <-. reflexivity.
Defined.

(* ================================================================== *)
(** ** Files that cannot be read *)
(* ================================================================== *)

Lemma txt_not_pdf ext :
  Loader.mem ext Loader.TXT_EXT = true -> Loader.mem ext Loader.PDF_EXT = false.
Proof.
  unfold Loader.mem, Loader.TXT_EXT, Loader.PDF_EXT. simpl.
  rewrite !orb_false_r. intros H.
  apply orb_prop in H as [H|H]; apply str_eqb_eq in H; subst; reflexivity.
Qed.

Lemma txt_supported p :
  Loader.mem (Py.lower (Utils.suffix p)) Loader.TXT_EXT = true ->
  supported p = true /\ forall e, reader e p = Loader.read_txt e p.
Proof.
  intros H. unfold supported, reader. rewrite H, (txt_not_pdf _ H). auto.
Qed.


Lemma read_txt_failure e path f :
  Fs.lookup (files e) path = Some f ->
  (forall content, Fs.read_utf8 f <> Ok content) ->
  Loader.read_txt e path
  = Loader.mkDoc path Loader.KindTxt [] None (Some []) (Fs.st_size f).
Proof.
  intros H Hfail. unfold Loader.read_txt. rewrite H.
  destruct (Fs.read_utf8 f) as [content| |] eqn:E; try reflexivity.
  now destruct (Hfail content).
Qed.

Lemma read_txt_success e path f content :
  Fs.lookup (files e) path = Some f -> Fs.read_utf8 f = Ok content ->
  Loader.read_txt e path
  = Loader.mkDoc path Loader.KindTxt content None
                 (Some (Fs.splitlines content)) (Fs.st_size f).
Proof. intros H Hok. unfold Loader.read_txt. now rewrite H, Hok. Qed.



Lemma undecodable_read_utf8 f :
  Fs.decode_utf8 (Fs.file_bytes f) = None ->
  forall content, Fs.read_utf8 f <> Ok content.
Proof.
  intros H content. unfold Fs.read_utf8. rewrite H.
  destruct (Fs.file_readable f); discriminate.
Qed.

(** The card of a document without text. *)
Lemma empty_document_card e doc card :
  Loader.doc_text doc = [] ->
  Cli.build_knowledge_card e doc = Ok card ->
  card_source_path card = Loader.doc_path doc
  /\ card_facts card = []
  /\ exists cit, card_citations card = [cit] /\ cit_text_excerpt cit = [].
Proof.
  intros Htext Hcard. apply build_knowledge_card_Ok in Hcard as [_ ->].
  rewrite Htext. simpl. eauto.
Qed.



(** C3, as stated, fails: over a folder with good.txt and the undecodable
    bad.txt the run succeeds, but two cards come out and the skip list is
    empty. *)
Lemma skip_isolation_two_cards :
  ~ spec_skip_isolation
      (Cli.build 100 mixed_env [Py.lit "/in/bad.txt"; Py.lit "/in/good.txt"]
                 800 120)
      (Py.lit "/in/bad.txt")
  /\ exists out,
       Cli.build 100 mixed_env [Py.lit "/in/bad.txt"; Py.lit "/in/good.txt"]
                 800 120 = Ok out
       /\ List.length (Writer.cards_jsonl out) = 2%nat
       /\ Writer.skipped_files (Writer.manifest_json out) = [].
Proof.
  evaluate (Cli.build 100 mixed_env
                      [Py.lit "/in/bad.txt"; Py.lit "/in/good.txt"] 800 120)
    as out Hrun.
  vm_compute in Hrun. injection Hrun as <-. split.
  - intros (out & [= <-] & Hlen & _). discriminate Hlen.
  - eexists. split; [reflexivity|]. split; reflexivity.
Qed.

Lemma chunk_doc_source_path fuel doc doc_id size overlap chunks :
  Chunker.chunk_doc fuel doc doc_id size overlap = Ok chunks ->
  Forall (fun c => chunk_source_path c = Loader.doc_path doc
                   /\ chunk_doc_id c = doc_id) chunks.
Proof.
  intros H. apply chunk_doc_spec in H as (Hnth & _).
  apply Forall_forall. intros c Hin. apply In_nth_error in Hin as [k Hk].
  apply Hnth in Hk as (_ & _ & Hid & Hsp & _). auto.
Qed.

(** C3 (amended): over a folder of two text files, one well formed and one
    that cannot be decoded, with paths that UTF-8 can encode, a
    configuration with [overlap < chunk] and an output folder that can be
    written, the run succeeds (with any fuel above the number of words of
    the good file, and with the same output); the loader turns the
    undecodable file into a document without text, so two cards come out,
    one of them for that file, with no facts and an empty excerpt; the
    skip list of the manifest is empty; every chunk comes from the good
    file. *)
Theorem undecodable_file_gets_empty_card
        e good bad fg fb text chunk overlap walk :
  good <> bad ->
  Loader.mem (Py.lower (Utils.suffix good)) Loader.TXT_EXT = true ->
  Loader.mem (Py.lower (Utils.suffix bad)) Loader.TXT_EXT = true ->
  Fs.lookup (files e) good = Some fg -> Fs.read_utf8 fg = Ok text ->
  Fs.lookup (files e) bad = Some fb ->
  Fs.decode_utf8 (Fs.file_bytes fb) = None ->
  Py.encodable (Utils.canon (cwd e) good) = true ->
  Py.encodable (Utils.canon (cwd e) bad) = true ->
  (overlap < chunk)%Z -> out_writable e = true ->
  Permutation [good; bad] walk ->
  exists out,
    (forall fuel, (List.length (Py.split text) < fuel)%nat ->
       Cli.build fuel e walk chunk overlap = Ok out)
    /\ List.length (Writer.cards_jsonl out) = 2%nat
    /\ Writer.manifest_json out
       = Writer.mkManifest 2 2 (Py.len (Writer.chunks_jsonl out)) []
    /\ (exists card cit,
          In card (Writer.cards_jsonl out)
          /\ card_source_path card = bad
          /\ card_facts card = []
          /\ card_citations card = [cit]
          /\ cit_text_excerpt cit = [])
    /\ Forall (fun c => chunk_source_path c = good) (Writer.chunks_jsonl out).
Proof.
  intros Hne Hxg Hxb Hfg Hrg Hfb Hdec Heg Heb Hov Hw Hperm.
  destruct (txt_supported good Hxg) as [Hsg Hreadg].
  destruct (txt_supported bad Hxb) as [Hsb Hreadb].
  set (dg := Loader.mkDoc good Loader.KindTxt text None
                          (Some (Fs.splitlines text)) (Fs.st_size fg)).
  set (db := Loader.mkDoc bad Loader.KindTxt [] None (Some []) (Fs.st_size fb)).
  assert (Hdg : reader e good = dg).
  { rewrite Hreadg. now apply read_txt_success. }
  assert (Hdb : reader e bad = db).
  { rewrite Hreadb. apply read_txt_failure; [exact Hfb|].
    now apply undecodable_read_utf8. }
  assert (Hdocs : Loader.load_folder e walk = [dg; db]
                  \/ Loader.load_folder e walk = [db; dg]).
  { apply Permutation_length_2_inv. symmetry.
    unfold Loader.load_folder. rewrite sort_by_perm, read_all_map.
    apply Permutation_length_2_inv in Hperm as [-> | ->];
      cbn [List.filter]; rewrite Hsg, Hsb; cbn [List.map];
      rewrite Hdg, Hdb; [reflexivity|apply perm_swap]. }
  destruct (build_knowledge_card_encodable e dg Heg) as [cg Hcg].
  destruct (build_knowledge_card_encodable e db Heb) as [cb Hcb].
  destruct (chunk_doc_returns dg (card_id cg) chunk overlap
              (card_id_encodable _ _ _ Hcg) (or_intror Hov)) as [chs Hchs].
  assert (Hnone : forall fuel,
             Chunker.chunk_doc fuel db (card_id cb) chunk overlap = Ok []).
  { intros fuel. now apply chunk_doc_no_words. }
  destruct (empty_document_card e db cb eq_refl Hcb)
    as (Hp & Hf & cit & Hcit & Hex).
  pose proof (chunk_doc_source_path _ _ _ _ _ _ (Hchs _ (Nat.lt_succ_diag_r _)))
    as Hsrc.
  assert (Hgood : Forall (fun c => chunk_source_path c = good) chs).
  { eapply Forall_impl; [|exact Hsrc]. simpl. tauto. }
  destruct Hdocs as [Hd | Hd].
  - exists (Writer.mkOutput [cg; cb] (chs ++ [])
              (Writer.mkManifest 2 2 (Py.len (chs ++ [])) [])).
    split; [|split; [reflexivity|split; [reflexivity|split]]].
    + intros fuel Hfuel. unfold Cli.build. rewrite Hd.
      cbn [Cli.process]. rewrite Hcg, (Hchs fuel Hfuel), Hcb, Hnone.
      cbn. now rewrite Hw.
    + exists cb, cit. simpl. auto.
    + simpl. now rewrite app_nil_r.
  - exists (Writer.mkOutput [cb; cg] chs
              (Writer.mkManifest 2 2 (Py.len chs) [])).
    split; [|split; [reflexivity|split; [reflexivity|split]]].
    + intros fuel Hfuel. unfold Cli.build. rewrite Hd.
      cbn [Cli.process]. rewrite Hcb, Hnone, Hcg, (Hchs fuel Hfuel).
      cbn. now rewrite Hw.
    + exists cb, cit. simpl. auto.
    + exact Hgood.
Qed.

(** A witness: the folder of good.txt and bad.txt. *)
Lemma undecodable_file_gets_empty_card_witness :
  exists out,
    Cli.build 100 mixed_env [Py.lit "/in/bad.txt"; Py.lit "/in/good.txt"]
              800 120 = Ok out
    /\ List.length (Writer.cards_jsonl out) = 2%nat
    /\ Writer.skipped_files (Writer.manifest_json out) = [].
Proof.
  destruct (undecodable_file_gets_empty_card mixed_env
              (Py.lit "/in/good.txt") (Py.lit "/in/bad.txt")
              (text_file ml_text) bad_file ml_text 800 120
              [Py.lit "/in/bad.txt"; Py.lit "/in/good.txt"])
    as (out & Hrun & Hlen & Hm & _).
  - discriminate.
  - reflexivity.
  - reflexivity.
  - reflexivity.
  - vm_compute. reflexivity.
  - reflexivity.
  - reflexivity.
  - vm_compute. reflexivity.
  - vm_compute. reflexivity.
  - lia.
  - reflexivity.
  - apply perm_swap.
  - exists out. split; [|split; [exact Hlen|now rewrite Hm]].
    apply Hrun. vm_compute. lia.
Defined.

(* ================================================================== *)
(** ** More on the chunking loop *)
(* ================================================================== *)

Section ChunkLoopMore.

Variables (words : list Py.str) (doc_id source_path : Py.str).
Variables (size overlap : Z).

Local Open Scope Z_scope.

Local Abbreviation n := (Py.len words).
Local Abbreviation loop fuel :=
  (Chunker.chunk_loop fuel words doc_id source_path size overlap).

(** With [overlap >= 0] the loop leaves through its [break]: the last
    window reaches the end of the words. *)
Lemma chunk_loop_last fuel : forall start ord acc res,
  loop fuel start ord acc = Ok res -> 0 <= overlap -> start < n ->
  exists m : nat,
    List.length res = (List.length acc + S m)%nat
    /\ n <= window_start size overlap start m + size.
Proof.
  induction fuel as [|fuel IH]; intros start ord acc res; [discriminate|].
  rewrite chunk_loop_S. intros Hrun Hov Hlt.
  destruct (Z.ltb_spec start n) as [_|Hge]; [|lia].
  destruct (Utils.sha1 (doc_id ++ Chunker.colon ++ Py.str_of_int ord))
    as [cid| |]; simpl in Hrun; try discriminate.
  destruct (Z.geb_spec (Z.min (start + size) n) n) as [Hend|Hend].
  - injection Hrun as <-. exists 0%nat. rewrite length_app. simpl.
    unfold window_start. split; lia.
  - apply IH in Hrun as (m & Hlen & Hlast); [|lia|lia].
    exists (S m). rewrite length_app in Hlen. simpl in Hlen.
    unfold window_start in *. split; lia.
Qed.

(** The fields that the loop never sets. *)
Lemma chunk_loop_unset fuel : forall start ord acc res,
  loop fuel start ord acc = Ok res ->
  Forall (fun c => chunk_page c = None /\ chunk_line_start c = None
                   /\ chunk_line_end c = None) acc ->
  Forall (fun c => chunk_page c = None /\ chunk_line_start c = None
                   /\ chunk_line_end c = None) res.
Proof.
  induction fuel as [|fuel IH]; intros start ord acc res; [discriminate|].
  rewrite chunk_loop_S. intros Hrun Hacc.
  destruct (start <? n); [|now injection Hrun as <-].
  destruct (Utils.sha1 (doc_id ++ Chunker.colon ++ Py.str_of_int ord))
    as [cid| |]; simpl in Hrun; try discriminate.
  assert (Hacc' : Forall (fun c => chunk_page c = None
                            /\ chunk_line_start c = None
                            /\ chunk_line_end c = None)
                    (acc ++ [mkChunk cid doc_id ord
                               (Py.join Chunker.space
                                  (Py.slice words start
                                     (Z.min (start + size) n)))
                               source_path None None None])).
  { apply Forall_app. split; [exact Hacc|]. constructor; [|constructor].
    simpl. auto. }
  destruct (_ >=? _); [now injection Hrun as <-|].
  eapply IH; eauto.
Qed.

Hypothesis words_are_words : Forall (fun w => is_word w = true) words.

(** The words of the chunks, each after the first [overlap] of its words,
    follow one another as in the text: nothing is lost between two
    windows. *)
Lemma chunk_loop_cover fuel : forall start ord acc res,
  loop fuel start ord acc = Ok res ->
  0 <= start -> 0 <= overlap < size ->
  exists new,
    res = acc ++ new
    /\ flat_map (fun c => skipn (Z.to_nat overlap) (chunk_words c)) new
       = skipn (Z.to_nat (start + overlap)) words.
Proof.
  induction fuel as [|fuel IH]; intros start ord acc res; [discriminate|].
  rewrite chunk_loop_S. intros Hrun Hst Hov.
  pose proof (len_nonneg words) as Hn.
  destruct (Z.ltb_spec start n) as [Hlt|Hge].
  2:{ injection Hrun as <-. exists []. rewrite app_nil_r. split; [reflexivity|].
      simpl. symmetry. apply skipn_all2. unfold Py.len in *. lia. }
  destruct (Utils.sha1 (doc_id ++ Chunker.colon ++ Py.str_of_int ord))
    as [cid| |]; simpl in Hrun; try discriminate.
  set (c0 := mkChunk cid doc_id ord
               (Py.join Chunker.space
                  (Py.slice words start (Z.min (start + size) n)))
               source_path None None None) in *.
  assert (Hw : chunk_words c0
               = Py.slice words start (Z.min (start + size) n)).
  { unfold chunk_words, c0. simpl.
    apply split_join, slice_Forall, words_are_words. }
  destruct (Z.geb_spec (Z.min (start + size) n) n) as [Hend|Hend].
  - injection Hrun as <-. exists [c0]. split; [reflexivity|].
    simpl. rewrite app_nil_r, Hw.
    rewrite slice_in_range by lia.
    rewrite Z.min_r by lia.
    rewrite firstn_all2 by (rewrite length_skipn; unfold Py.len; lia).
    rewrite skipn_skipn. f_equal. lia.
  - apply IH in Hrun as (new & -> & Hnew); [|lia|lia].
    exists (c0 :: new). rewrite <- app_assoc. split; [reflexivity|].
    simpl. rewrite Hnew, Hw.
    rewrite slice_in_range by lia.
    rewrite Z.min_l by lia.
    replace (Z.to_nat (start + size - start)) with (Z.to_nat size) by lia.
    replace (Z.to_nat (start + size - overlap + overlap))
      with ((Z.to_nat size - Z.to_nat overlap)
            + (Z.to_nat overlap + Z.to_nat start))%nat by lia.
    replace (Z.to_nat (start + overlap))
      with (Z.to_nat overlap + Z.to_nat start)%nat by lia.
    rewrite skipn_firstn_comm, skipn_skipn.
    rewrite <- (skipn_skipn (Z.to_nat size - Z.to_nat overlap)).
    apply firstn_skipn.
Qed.

(** With a negative overlap the windows are apart: the chunks of a loop
    entered at [start] hold at most the words from [start] on. *)
Lemma chunk_loop_apart fuel : forall start ord acc res,
  loop fuel start ord acc = Ok res ->
  0 <= start -> overlap < 0 -> 0 < size ->
  exists new,
    res = acc ++ new
    /\ (List.length (flat_map chunk_words new) <= Z.to_nat (n - start))%nat.
Proof.
  induction fuel as [|fuel IH]; intros start ord acc res; [discriminate|].
  rewrite chunk_loop_S. intros Hrun Hst Hov Hsz.
  pose proof (len_nonneg words) as Hn.
  destruct (Z.ltb_spec start n) as [Hlt|Hge].
  2:{ injection Hrun as <-. exists []. rewrite app_nil_r. split; [reflexivity|].
      simpl. lia. }
  destruct (Utils.sha1 (doc_id ++ Chunker.colon ++ Py.str_of_int ord))
    as [cid| |]; simpl in Hrun; try discriminate.
  set (c0 := mkChunk cid doc_id ord
               (Py.join Chunker.space
                  (Py.slice words start (Z.min (start + size) n)))
               source_path None None None) in *.
  assert (Hw : List.length (chunk_words c0)
               = Z.to_nat (Z.min (start + size) n - start)).
  { unfold chunk_words, c0. simpl.
    rewrite split_join by apply slice_Forall, words_are_words.
    pose proof (slice_length words start (Z.min (start + size) n)
                  ltac:(lia) ltac:(lia)) as H.
    unfold Py.len in H at 1. lia. }
  destruct (Z.geb_spec (Z.min (start + size) n) n) as [Hend|Hend].
  - injection Hrun as <-. exists [c0]. split; [reflexivity|].
    simpl. rewrite app_nil_r, Hw. lia.
  - apply IH in Hrun as (new & -> & Hnew); [|lia|lia|lia].
    exists (c0 :: new). rewrite <- app_assoc. split; [reflexivity|].
    simpl. rewrite length_app, Hw. lia.
Qed.

End ChunkLoopMore.

(* ================================================================== *)
(** ** More on chunk_doc *)
(* ================================================================== *)

(** A call that returns chunks for a text with words had an id that can be
    encoded and, when the words do not fit in one chunk, a window that
    moves forward. *)
Lemma chunk_doc_Ok_config fuel doc doc_id size overlap chunks :
  Chunker.chunk_doc fuel doc doc_id size overlap = Ok chunks ->
  Py.split (Loader.doc_text doc) <> [] ->
  Py.encodable doc_id = true
  /\ ((size < Py.len (Py.split (Loader.doc_text doc)))%Z ->
      (overlap < size)%Z).
Proof.
  intros Hrun Hne.
  destruct (Py.encodable doc_id) eqn:Henc.
  - split; [reflexivity|]. intros Hlong.
    destruct (Z.lt_ge_cases overlap size) as [H|H]; [exact H|].
    rewrite chunk_doc_diverges in Hrun by (auto; lia). discriminate.
  - exfalso. destruct (Z.le_gt_cases (Py.len (Py.split (Loader.doc_text doc)))
                                     size) as [Hle|Hgt].
    + rewrite chunk_doc_short in Hrun by assumption.
      rewrite sha1_not_encodable in Hrun; [discriminate|].
      change (Py.lit "1") with (Py.str_of_int 1).
      now rewrite chunk_key_encodable.
    + rewrite chunk_doc_long in Hrun by (auto; lia).
      destruct fuel as [|fuel]; [discriminate|].
      rewrite chunk_loop_raises in Hrun; [discriminate|exact Henc|].
      now apply len_pos.
Qed.

(** X1: stitching the chunks gives the words of the text back.  When
    [chunk_doc] returns under an overlap that is not negative, the words
    of the first chunk followed by the words of each later chunk without
    its first [overlap] words are the words of the text, in order: no
    word is lost and none is repeated beyond the overlap. *)
Theorem chunks_cover_words fuel doc doc_id size overlap chunks :
  (0 <= overlap)%Z ->
  Chunker.chunk_doc fuel doc doc_id size overlap = Ok chunks ->
  stitch overlap chunks = Py.split (Loader.doc_text doc).
Proof.
  intros Hov Hrun.
  set (words := Py.split (Loader.doc_text doc)) in *.
  assert (Hwords : Forall (fun w => is_word w = true) words)
    by apply split_words.
  destruct (list_eq_dec (list_eq_dec N.eq_dec) words []) as [E|Hne].
  { rewrite chunk_doc_no_words in Hrun by exact E.
    injection Hrun as <-. now rewrite E. }
  destruct (Z.le_gt_cases (Py.len words) size) as [Hle|Hgt].
  - rewrite chunk_doc_short in Hrun by assumption.
    destruct (Utils.sha1 _) as [cid| |]; simpl in Hrun; try discriminate.
    injection Hrun as <-. simpl. rewrite app_nil_r.
    unfold chunk_words. simpl. now apply split_join.
  - destruct (chunk_doc_Ok_config _ _ _ _ _ _ Hrun Hne) as [_ Hd].
    specialize (Hd ltac:(fold words; lia)).
    pose proof (chunk_doc_spec _ _ _ _ _ _ Hrun) as Hspec.
    cbv zeta in Hspec. fold words in Hspec. destruct Hspec as (Hnth & _ & _).
    rewrite chunk_doc_long in Hrun by (fold words; auto; lia).
    destruct (chunk_loop_cover _ _ _ _ _ Hwords _ _ _ _ _ Hrun
                ltac:(lia) ltac:(lia)) as (new & Hres & Hcover).
    simpl in Hres. rewrite Hres in Hnth |- *. clear Hres.
    destruct new as [|c0 rest].
    { simpl in Hcover. symmetry in Hcover. apply skipn_all_iff in Hcover.
      unfold Py.len in Hgt. lia. }
    destruct (Hnth 0%nat c0 eq_refl) as (_ & Ht & _).
    unfold window_start in Ht. simpl in Ht.
    assert (Hw0 : chunk_words c0 = firstn (Z.to_nat size) words).
    { unfold chunk_words. rewrite Ht. fold words.
      rewrite split_join by now apply slice_Forall.
      pose proof (len_nonneg words).
      rewrite slice_in_range by lia. rewrite Z.min_l by lia.
      simpl. now rewrite Z.sub_0_r. }
    cbn [flat_map Z.add] in Hcover. cbn [stitch].
    rewrite <- (firstn_skipn (Z.to_nat overlap) (chunk_words c0)).
    rewrite <- app_assoc, Hcover, Hw0, firstn_firstn.
    rewrite Nat.min_l by lia. apply firstn_skipn.
Qed.

(** A witness: seven words in windows of three that overlap by one. *)
Lemma chunks_cover_words_witness :
  exists chunks,
    Chunker.chunk_doc 8 seven_doc some_id 3 1 = Ok chunks
    /\ List.map chunk_text chunks
       = [Py.lit "a b c"; Py.lit "c d e"; Py.lit "e f g"]
    /\ stitch 1 chunks = Py.split (Loader.doc_text seven_doc).
Proof.
  evaluate (Chunker.chunk_doc 8 seven_doc some_id 3 1) as chunks Hrun.
  exists chunks. split; [reflexivity|]. split.
  - vm_compute in Hrun. injection Hrun as <-. reflexivity.
  - apply (chunks_cover_words 8 seven_doc some_id 3 1 chunks); [lia|exact Hrun].
Defined.

(** X2: how many chunks.  When [chunk_doc] returns [N] chunks for a text
    of [n] words, [n >= 1], under an overlap that is not negative, then
    with [d = size - overlap] the last window reaches the end,
    [n <= (N-1)*d + size], and the one before does not,
    [(N-2)*d + size < n] when [N >= 2].  So there is one chunk exactly
    when [n <= size], and a text of [size + 1] words gives two. *)
Theorem chunk_count fuel doc doc_id size overlap chunks :
  let n := Py.len (Py.split (Loader.doc_text doc)) in
  let N := Py.len chunks in
  (0 <= overlap)%Z -> (1 <= n)%Z ->
  Chunker.chunk_doc fuel doc doc_id size overlap = Ok chunks ->
  (1 <= N)%Z
  /\ (n <= (N - 1) * (size - overlap) + size)%Z
  /\ ((2 <= N)%Z -> ((N - 2) * (size - overlap) + size < n)%Z)
  /\ (N = 1%Z <-> (n <= size)%Z)
  /\ (n = (size + 1)%Z -> N = 2%Z).
Proof.
  intros n N Hov Hn Hrun.
  assert (Hne : Py.split (Loader.doc_text doc) <> []).
  { intros E. unfold n in Hn. rewrite E in Hn. unfold Py.len in Hn.
    simpl in Hn. lia. }
  destruct (Z.le_gt_cases n size) as [Hle|Hgt].
  - rewrite chunk_doc_short in Hrun by assumption.
    destruct (Utils.sha1 _) as [cid| |]; simpl in Hrun; try discriminate.
    injection Hrun as E. unfold N. rewrite <- E. unfold Py.len at 1 2 3 4 5 6.
    simpl. repeat split; intros; lia.
  - destruct (chunk_doc_Ok_config _ _ _ _ _ _ Hrun Hne) as [_ Hd].
    specialize (Hd Hgt).
    pose proof (chunk_doc_spec _ _ _ _ _ _ Hrun) as Hspec.
    cbv zeta in Hspec. destruct Hspec as (_ & Hfull & _).
    rewrite chunk_doc_long in Hrun by (auto; lia).
    destruct (chunk_loop_last _ _ _ _ _ _ _ _ _ _ Hrun Hov
                ltac:(fold n; lia)) as (m & Hlen & Hlast).
    simpl in Hlen. unfold window_start in *. fold n in Hlast, Hfull.
    assert (HN : N = Z.of_nat (S m)) by (unfold N, Py.len; now rewrite Hlen).
    assert (Hm : (0 < m)%nat) by (destruct m; [simpl in Hlast; lia|lia]).
    specialize (Hfull (m - 1)%nat ltac:(lia)).
    rewrite HN. repeat split; intros; try lia; try nia.
Qed.

(** A witness: seven words in windows of three that overlap by one make
    three chunks. *)
Lemma chunk_count_witness :
  exists chunks,
    Chunker.chunk_doc 8 seven_doc some_id 3 1 = Ok chunks
    /\ Py.len chunks = 3%Z.
Proof.
  evaluate (Chunker.chunk_doc 8 seven_doc some_id 3 1) as chunks Hrun.
  exists chunks. split; [reflexivity|].
  destruct (chunk_count 8 seven_doc some_id 3 1 chunks)
    as (_ & Hlast & Hprev & _).
  - lia.
  - vm_compute. discriminate.
  - exact Hrun.
  - change (Py.len (Py.split (Loader.doc_text seven_doc))) with 7%Z in *.
    pose proof (len_nonneg chunks). lia.
Defined.

(** X3: a negative overlap is taken as it is given and leaves words out.
    With [overlap < 0 < size] and more than [size] words, the chunks that
    [chunk_doc] returns hold fewer words than the text has: the window
    after the first starts beyond the word that follows it. *)
Theorem negative_overlap_drops_words fuel doc doc_id size overlap chunks :
  (overlap < 0)%Z -> (0 < size)%Z ->
  (size < Py.len (Py.split (Loader.doc_text doc)))%Z ->
  Chunker.chunk_doc fuel doc doc_id size overlap = Ok chunks ->
  (List.length (flat_map chunk_words chunks)
   < List.length (Py.split (Loader.doc_text doc)))%nat.
Proof.
  intros Hov Hsz Hlong Hrun.
  set (words := Py.split (Loader.doc_text doc)) in *.
  assert (Hwords : Forall (fun w => is_word w = true) words)
    by apply split_words.
  assert (Hne : words <> []).
  { intros E. rewrite E in Hlong. unfold Py.len in Hlong. simpl in Hlong. lia. }
  rewrite chunk_doc_long in Hrun by (fold words; auto).
  fold words in Hrun.
  destruct fuel as [|fuel]; [discriminate|].
  rewrite chunk_loop_S in Hrun.
  pose proof (len_nonneg words) as Hn.
  destruct (Z.ltb_spec 0 (Py.len words)) as [_|]; [|lia].
  destruct (Utils.sha1 _) as [cid| |]; simpl in Hrun; try discriminate.
  destruct (Z.geb_spec (Z.min size (Py.len words)) (Py.len words)); [lia|].
  destruct (chunk_loop_apart _ _ _ _ _ Hwords _ _ _ _ _ Hrun
              ltac:(lia) Hov Hsz) as (new & Hres & Hnew).
  rewrite Hres. simpl. rewrite length_app.
  unfold chunk_words at 1. simpl.
  rewrite split_join by now apply slice_Forall.
  pose proof (slice_length words 0 (Z.min size (Py.len words))
                ltac:(lia) ltac:(lia)) as Hfirst.
  unfold Py.len in *. lia.
Qed.

(** A witness: seven words, windows of three, an overlap of -1; the fourth
    word is in no chunk. *)
Lemma negative_overlap_drops_words_witness :
  exists chunks,
    Chunker.chunk_doc 8 seven_doc some_id 3 (-1) = Ok chunks
    /\ List.map chunk_text chunks = [Py.lit "a b c"; Py.lit "e f g"]
    /\ (List.length (flat_map chunk_words chunks) < 7)%nat.
Proof.
  evaluate (Chunker.chunk_doc 8 seven_doc some_id 3 (-1)) as chunks Hrun.
  exists chunks. split; [reflexivity|]. split.
  - vm_compute in Hrun. injection Hrun as <-. reflexivity.
  - apply (negative_overlap_drops_words 8 seven_doc some_id 3 (-1) chunks);
      [lia|lia|vm_compute; reflexivity|exact Hrun].
Defined.

(** X4: [chunk_doc] raises exactly when the text has a word and the
    document id cannot be encoded in UTF-8 (a lone surrogate in it); then it
    raises at the first chunk, whatever the configuration. *)
Theorem chunk_doc_raises_iff doc doc_id size overlap :
  (exists fuel, Chunker.chunk_doc fuel doc doc_id size overlap = Raise)
  <-> Py.encodable doc_id = false /\ Py.split (Loader.doc_text doc) <> [].
Proof.
  split.
  - intros [fuel Hrun]. split.
    + destruct (Py.encodable doc_id) eqn:Henc; [|reflexivity].
      now apply chunk_doc_never_raises in Hrun.
    + intros E. rewrite chunk_doc_no_words in Hrun by exact E. discriminate.
  - intros [Henc Hne]. exists 1%nat.
    destruct (Z.le_gt_cases (Py.len (Py.split (Loader.doc_text doc))) size).
    + rewrite chunk_doc_short by assumption.
      rewrite sha1_not_encodable; [reflexivity|].
      change (Py.lit "1") with (Py.str_of_int 1).
      now rewrite chunk_key_encodable.
    + rewrite chunk_doc_long by (auto; lia).
      apply chunk_loop_raises; [exact Henc|now apply len_pos].
Qed.

(** A witness: a document id that is a lone surrogate. *)
Lemma chunk_doc_raises_iff_witness :
  exists fuel, Chunker.chunk_doc fuel abc_doc [56575%N] 800 120 = Raise.
Proof.
  apply (chunk_doc_raises_iff abc_doc [56575%N] 800 120).
  split; [reflexivity|vm_compute; discriminate].
Defined.

(** X5: [chunk_doc] returns for some fuel exactly when the words fit in
    one chunk or [overlap < size], for a text with a word and an id that
    can be encoded; otherwise the loop does not end. *)
Theorem chunk_doc_returns_iff doc doc_id size overlap :
  Py.encodable doc_id = true ->
  Py.split (Loader.doc_text doc) <> [] ->
  (exists fuel chunks,
     Chunker.chunk_doc fuel doc doc_id size overlap = Ok chunks)
  <-> (Py.len (Py.split (Loader.doc_text doc)) <= size \/ overlap < size)%Z.
Proof.
  intros Henc Hne. split.
  - intros (fuel & chunks & Hrun).
    destruct (Z.le_gt_cases (Py.len (Py.split (Loader.doc_text doc))) size)
      as [Hle|Hgt]; [now left|right].
    now apply (chunk_doc_Ok_config _ _ _ _ _ _ Hrun Hne).
  - intros Hcfg.
    destruct (chunk_doc_returns doc doc_id size overlap Henc Hcfg)
      as [chunks Hret].
    exists (S (List.length (Py.split (Loader.doc_text doc)))), chunks.
    apply Hret. lia.
Qed.

(** A witness: three words do not fit in a chunk of two, and the overlap
    of one is below two. *)
Lemma chunk_doc_returns_iff_witness :
  exists fuel chunks, Chunker.chunk_doc fuel abc_doc some_id 2 1 = Ok chunks.
Proof.
  apply (chunk_doc_returns_iff abc_doc some_id 2 1).
  - reflexivity.
  - vm_compute. discriminate.
  - right. lia.
Defined.

(** X6: what every chunk of [chunk_doc] carries: the document id and the
    path it was called with, no page and no line numbers, an id that is
    the digest of "<doc_id>:<ordinal>", forty characters long, and a text
    that is its words joined by single spaces. *)
Theorem chunk_provenance fuel doc doc_id size overlap chunks :
  Chunker.chunk_doc fuel doc doc_id size overlap = Ok chunks ->
  Forall (fun c =>
            chunk_doc_id c = doc_id
            /\ chunk_source_path c = Loader.doc_path doc
            /\ chunk_page c = None
            /\ chunk_line_start c = None /\ chunk_line_end c = None
            /\ Utils.sha1 (doc_id ++ Py.lit ":"
                           ++ Py.str_of_int (chunk_ordinal c))
               = Ok (chunk_id c)
            /\ List.length (chunk_id c) = 40%nat
            /\ chunk_text c = Py.join (Py.lit " ") (chunk_words c))
         chunks.
Proof.
  intros Hrun.
  assert (Hunset : Forall (fun c => chunk_page c = None
                             /\ chunk_line_start c = None
                             /\ chunk_line_end c = None) chunks).
  { revert Hrun. unfold Chunker.chunk_doc.
    destruct (_ =? 0)%Z; [intros [= <-]; constructor|].
    destruct (_ <=? size)%Z.
    - destruct (Utils.sha1 _); simpl; try discriminate.
      intros [= <-]. constructor; [simpl; auto|constructor].
    - intros Hrun. eapply chunk_loop_unset; [exact Hrun|constructor]. }
  pose proof (chunk_doc_spec _ _ _ _ _ _ Hrun) as Hspec.
  cbv zeta in Hspec. destruct Hspec as (Hnth & _ & _).
  rewrite Forall_forall in *. intros c Hin.
  destruct (Hunset c Hin) as (Hp & Hs & He).
  apply In_nth_error in Hin as [k Hk].
  apply Hnth in Hk as (Hord & Ht & Hid & Hsp & Hsha & _).
  rewrite <- Hord in Hsha.
  repeat split; auto.
  - now apply sha1_Ok in Hsha.
  - unfold chunk_words. rewrite Ht at 2.
    now rewrite split_join by apply slice_Forall, split_words.
Qed.

(** A witness: the two chunks of a.txt. *)
Lemma chunk_provenance_witness :
  exists chunks,
    Chunker.chunk_doc 4 abc_doc some_id 2 1 = Ok chunks
    /\ Forall (fun c => chunk_doc_id c = some_id /\ chunk_page c = None)
              chunks
    /\ List.length chunks = 2%nat.
Proof.
  evaluate (Chunker.chunk_doc 4 abc_doc some_id 2 1) as chunks Hrun.
  exists chunks. split; [reflexivity|]. split.
  - eapply Forall_impl;
      [|exact (chunk_provenance 4 abc_doc some_id 2 1 chunks Hrun)].
    simpl. tauto.
  - vm_compute in Hrun. injection Hrun as <-. reflexivity.
Defined.

(* ================================================================== *)
(** ** The run of [build] as a whole *)
(* ================================================================== *)

Lemma build_knowledge_card_not_encodable e doc :
  Py.encodable (Utils.canon (cwd e) (Loader.doc_path doc)) = false ->
  Cli.build_knowledge_card e doc = Raise.
Proof.
  intros Henc. unfold Cli.build_knowledge_card.
  rewrite sha1_not_encodable; [reflexivity|].
  now rewrite chunk_key_encodable.
Qed.

Lemma card_of_path e d :
  List.map card_source_path (card_of e d)
  = List.filter (fun p => Py.encodable (Utils.canon (cwd e) p))
                [Loader.doc_path d].
Proof.
  unfold card_of. simpl.
  destruct (Py.encodable _) eqn:Henc.
  - destruct (build_knowledge_card_encodable e d Henc) as [card Hcard].
    rewrite Hcard. apply build_knowledge_card_Ok in Hcard as [_ ->].
    reflexivity.
  - now rewrite build_knowledge_card_not_encodable.
Qed.

Lemma skip_of_path e d :
  skip_of e d
  = List.filter (fun p => negb (Py.encodable (Utils.canon (cwd e) p)))
                [Loader.doc_path d].
Proof.
  unfold skip_of. simpl.
  destruct (Py.encodable _) eqn:Henc.
  - destruct (build_knowledge_card_encodable e d Henc) as [card ->].
    reflexivity.
  - now rewrite build_knowledge_card_not_encodable.
Qed.

Lemma flat_map_filter_singleton {A B} (f : A -> list B) (g : A -> B)
      (keep : B -> bool) (l : list A) :
  (forall x, f x = List.filter keep [g x]) ->
  flat_map f l = List.filter keep (List.map g l).
Proof.
  intros H. induction l as [|x l IH]; [reflexivity|].
  simpl. rewrite IH, H. simpl. now destruct (keep (g x)).
Qed.

Lemma map_flat_map {A B C} (h : B -> C) (f : A -> list B) (l : list A) :
  List.map h (flat_map f l) = flat_map (fun x => List.map h (f x)) l.
Proof.
  induction l as [|x l IH]; [reflexivity|].
  simpl. now rewrite map_app, IH.
Qed.

Lemma filter_partition_length {A} (f : A -> bool) (l : list A) :
  (List.length (List.filter f l)
   + List.length (List.filter (fun x => negb (f x)) l)
   = List.length l)%nat.
Proof.
  induction l as [|x l IH]; [reflexivity|].
  simpl. destruct (f x); simpl; lia.
Qed.

Lemma load_folder_paths e walk :
  Permutation (List.map Loader.doc_path (Loader.load_folder e walk))
              (List.filter supported walk).
Proof.
  unfold Loader.load_folder. rewrite <- (read_all_paths e).
  apply Permutation_map, sort_by_perm.
Qed.

(** X7: what becomes of each supported file in a run of [build] that
    returns.  The cards are those of the files whose resolved path can be
    encoded in UTF-8, in the order of the loader; the skip list holds the
    other files; so every supported file has a card or is on the skip
    list, never both, and the cards and the skipped files add up to
    [total_documents].  What a file contains, or whether it can be read,
    has no part in it. *)
Theorem build_cards_and_skips fuel e walk chunk overlap out :
  Cli.build fuel e walk chunk overlap = Ok out ->
  let paths := List.map Loader.doc_path (Loader.load_folder e walk) in
  let encodes := fun p => Py.encodable (Utils.canon (cwd e) p) in
  let m := Writer.manifest_json out in
  Permutation paths (List.filter supported walk)
  /\ List.map card_source_path (Writer.cards_jsonl out)
     = List.filter encodes paths
  /\ Writer.skipped_files m = List.filter (fun p => negb (encodes p)) paths
  /\ (Writer.total_cards m + Py.len (Writer.skipped_files m)
      = Writer.total_documents m)%Z.
Proof.
  intros H. cbv zeta.
  apply build_spec in H as (Hc & _ & Hm & _). cbv zeta in Hm.
  assert (Hcards : List.map card_source_path (Writer.cards_jsonl out)
                   = List.filter
                       (fun p => Py.encodable (Utils.canon (cwd e) p))
                       (List.map Loader.doc_path (Loader.load_folder e walk))).
  { rewrite Hc, map_flat_map.
    apply flat_map_filter_singleton. intros d. apply card_of_path. }
  assert (Hskip : flat_map (skip_of e) (Loader.load_folder e walk)
                  = List.filter
                      (fun p => negb (Py.encodable (Utils.canon (cwd e) p)))
                      (List.map Loader.doc_path (Loader.load_folder e walk))).
  { apply flat_map_filter_singleton. intros d. apply skip_of_path. }
  split; [apply load_folder_paths|]. split; [exact Hcards|].
  rewrite Hm. cbn [Writer.skipped_files Writer.total_cards
                   Writer.total_documents].
  split; [exact Hskip|].
  rewrite Hskip. unfold Py.len.
  rewrite <- (length_map card_source_path (Writer.cards_jsonl out)), Hcards.
  rewrite <- (length_map Loader.doc_path (Loader.load_folder e walk)).
  pose proof (filter_partition_length
                (fun p => Py.encodable (Utils.canon (cwd e) p))
                (List.map Loader.doc_path (Loader.load_folder e walk))).
  lia.
Qed.

(** A witness: the folder with a text file and a file that is no UTF-8;
    both get a card, nothing is skipped. *)
Lemma build_cards_and_skips_witness :
  exists out,
    Cli.build 100 mixed_env [Py.lit "/in/bad.txt"; Py.lit "/in/good.txt"]
              800 120 = Ok out
    /\ List.map card_source_path (Writer.cards_jsonl out)
       = [Py.lit "/in/bad.txt"; Py.lit "/in/good.txt"]
    /\ (Writer.total_cards (Writer.manifest_json out)
        + Py.len (Writer.skipped_files (Writer.manifest_json out))
        = Writer.total_documents (Writer.manifest_json out))%Z.
Proof.
  evaluate (Cli.build 100 mixed_env
              [Py.lit "/in/bad.txt"; Py.lit "/in/good.txt"] 800 120)
    as out Hrun.
  exists out. split; [reflexivity|].
  destruct (build_cards_and_skips _ _ _ _ _ _ Hrun) as (_ & Hc & _ & Hsum).
  split; [|exact Hsum].
  rewrite Hc. vm_compute. reflexivity.
Defined.

Lemma chunks_of_card fuel e chunk overlap d c :
  In c (chunks_of fuel e chunk overlap d) ->
  exists card,
    Cli.build_knowledge_card e d = Ok card
    /\ chunk_doc_id c = card_id card
    /\ chunk_source_path c = card_source_path card.
Proof.
  unfold chunks_of.
  destruct (Cli.build_knowledge_card e d) as [card| |] eqn:Hcard;
    [|contradiction|contradiction].
  destruct (Chunker.chunk_doc fuel d (card_id card) chunk overlap)
    as [chunks| |] eqn:Hch; [|contradiction|contradiction].
  intros Hin. exists card. split; [reflexivity|].
  apply chunk_doc_source_path in Hch. rewrite Forall_forall in Hch.
  destruct (Hch c Hin) as [Hp Hid].
  apply build_knowledge_card_Ok in Hcard as [_ Hcard].
  rewrite Hcard at 2. simpl. auto.
Qed.

(** X8: every chunk that [build] writes belongs to a card that it writes:
    the chunk's [doc_id] and [source_path] are the [id] and [source_path]
    of one of the cards of the same run. *)
Theorem chunks_refer_to_cards fuel e walk chunk overlap out :
  Cli.build fuel e walk chunk overlap = Ok out ->
  Forall (fun c =>
            exists card,
              In card (Writer.cards_jsonl out)
              /\ card_id card = chunk_doc_id c
              /\ card_source_path card = chunk_source_path c)
         (Writer.chunks_jsonl out).
Proof.
  intros H. apply build_spec in H as (Hc & Hch & _). cbv zeta in *.
  rewrite Forall_forall. intros c Hin.
  rewrite Hch in Hin. apply in_flat_map in Hin as (d & Hd & Hin).
  apply chunks_of_card in Hin as (card & Hcard & Hid & Hp).
  exists card. split; [|auto].
  rewrite Hc. apply in_flat_map. exists d. split; [exact Hd|].
  unfold card_of. rewrite Hcard. now left.
Qed.

(** A witness: the three chunks of the folder of two files. *)
Lemma chunks_refer_to_cards_witness :
  exists out,
    Cli.build 10 two_env [Py.lit "/in/a.txt"; Py.lit "/in/b.txt"] 3 1 = Ok out
    /\ Forall (fun c => exists card,
                 In card (Writer.cards_jsonl out)
                 /\ card_id card = chunk_doc_id c)
              (Writer.chunks_jsonl out)
    /\ List.length (Writer.chunks_jsonl out) = 3%nat.
Proof.
  evaluate (Cli.build 10 two_env [Py.lit "/in/a.txt"; Py.lit "/in/b.txt"] 3 1)
    as out Hrun.
  exists out. split; [reflexivity|]. split.
  - eapply Forall_impl; [|exact (chunks_refer_to_cards _ _ _ _ _ _ Hrun)].
    intros c (card & Hin & Hid & _). eauto.
  - vm_compute in Hrun. injection Hrun as <-. reflexivity.
Defined.

(** *** When [build] returns *)








(** *** The order of the output *)

Lemma negb_ltb_trans a b c :
  Py.str_ltb b a = false -> Py.str_ltb c b = false -> Py.str_ltb c a = false.
Proof.
  intros Hba Hcb.
  destruct (Py.str_ltb c a) eqn:Hca; [|reflexivity].
  destruct (str_ltb_total a b) as [Hab|[->|Hab]]; [|congruence|congruence].
  rewrite (str_ltb_trans _ _ _ Hca Hab) in Hcb. discriminate Hcb.
Qed.

Lemma sorted_paths_cons a l :
  sorted_paths (a :: l) = true <->
  Forall (fun b => Py.str_ltb b a = false) l /\ sorted_paths l = true.
Proof.
  revert a. induction l as [|b l IH]; intros a.
  - simpl. split; [auto|reflexivity].
  - change (sorted_paths (a :: b :: l))
      with (negb (Py.str_ltb b a) && sorted_paths (b :: l)).
    rewrite andb_true_iff, negb_true_iff. split.
    + intros [Hba Hs]. split; [|exact Hs].
      constructor; [exact Hba|].
      apply IH in Hs as [Hall _].
      eapply Forall_impl; [|exact Hall].
      intros c Hcb. now apply (negb_ltb_trans a b c).
    + intros [Hall Hs]. split; [now inversion Hall|exact Hs].
Qed.

Lemma insert_by_sorted {A} (key : A -> Py.str) d l :
  sorted_paths (List.map key l) = true ->
  sorted_paths (List.map key (Py.insert_by key d l)) = true.
Proof.
  induction l as [|x l IH]; [reflexivity|].
  intros Hs. cbn [List.map] in Hs.
  apply sorted_paths_cons in Hs as [Hall Hs].
  cbn [Py.insert_by].
  destruct (Py.str_ltb (key x) (key d)) eqn:Hlt; cbn [List.map];
    apply sorted_paths_cons.
  - split; [|auto].
    apply (Permutation_Forall
             (Permutation_sym (Permutation_map key (insert_by_perm key d l)))).
    constructor; [now apply str_ltb_asym|exact Hall].
  - split.
    + constructor; [exact Hlt|].
      eapply Forall_impl; [|exact Hall].
      intros b Hb. now apply (negb_ltb_trans (key d) (key x) b).
    + apply sorted_paths_cons. auto.
Qed.

Lemma sort_by_sorted {A} (key : A -> Py.str) l :
  sorted_paths (List.map key (Py.sort_by key l)) = true.
Proof.
  induction l as [|d l IH]; [reflexivity|].
  simpl. now apply insert_by_sorted.
Qed.

Lemma sorted_paths_filter f l :
  sorted_paths l = true -> sorted_paths (List.filter f l) = true.
Proof.
  induction l as [|a l IH]; [reflexivity|].
  intros Hs. apply sorted_paths_cons in Hs as [Hall Hs].
  simpl. destruct (f a); [|auto].
  apply sorted_paths_cons. split; [|auto].
  rewrite Forall_forall in *. intros b Hb.
  apply filter_In in Hb as [Hb _]. auto.
Qed.

(** X10: [load_folder] returns the supported files of the walk, each
    once for each time the walk comes across it, ordered by path: no
    document is followed by one with a smaller path. *)
Theorem load_folder_sorted e walk :
  let paths := List.map Loader.doc_path (Loader.load_folder e walk) in
  sorted_paths paths = true
  /\ Permutation paths (List.filter supported walk)
  /\ Forall (fun d => d = reader e (Loader.doc_path d))
            (Loader.load_folder e walk).
Proof.
  cbv zeta. split; [apply sort_by_sorted|].
  split; [apply load_folder_paths|].
  rewrite Forall_forall. intros d Hd.
  apply load_folder_In in Hd as (p & _ & _ & ->).
  now rewrite reader_path.
Qed.

(** A witness: the walk comes across b.txt before a.txt. *)
Lemma load_folder_sorted_witness :
  List.map Loader.doc_path
    (Loader.load_folder two_env [Py.lit "/in/b.txt"; Py.lit "/in/a.txt"])
  = [Py.lit "/in/a.txt"; Py.lit "/in/b.txt"]
  /\ sorted_paths
       (List.map Loader.doc_path
          (Loader.load_folder two_env
             [Py.lit "/in/b.txt"; Py.lit "/in/a.txt"])) = true.
Proof.
  split; [reflexivity|].
  apply (load_folder_sorted two_env [Py.lit "/in/b.txt"; Py.lit "/in/a.txt"]).
Defined.

Lemma sorted_paths_app a : forall b,
  sorted_paths a = true -> sorted_paths b = true ->
  (forall x y, In x a -> In y b -> Py.str_ltb y x = false) ->
  sorted_paths (a ++ b) = true.
Proof.
  induction a as [|x a IH]; intros b Ha Hb Hab; [exact Hb|].
  apply sorted_paths_cons in Ha as [Hall Ha].
  cbn [app]. apply sorted_paths_cons. split.
  - apply Forall_app. split; [exact Hall|].
    rewrite Forall_forall. intros y Hy. apply Hab; [now left|exact Hy].
  - apply IH; auto. intros x' y Hx Hy. apply Hab; [now right|exact Hy].
Qed.

Lemma sorted_paths_same p l :
  (forall x, In x l -> x = p) -> sorted_paths l = true.
Proof.
  induction l as [|x l IH]; intros H; [reflexivity|].
  apply sorted_paths_cons. split.
  - rewrite Forall_forall. intros y Hy.
    rewrite (H x (or_introl eq_refl)), (H y (or_intror Hy)).
    apply str_ltb_irrefl.
  - apply IH. intros y Hy. apply H. now right.
Qed.

Lemma sorted_paths_flat_map {A} (key : A -> Py.str) (f : A -> list Py.str) l :
  sorted_paths (List.map key l) = true ->
  (forall d x, In x (f d) -> x = key d) ->
  sorted_paths (flat_map f l) = true.
Proof.
  intros Hs Hf. induction l as [|d l IH]; [reflexivity|].
  cbn [List.map] in Hs. apply sorted_paths_cons in Hs as [Hall Hs].
  cbn [flat_map]. apply sorted_paths_app.
  - apply (sorted_paths_same (key d)). apply Hf.
  - now apply IH.
  - intros x y Hx Hy. rewrite (Hf d x Hx).
    apply in_flat_map in Hy as (d' & Hd' & Hy). rewrite (Hf d' y Hy).
    rewrite Forall_forall in Hall. apply Hall. now apply in_map.
Qed.

(** X11: the order of the output of [build].  The cards are in the order
    of their source paths, whatever the order in which the files were
    found; so are the skipped files; and the chunks come document by
    document in the same order. *)
Theorem build_output_sorted fuel e walk chunk overlap out :
  Cli.build fuel e walk chunk overlap = Ok out ->
  sorted_paths (List.map card_source_path (Writer.cards_jsonl out)) = true
  /\ sorted_paths (Writer.skipped_files (Writer.manifest_json out)) = true
  /\ sorted_paths (List.map chunk_source_path (Writer.chunks_jsonl out))
     = true.
Proof.
  intros H. apply build_spec in H as (Hc & Hch & Hm & _). cbv zeta in *.
  rewrite Hm, Hc, Hch. cbn [Writer.skipped_files].
  rewrite !map_flat_map.
  rewrite (flat_map_filter_singleton _ Loader.doc_path
             (fun p => Py.encodable (Utils.canon (cwd e) p)))
    by (intros d; apply card_of_path).
  rewrite (flat_map_filter_singleton (skip_of e) Loader.doc_path
             (fun p => negb (Py.encodable (Utils.canon (cwd e) p))))
    by (intros d; apply skip_of_path).
  split; [apply sorted_paths_filter, sort_by_sorted|].
  split; [apply sorted_paths_filter, sort_by_sorted|].
  apply (sorted_paths_flat_map Loader.doc_path); [apply sort_by_sorted|].
  intros d x Hx. apply in_map_iff in Hx as (c & <- & Hc').
  apply chunks_of_card in Hc' as (card & Hcard & _ & ->).
  now apply build_knowledge_card_Ok in Hcard as [_ ->].
Qed.

(** A witness: the walk comes across b.txt first, the card of a.txt is
    written first. *)
Lemma build_output_sorted_witness :
  exists out,
    Cli.build 10 two_env [Py.lit "/in/b.txt"; Py.lit "/in/a.txt"] 3 1 = Ok out
    /\ List.map card_source_path (Writer.cards_jsonl out)
       = [Py.lit "/in/a.txt"; Py.lit "/in/b.txt"]
    /\ sorted_paths (List.map card_source_path (Writer.cards_jsonl out))
       = true.
Proof.
  evaluate (Cli.build 10 two_env [Py.lit "/in/b.txt"; Py.lit "/in/a.txt"] 3 1)
    as out Hrun.
  exists out. split; [reflexivity|]. split.
  - vm_compute in Hrun. injection Hrun as <-. reflexivity.
  - now apply (build_output_sorted 10 two_env
                 [Py.lit "/in/b.txt"; Py.lit "/in/a.txt"] 3 1 out).
Defined.

(* ================================================================== *)
(** ** The facts of a card *)
(* ================================================================== *)

Lemma starts_with_app p b : Py.starts_with p (p ++ b) = true.
Proof.
  induction p as [|c p IH]; [reflexivity|].
  simpl. now rewrite N.eqb_refl, IH.
Qed.

Lemma contains_app a p b : Py.contains p (a ++ p ++ b) = true.
Proof.
  induction a as [|c a IH].
  - simpl. destruct (p ++ b) eqn:E; simpl;
      rewrite <- E, starts_with_app; reflexivity.
  - cbn [app Py.contains]. rewrite IH. apply orb_true_r.
Qed.

(** The pieces of [split]: none holds the separator, the first is the
    beginning of the string, each is a part of it. *)
Lemma split_on_pieces sep s :
  exists p0 ps,
    Py.split_on sep s = p0 :: ps
    /\ ~ In sep p0 /\ (exists b, s = p0 ++ b)
    /\ Forall (fun p => ~ In sep p /\ exists a b, s = a ++ p ++ b) ps.
Proof.
  induction s as [|c s (p0 & ps & Hs & Hno & [b Hb] & Hall)].
  - exists [], []. simpl. repeat split; auto. now exists [].
  - simpl. destruct (N.eqb_spec c sep) as [->|Hne].
    + exists [], (Py.split_on sep s). split; [reflexivity|].
      split; [auto|]. split; [now exists (sep :: s)|].
      rewrite Hs. constructor.
      * split; [exact Hno|]. exists [sep], b. simpl. now rewrite <- Hb.
      * eapply Forall_impl; [|exact Hall].
        intros p (Hp & a & b' & E). split; [exact Hp|].
        exists (sep :: a), b'. simpl. now rewrite <- E.
    + rewrite Hs. exists (c :: p0), ps. split; [reflexivity|].
      split; [intros [E|E]; [congruence|auto]|].
      split; [exists b; simpl; now rewrite <- Hb|].
      eapply Forall_impl; [|exact Hall].
      intros p (Hp & a & b' & E). split; [exact Hp|].
      exists (c :: a), b'. simpl. now rewrite <- E.
Qed.

Lemma split_on_Forall sep s :
  Forall (fun p => ~ In sep p /\ exists a b, s = a ++ p ++ b)
         (Py.split_on sep s).
Proof.
  destruct (split_on_pieces sep s) as (p0 & ps & -> & Hno & [b Hb] & Hall).
  constructor; [|exact Hall].
  split; [exact Hno|]. now exists [], b.
Qed.

Lemma lstrip_suffix s :
  exists pre, s = pre ++ Py.lstrip s.
Proof.
  induction s as [|c s [pre IH]]; [now exists []|].
  simpl. destruct (Py.isspace c).
  - exists (c :: pre). simpl. now rewrite <- IH.
  - now exists [].
Qed.

Lemma lstrip_head s c t : Py.lstrip s = c :: t -> Py.isspace c = false.
Proof.
  induction s as [|d s IH]; [discriminate|].
  simpl. destruct (Py.isspace d) eqn:Hd; [exact IH|].
  intros [= <- _]. exact Hd.
Qed.

Lemma lstrip_snoc s c :
  Py.isspace c = false -> Py.lstrip (s ++ [c]) = Py.lstrip s ++ [c].
Proof.
  intros Hc. induction s as [|d s IH]; simpl; [now rewrite Hc|].
  now destruct (Py.isspace d).
Qed.

Lemma rstrip_cons c s :
  Py.isspace c = false -> Py.rstrip (c :: s) = c :: Py.rstrip s.
Proof.
  intros Hc. unfold Py.rstrip. simpl.
  now rewrite lstrip_snoc, rev_app_distr.
Qed.

Lemma rstrip_prefix s : exists post, s = Py.rstrip s ++ post.
Proof.
  unfold Py.rstrip. destruct (lstrip_suffix (rev s)) as [pre E].
  exists (rev pre).
  rewrite <- rev_app_distr, <- E. now rewrite rev_involutive.
Qed.

Lemma rstrip_last s (d : Py.char) :
  Py.rstrip s <> [] -> Py.isspace (last (Py.rstrip s) d) = false.
Proof.
  unfold Py.rstrip. intros Hne.
  destruct (Py.lstrip (rev s)) as [|x u] eqn:E; [now destruct Hne|].
  simpl. rewrite last_last. now apply lstrip_head in E.
Qed.

Lemma strip_trimmed s : trimmed (Py.strip s) = true.
Proof.
  unfold Py.strip.
  destruct (Py.lstrip s) as [|c t] eqn:E; [reflexivity|].
  pose proof (lstrip_head _ _ _ E) as Hc.
  rewrite rstrip_cons by exact Hc.
  unfold trimmed. rewrite Hc. simpl.
  destruct (Py.rstrip t) as [|x u] eqn:Et; [now rewrite Hc|].
  rewrite <- Et.
  rewrite (rstrip_last t c); [reflexivity|]. now rewrite Et.
Qed.

Lemma strip_part s : exists a b, s = a ++ Py.strip s ++ b.
Proof.
  unfold Py.strip.
  destruct (lstrip_suffix s) as [pre E].
  destruct (rstrip_prefix (Py.lstrip s)) as [post E'].
  exists pre, post. now rewrite <- E', <- E.
Qed.

Lemma strip_In c s : In c (Py.strip s) -> In c s.
Proof.
  destruct (strip_part s) as (a & b & E). intros H.
  rewrite E. apply in_or_app. right. apply in_or_app. now left.
Qed.

(** What every sentence has. *)
Lemma sentences_shape text :
  Forall (fun f => ~ In Utils.dot f /\ trimmed f = true
                   /\ Py.contains f text = true)
         (Cli.sentences text).
Proof.
  rewrite sentences_filter_map.
  rewrite Forall_forall. intros f Hf.
  apply filter_In in Hf as [Hf _].
  apply in_map_iff in Hf as (p & <- & Hp).
  pose proof (split_on_Forall Utils.dot text) as Hall.
  rewrite Forall_forall in Hall.
  destruct (Hall p Hp) as (Hno & a & b & E).
  split; [intros H; now apply Hno, strip_In|].
  split; [apply strip_trimmed|].
  destruct (strip_part p) as (a' & b' & E').
  set (q := Py.strip p) in *. rewrite E, E'.
  replace (a ++ (a' ++ q ++ b') ++ b) with ((a ++ a') ++ q ++ (b' ++ b))
    by (now rewrite <- !app_assoc).
  apply contains_app.
Qed.

Lemma Forall_filter {A} (P : A -> Prop) (f : A -> bool) l :
  Forall P l -> Forall (fun x => P x /\ f x = true) (List.filter f l).
Proof.
  rewrite !Forall_forall. intros H x Hx.
  apply filter_In in Hx as [Hx Hf]. auto.
Qed.

(** X12: what the facts of a card are.  Each fact, in either pipeline,
    has more than 20 characters, holds no period, neither begins nor ends
    with white space, and stands in the text of the document as it is;
    [extract_facts] returns at most [max_facts] of them. *)
Theorem facts_are_trimmed_excerpts text :
  let fact_of := fun f =>
    (20 < Py.len f)%Z /\ ~ In Utils.dot f /\ trimmed f = true
    /\ Py.contains f text = true in
  Forall fact_of (Cli.facts_of text)
  /\ (forall max_facts,
        Forall fact_of (Processors.extract_facts text max_facts))
  /\ (forall max_facts, (0 <= max_facts)%Z ->
        (Py.len (Processors.extract_facts text max_facts) <= max_facts)%Z).
Proof.
  cbv zeta.
  assert (Hslice : forall j,
            Forall (fun f =>
                      (~ In Utils.dot f /\ trimmed f = true
                       /\ Py.contains f text = true)
                      /\ long_sentence f = true)
                   (List.filter long_sentence
                                (Py.slice_to (Cli.sentences text) j))).
  { intros j. apply Forall_filter. unfold Py.slice_to.
    apply slice_Forall, sentences_shape. }
  assert (Hlong : forall f, long_sentence f = true -> (20 < Py.len f)%Z).
  { intros f. unfold long_sentence. lia. }
  split; [|split].
  - unfold Cli.facts_of.
    eapply Forall_impl; [|exact (Hslice 5%Z)].
    intros f [(H1 & H2 & H3) H4]. auto.
  - intros max_facts. unfold Processors.extract_facts.
    rewrite collect_facts_filter. simpl.
    eapply Forall_impl; [|exact (Hslice max_facts)].
    intros f [(H1 & H2 & H3) H4]. auto.
  - intros max_facts Hmax. unfold Processors.extract_facts.
    rewrite collect_facts_filter. simpl.
    rewrite slice_to_firstn by exact Hmax.
    pose proof (filter_length_le long_sentence
                  (firstn (Z.to_nat max_facts) (Cli.sentences text))).
    pose proof (firstn_le_length (Z.to_nat max_facts) (Cli.sentences text)).
    unfold Py.len. lia.
Qed.

(** A witness: the two facts of the example text of the test suite. *)
Lemma facts_are_trimmed_excerpts_witness :
  Cli.facts_of ml_text
  = [Py.lit "Machine Learning (ML) is a subset of AI";
     Py.lit "It uses algorithms to learn patterns"]
  /\ Forall (fun f => Py.contains f ml_text = true /\ ~ In Utils.dot f)
            (Cli.facts_of ml_text).
Proof.
  split; [reflexivity|].
  destruct (facts_are_trimmed_excerpts ml_text) as [H _].
  eapply Forall_impl; [|exact H]. simpl. tauto.
Defined.

(* ================================================================== *)
(** ** The command [inspect] *)
(* ================================================================== *)




(* ================================================================== *)
(** ** The readers of the two pipelines *)
(* ================================================================== *)

Lemma read_pages_spec ps : forall pages full_text,
  Loader.read_pages ps pages full_text
  = (pages ++ List.map page_text ps, full_text ++ pages_text ps).
Proof.
  unfold pages_text.
  induction ps as [|[t|] ps IH]; intros pages full_text; simpl.
  - now rewrite !app_nil_r.
  - rewrite IH, <- !app_assoc. reflexivity.
  - rewrite IH, <- !app_assoc. reflexivity.
Qed.

Lemma read_pdf_pages_spec ps : forall pages full_text,
  Processors.read_pdf_pages ps pages full_text
  = if forallb extracted ps
    then Ok (Loader.read_pages ps pages full_text) else Raise.
Proof.
  induction ps as [|[t|] ps IH]; intros pages full_text; simpl; auto.
Qed.

Lemma forallb_extracted ps : forallb extracted ps = false <-> In None ps.
Proof.
  induction ps as [|[t|] ps IH]; simpl.
  - split; [discriminate|contradiction].
  - rewrite IH. split; [auto|]. intros [H|H]; [discriminate|exact H].
  - split; auto.
Qed.

(** X14: the two PDF readers on a file that opens.  [read_pdf] of the
    loader keeps one entry for every page, an empty one for a page whose
    text extraction fails, and joins each page and a newline into the
    text; [read_pdf_file] gives the same text and pages when every page
    extracts, and raises when one page fails. *)
Theorem pdf_readers e path f ps :
  Fs.lookup (files e) path = Some f ->
  Fs.file_readable f = true ->
  pdf e (Fs.file_bytes f) = Some ps ->
  let doc := Loader.read_pdf e path in
  doc = Loader.mkDoc path Loader.KindPdf (Py.strip (pages_text ps))
                     (Some (List.map page_text ps)) None (Fs.st_size f)
  /\ (In None ps -> Processors.read_pdf_file e path = Raise)
  /\ (~ In None ps ->
      Processors.read_pdf_file e path
      = Ok (Loader.doc_text doc, List.map page_text ps)).
Proof.
  intros Hf Hr Hps. cbv zeta.
  assert (Hdoc : Loader.read_pdf e path
                 = Loader.mkDoc path Loader.KindPdf (Py.strip (pages_text ps))
                     (Some (List.map page_text ps)) None (Fs.st_size f)).
  { unfold Loader.read_pdf. rewrite Hf, Hr, Hps, read_pages_spec.
    reflexivity. }
  split; [exact Hdoc|].
  unfold Processors.read_pdf_file.
  rewrite Hf, Hr, Hps, read_pdf_pages_spec, read_pages_spec, Hdoc.
  split; intros Hin.
  - apply forallb_extracted in Hin. now rewrite Hin.
  - destruct (forallb extracted ps) eqn:Hall; [reflexivity|].
    now apply forallb_extracted in Hall.
Qed.

(** A witness: a PDF of three pages, the second of which fails. *)
Lemma pdf_readers_witness :
  Loader.doc_pages (Loader.read_pdf paged_env (Py.lit "/in/r.pdf"))
  = Some [Py.lit "page one"; []; Py.lit "page three"]
  /\ Processors.read_pdf_file paged_env (Py.lit "/in/r.pdf") = Raise.
Proof.
  destruct (pdf_readers paged_env (Py.lit "/in/r.pdf")
              (Fs.mkFile [37; 80; 68; 70]%N true) three_pages)
    as (Hdoc & Hfail & _); try reflexivity.
  split.
  - rewrite Hdoc. reflexivity.
  - apply Hfail. right. now left.
Defined.

(** X15: [read_txt_file] on a file that opens always returns a text: the
    UTF-8 decoding when there is one, and then [read_txt] of the loader
    returns the same text and lines; otherwise every byte as one
    character, where [read_txt] returns the empty text.  It raises exactly
    when the file is missing or cannot be opened. *)
Theorem txt_readers e path :
  (Processors.read_txt_file e path = Raise
   <-> forall f, Fs.lookup (files e) path = Some f ->
                 Fs.file_readable f = false)
  /\ (forall f,
        Fs.lookup (files e) path = Some f -> Fs.file_readable f = true ->
        (forall s,
           Fs.decode_utf8 (Fs.file_bytes f) = Some s ->
           let content := Fs.universal_newlines s in
           Processors.read_txt_file e path
           = Ok (content, Fs.splitlines content)
           /\ Loader.read_txt e path
              = Loader.mkDoc path Loader.KindTxt content None
                             (Some (Fs.splitlines content)) (Fs.st_size f))
        /\ (Fs.decode_utf8 (Fs.file_bytes f) = None ->
            let content := Fs.universal_newlines (Fs.file_bytes f) in
            Processors.read_txt_file e path
            = Ok (content, Fs.splitlines content)
            /\ Loader.read_txt e path
               = Loader.mkDoc path Loader.KindTxt [] None (Some [])
                              (Fs.st_size f))).
Proof.
  split.
  - unfold Processors.read_txt_file, Fs.read_latin1.
    destruct (Fs.lookup (files e) path) as [f|].
    + destruct (Fs.file_readable f) eqn:Hr.
      * split.
        -- destruct (Fs.decode_utf8 (Fs.file_bytes f)); discriminate.
        -- intros H. specialize (H f eq_refl). congruence.
      * split; [|reflexivity]. intros _ f' [= <-]. exact Hr.
    + split; [|reflexivity]. intros _ f' H. discriminate H.
  - intros f Hf Hr. split.
    + intros s Hs. cbv zeta. split.
      * unfold Processors.read_txt_file. now rewrite Hf, Hr, Hs.
      * apply (read_txt_success e path f); [exact Hf|].
        unfold Fs.read_utf8. now rewrite Hr, Hs.
    + intros Hs. cbv zeta. split.
      * unfold Processors.read_txt_file, Fs.read_latin1.
        now rewrite Hf, Hr, Hs.
      * apply (read_txt_failure e path f Hf).
        now apply undecodable_read_utf8.
Qed.

(** A witness: the file of the two bytes FF FE. *)
Lemma txt_readers_witness :
  Processors.read_txt_file mixed_env (Py.lit "/in/bad.txt")
  = Ok ([255; 254]%N, [[255; 254]%N])
  /\ Loader.doc_text (Loader.read_txt mixed_env (Py.lit "/in/bad.txt")) = [].
Proof.
  destruct (txt_readers mixed_env (Py.lit "/in/bad.txt")) as [_ H].
  destruct (H bad_file eq_refl eq_refl) as [_ Hlatin].
  destruct (Hlatin eq_refl) as [Hfile Hdoc].
  split; [exact Hfile|]. now rewrite Hdoc.
Defined.

(* ================================================================== *)
(** ** processors.py *)
(* ================================================================== *)

Lemma generate_chunk_id_sha1 doc_id ordinal :
  Processors.generate_chunk_id doc_id ordinal
  = Utils.sha1 (doc_id ++ Chunker.colon ++ Py.str_of_int ordinal).
Proof. reflexivity. Qed.

Lemma generate_doc_id_sha1 source_path checksum :
  Processors.generate_doc_id source_path checksum
  = Utils.sha1 (source_path ++ Chunker.colon ++ checksum).
Proof. reflexivity. Qed.

Lemma len_cons {A} (x : A) l : Py.len (x :: l) = (Py.len l + 1)%Z.
Proof. unfold Py.len. cbn [List.length]. now rewrite Nat2Z.inj_succ. Qed.

Lemma find_page_spec paragraph pgs : forall idx k,
  Processors.find_page paragraph idx pgs = Some k ->
  (idx < k <= idx + Py.len pgs)%Z
  /\ exists page,
       nth_error pgs (Z.to_nat (k - idx - 1)) = Some page
       /\ Py.contains paragraph page = true
       /\ Forall (fun q => Py.contains paragraph q = false)
                 (firstn (Z.to_nat (k - idx - 1)) pgs).
Proof.
  induction pgs as [|page pgs IH]; intros idx k; simpl; [discriminate|].
  destruct (Py.contains paragraph page) eqn:Hc.
  - intros [= <-]. rewrite len_cons. pose proof (len_nonneg pgs).
    split; [lia|].
    replace (idx + 1 - idx - 1)%Z with 0%Z by lia. simpl.
    exists page. auto.
  - intros H. apply IH in H as (Hk & page' & Hn & Hin & Hall).
    rewrite len_cons. split; [lia|].
    replace (Z.to_nat (k - idx - 1)) with (S (Z.to_nat (k - (idx + 1) - 1)))
      by lia.
    simpl. exists page'. auto.
Qed.

Lemma chunk_paragraphs_spec ps doc_id source_path pages :
  forall i acc chunks,
  Processors.chunk_paragraphs i ps doc_id source_path pages acc = Ok chunks ->
  exists new,
    chunks = acc ++ new
    /\ List.map (fun c => (chunk_ordinal c, chunk_text c)) new
       = List.filter (fun ip => negb (Py.len (snd ip) <? 50)%Z)
                     (enumerate_from i ps)
    /\ Forall (fun c =>
                 chunk_doc_id c = doc_id
                 /\ chunk_source_path c = source_path
                 /\ Utils.sha1 (doc_id ++ Chunker.colon
                                ++ Py.str_of_int (chunk_ordinal c))
                    = Ok (chunk_id c)
                 /\ chunk_page c
                    = match pages with
                      | Some pgs => Processors.find_page (chunk_text c) 0 pgs
                      | None => None
                      end
                 /\ chunk_line_start c = None /\ chunk_line_end c = None)
              new.
Proof.
  induction ps as [|p ps IH]; intros i acc chunks; simpl.
  - intros [= <-]. exists []. now rewrite app_nil_r.
  - destruct (Py.len p <? 50)%Z; simpl.
    + apply IH.
    + rewrite generate_chunk_id_sha1.
      destruct (Utils.sha1 _) as [cid| |] eqn:Hid; simpl; try discriminate.
      intros H. apply IH in H as (new & -> & Hmap & Hall).
      eexists (_ :: new). split; [now rewrite <- app_assoc|].
      split; [simpl; now rewrite Hmap|].
      constructor; [simpl; auto 10|exact Hall].
Qed.

Lemma chunk_paragraphs_returns ps doc_id source_path pages :
  Py.encodable doc_id = true -> forall i acc,
  exists chunks,
    Processors.chunk_paragraphs i ps doc_id source_path pages acc = Ok chunks.
Proof.
  intros Henc. induction ps as [|p ps IH]; intros i acc; simpl; [eauto|].
  destruct (Py.len p <? 50)%Z; [apply IH|].
  rewrite generate_chunk_id_sha1.
  destruct (sha1_encodable (doc_id ++ Chunker.colon ++ Py.str_of_int i))
    as [h ->]; [now rewrite chunk_key_encodable|].
  simpl. apply IH.
Qed.

Lemma enumerate_from_In {A} (l : list A) : forall i k x,
  In (k, x) (enumerate_from i l) ->
  (i <= k)%Z /\ nth_error l (Z.to_nat (k - i)) = Some x.
Proof.
  induction l as [|y l IH]; intros i k x; simpl; [contradiction|].
  intros [[= <- <-]|H].
  - split; [lia|]. now replace (i - i)%Z with 0%Z by lia.
  - apply IH in H as [Hk Hn]. split; [lia|].
    replace (Z.to_nat (k - i)) with (S (Z.to_nat (k - (i + 1)))) by lia.
    exact Hn.
Qed.

Lemma paragraphs_trimmed text :
  Forall (fun p => trimmed p = true) (Processors.paragraphs text).
Proof.
  unfold Processors.paragraphs. rewrite Forall_forall. intros p Hp.
  apply in_flat_map in Hp as (q & _ & Hp).
  destruct (Utils.nonempty (Py.strip q)); [|contradiction].
  destruct Hp as [<-|[]]. apply strip_trimmed.
Qed.

(** X16: the chunks of [create_chunks].  There is one chunk for each
    paragraph of 50 characters or more, in the order of the text; its
    ordinal is the place of the paragraph among all paragraphs, counted
    from 0, so the ordinals have gaps where short paragraphs stand; its
    id is the digest of "<doc_id>:<ordinal>"; its page, when there is
    one, is the first page that contains the paragraph.  The call returns
    whenever the document id can be encoded. *)
Theorem create_chunks_spec text doc_id source_path pages :
  (Py.encodable doc_id = true ->
   exists chunks,
     Processors.create_chunks text doc_id source_path pages = Ok chunks)
  /\ forall chunks,
       Processors.create_chunks text doc_id source_path pages = Ok chunks ->
       List.map (fun c => (chunk_ordinal c, chunk_text c)) chunks
       = List.filter (fun ip => negb (Py.len (snd ip) <? 50)%Z)
                     (enumerate_from 0 (Processors.paragraphs text))
       /\ Forall (fun c =>
                    (0 <= chunk_ordinal c)%Z
                    /\ nth_error (Processors.paragraphs text)
                                 (Z.to_nat (chunk_ordinal c))
                       = Some (chunk_text c)
                    /\ (50 <= Py.len (chunk_text c))%Z
                    /\ trimmed (chunk_text c) = true
                    /\ chunk_doc_id c = doc_id
                    /\ chunk_source_path c = source_path
                    /\ Utils.sha1 (doc_id ++ Py.lit ":"
                                   ++ Py.str_of_int (chunk_ordinal c))
                       = Ok (chunk_id c)
                    /\ (forall k, chunk_page c = Some k ->
                        exists pgs page,
                          pages = Some pgs /\ (1 <= k <= Py.len pgs)%Z
                          /\ nth_error pgs (Z.to_nat (k - 1)) = Some page
                          /\ Py.contains (chunk_text c) page = true
                          /\ Forall (fun q =>
                                       Py.contains (chunk_text c) q = false)
                                    (firstn (Z.to_nat (k - 1)) pgs)))
                 chunks.
Proof.
  split.
  - intros Henc. now apply chunk_paragraphs_returns.
  - intros chunks H. unfold Processors.create_chunks in H.
    apply chunk_paragraphs_spec in H as (new & -> & Hmap & Hall).
    simpl. split; [exact Hmap|].
    rewrite Forall_forall in *. intros c Hc.
    destruct (Hall c Hc) as (Hid & Hp & Hsha & Hpage & _).
    assert (Hin : In (chunk_ordinal c, chunk_text c)
                     (List.filter (fun ip => negb (Py.len (snd ip) <? 50)%Z)
                        (enumerate_from 0 (Processors.paragraphs text)))).
    { rewrite <- Hmap.
      now apply (in_map (fun c => (chunk_ordinal c, chunk_text c))). }
    apply filter_In in Hin as [Hin Hlen]. simpl in Hlen.
    apply enumerate_from_In in Hin as [Hord Hnth].
    rewrite Z.sub_0_r in Hnth.
    split; [exact Hord|]. split; [exact Hnth|].
    split; [apply negb_true_iff in Hlen; lia|].
    split.
    { pose proof (paragraphs_trimmed text) as Ht.
      rewrite Forall_forall in Ht. apply Ht.
      now apply nth_error_In in Hnth. }
    split; [exact Hid|]. split; [exact Hp|]. split; [exact Hsha|].
    intros k Hk. rewrite Hpage in Hk.
    destruct pages as [pgs|]; [|discriminate].
    apply find_page_spec in Hk as (Hb & page & Hn & Hcon & Hbefore).
    rewrite Z.sub_0_r in *. exists pgs, page.
    split; [reflexivity|]. split; [lia|]. auto.
Qed.

(** A witness: three paragraphs, the second short; the chunks have the
    ordinals 0 and 2. *)
Lemma create_chunks_spec_witness :
  exists chunks,
    Processors.create_chunks three_paragraphs some_id (Py.lit "in/p.txt") None
    = Ok chunks
    /\ List.map chunk_ordinal chunks = [0; 2]%Z.
Proof.
  destruct (create_chunks_spec three_paragraphs some_id (Py.lit "in/p.txt")
              None) as [Hret Hspec].
  destruct (Hret eq_refl) as [chunks Hrun].
  exists chunks. split; [exact Hrun|].
  destruct (Hspec chunks Hrun) as [Hmap _].
  apply (f_equal (List.map fst)) in Hmap.
  rewrite map_map in Hmap.
  refine (eq_trans Hmap _). vm_compute. reflexivity.
Defined.

(** *** One document *)

Lemma calculate_checksum_Ok e path sum :
  Processors.calculate_checksum e path = Ok sum <->
  exists f, Fs.lookup (files e) path = Some f
            /\ Fs.file_readable f = true
            /\ sum = SHA1.hexdigest (Fs.file_bytes f).
Proof.
  unfold Processors.calculate_checksum, Fs.read_bytes.
  destruct (Fs.lookup (files e) path) as [f|].
  - destruct (Fs.file_readable f) eqn:Hr; simpl.
    + split.
      * intros [= <-]. eauto.
      * intros (f' & [= <-] & _ & ->). reflexivity.
    + split; [discriminate|]. intros (f' & [= <-] & H & _). congruence.
  - split; [discriminate|]. intros (f' & H & _). discriminate H.
Qed.

Lemma doc_key_encodable path sum :
  ascii_only sum = true ->
  Py.encodable (path ++ Chunker.colon ++ sum) = Py.encodable path.
Proof.
  intros H. rewrite !encodable_app, (ascii_encodable sum H).
  change (Py.encodable Chunker.colon) with true.
  now rewrite !andb_true_r.
Qed.

(** What a call of [process_document] that returns went through. *)
Lemma process_document_Ok e path card chunks sum :
  Processors.process_document e path = Ok (card, chunks, sum) ->
  exists text pages,
    Processors.calculate_checksum e path = Ok sum
    /\ Utils.sha1 (path ++ Chunker.colon ++ sum) = Ok (card_id card)
    /\ (Py.lower (Utils.suffix path) = Py.lit ".pdf"
        /\ (exists pgs, Processors.read_pdf_file e path = Ok (text, pgs)
                        /\ pages = Some pgs)
        \/ Py.lower (Utils.suffix path) = Py.lit ".txt"
           /\ (exists lines, Processors.read_txt_file e path = Ok (text, lines))
           /\ pages = None)
    /\ card = mkCard (card_id card) (Utils.stem path) None path
                     (Processors.extract_facts text 5)
                     [mkCitation (card_id card) path (Cli.text_excerpt text)
                                 None None]
    /\ Processors.create_chunks text (card_id card) path pages = Ok chunks.
Proof.
  unfold Processors.process_document.
  destruct (Processors.calculate_checksum e path) as [sum'| |] eqn:Hsum;
    cbn [bind]; try discriminate.
  rewrite generate_doc_id_sha1.
  destruct (Utils.sha1 (path ++ Chunker.colon ++ sum')) as [doc_id| |] eqn:Hid;
    cbn [bind]; try discriminate.
  destruct (Py.str_eqb (Py.lower (Utils.suffix path)) (Py.lit ".pdf")) eqn:Hpdf.
  - apply str_eqb_eq in Hpdf.
    destruct (Processors.read_pdf_file e path) as [[text pgs]| |] eqn:Hread;
      cbn [bind]; try discriminate.
    cbn [fst snd].
    destruct (Processors.create_chunks text doc_id path (Some pgs))
      as [chs| |] eqn:Hch; cbn [bind]; try discriminate.
    intros [= <- <- <-]. exists text, (Some pgs). cbn [card_id].
    repeat apply conj; auto. left. eauto.
  - destruct (Py.str_eqb (Py.lower (Utils.suffix path)) (Py.lit ".txt"))
      eqn:Htxt; cbn [bind]; try discriminate.
    apply str_eqb_eq in Htxt.
    destruct (Processors.read_txt_file e path) as [[text lines]| |] eqn:Hread;
      cbn [bind]; try discriminate.
    cbn [fst snd].
    destruct (Processors.create_chunks text doc_id path None)
      as [chs| |] eqn:Hch; cbn [bind]; try discriminate.
    intros [= <- <- <-]. exists text, None. cbn [card_id].
    repeat apply conj; auto. right. eauto.
Qed.

Lemma process_document_never_times_out e path :
  Processors.process_document e path <> OutOfFuel.
Proof.
  unfold Processors.process_document.
  destruct (Processors.calculate_checksum e path) as [sum| |] eqn:Hsum;
    cbn [bind]; try discriminate.
  - rewrite generate_doc_id_sha1.
    destruct (Utils.sha1 (path ++ Chunker.colon ++ sum)) as [doc_id| |] eqn:Hid;
      cbn [bind]; try discriminate.
    + assert (Henc : Py.encodable doc_id = true).
      { apply sha1_Ok in Hid as (_ & _ & H). now apply ascii_encodable. }
      assert (Hch : forall text pages,
                 exists chunks,
                   Processors.create_chunks text doc_id path pages
                   = Ok chunks).
      { intros text pages. now apply chunk_paragraphs_returns. }
      destruct (Py.str_eqb (Py.lower (Utils.suffix path)) (Py.lit ".pdf")).
      * unfold Processors.read_pdf_file.
        destruct (Fs.lookup (files e) path) as [f|]; cbn [bind];
          try discriminate.
        destruct (if Fs.file_readable f then pdf e (Fs.file_bytes f) else None)
          as [ps|]; cbn [bind]; try discriminate.
        rewrite read_pdf_pages_spec.
        destruct (forallb extracted ps); cbn [bind]; try discriminate.
        match goal with
        | |- context [Processors.create_chunks ?t _ _ ?pg] =>
            destruct (Hch t pg) as [chunks ->]
        end.
        cbn [bind]. discriminate.
      * destruct (Py.str_eqb (Py.lower (Utils.suffix path)) (Py.lit ".txt"));
          cbn [bind]; try discriminate.
        unfold Processors.read_txt_file, Fs.read_latin1.
        destruct (Fs.lookup (files e) path) as [f|]; cbn [bind];
          try discriminate.
        destruct (Fs.file_readable f); cbn [bind]; try discriminate.
        destruct (Fs.decode_utf8 (Fs.file_bytes f)); cbn [bind];
          match goal with
          | |- context [Processors.create_chunks ?t _ _ ?pg] =>
              destruct (Hch t pg) as [chunks ->]
          end;
          cbn [bind]; discriminate.
    + now apply sha1_never_times_out in Hid.
  - unfold Processors.calculate_checksum, Fs.read_bytes in Hsum.
    destruct (Fs.lookup (files e) path) as [f|]; [|discriminate Hsum].
    destruct (Fs.file_readable f); discriminate Hsum.
Qed.

(** X17: when [process_document] makes a card of a .txt file: exactly
    when the file opens and its path, as it is given, can be encoded in
    UTF-8.  Bytes that are no UTF-8 do not make it fail.  The card then
    has the path as [source_path], the stem as title, and as id the digest
    of "<path>:<checksum of the bytes>"; every chunk carries that id and
    path. *)
Theorem process_document_txt e path :
  Py.lower (Utils.suffix path) = Py.lit ".txt" ->
  ((exists r, Processors.process_document e path = Ok r)
   <-> (exists f, Fs.lookup (files e) path = Some f
                  /\ Fs.file_readable f = true)
       /\ Py.encodable path = true)
  /\ (forall card chunks sum,
        Processors.process_document e path = Ok (card, chunks, sum) ->
        Processors.calculate_checksum e path = Ok sum
        /\ Utils.sha1 (path ++ Py.lit ":" ++ sum) = Ok (card_id card)
        /\ card_source_path card = path
        /\ card_title card = Utils.stem path
        /\ Forall (fun c => chunk_doc_id c = card_id card
                            /\ chunk_source_path c = path) chunks).
Proof.
  intros Hext. split.
  - split.
    + intros [[[card chunks] sum] H].
      apply process_document_Ok in H
        as (text & pages & Hsum & Hid & _ & _ & _).
      apply calculate_checksum_Ok in Hsum as (f & Hf & Hr & ->).
      split; [eauto|].
      apply sha1_Ok in Hid as [Hid _].
      now rewrite doc_key_encodable in Hid by apply hexdigest_ascii.
    + intros [(f & Hf & Hr) Henc].
      unfold Processors.process_document, Processors.calculate_checksum,
        Fs.read_bytes.
      rewrite Hf, Hr. cbn [bind]. rewrite generate_doc_id_sha1.
      destruct (sha1_encodable
                  (path ++ Chunker.colon ++ SHA1.hexdigest (Fs.file_bytes f)))
        as [doc_id Hid];
        [now rewrite doc_key_encodable by apply hexdigest_ascii|].
      rewrite Hid. cbn [bind]. rewrite Hext.
      change (Py.str_eqb (Py.lit ".txt") (Py.lit ".pdf")) with false.
      change (Py.str_eqb (Py.lit ".txt") (Py.lit ".txt")) with true.
      cbv iota.
      assert (Hread : exists content,
                 Processors.read_txt_file e path
                 = Ok (content, Fs.splitlines content)).
      { unfold Processors.read_txt_file, Fs.read_latin1. rewrite Hf, Hr.
        destruct (Fs.decode_utf8 (Fs.file_bytes f)); cbn [bind]; eauto. }
      destruct Hread as [content ->]. cbn [bind fst snd].
      assert (Henc' : Py.encodable doc_id = true).
      { apply sha1_Ok in Hid as (_ & _ & H). now apply ascii_encodable. }
      destruct (chunk_paragraphs_returns (Processors.paragraphs content)
                  doc_id path None Henc' 0%Z []) as [chunks Hch].
      unfold Processors.create_chunks. rewrite Hch. cbn [bind]. eauto.
  - intros card chunks sum H.
    apply process_document_Ok in H
      as (text & pages & Hsum & Hid & _ & Hcard & Hch).
    split; [exact Hsum|]. split; [exact Hid|].
    split; [now rewrite Hcard|]. split; [now rewrite Hcard|].
    unfold Processors.create_chunks in Hch.
    apply chunk_paragraphs_spec in Hch as (new & -> & _ & Hall).
    simpl. eapply Forall_impl; [|exact Hall].
    intros c (H1 & H2 & _). auto.
Qed.

(** A witness: the text file of three paragraphs, given by a relative
    path. *)
Lemma process_document_txt_witness :
  exists card chunks sum,
    Processors.process_document para_env (Py.lit "in/p.txt")
    = Ok (card, chunks, sum)
    /\ card_source_path card = Py.lit "in/p.txt"
    /\ card_title card = Py.lit "p".
Proof.
  destruct (process_document_txt para_env (Py.lit "in/p.txt") eq_refl)
    as [[_ Hret] Hcard].
  destruct Hret as [[[card chunks] sum] Hrun].
  - split; [|reflexivity].
    exists (text_file three_paragraphs). split; reflexivity.
  - exists card, chunks, sum. split; [exact Hrun|].
    destruct (Hcard card chunks sum Hrun) as (_ & _ & Hp & Ht & _).
    split; [exact Hp|]. rewrite Ht. reflexivity.
Defined.

(** X18: [process_document] makes cards of .pdf and .txt files only.  A
    .md file, which [load_folder] reads as text and [build] gives a card,
    is refused. *)
Theorem process_document_extension e path :
  (forall r, Processors.process_document e path = Ok r ->
     Py.lower (Utils.suffix path) = Py.lit ".pdf"
     \/ Py.lower (Utils.suffix path) = Py.lit ".txt")
  /\ (Py.lower (Utils.suffix path) = Py.lit ".md" ->
      Processors.process_document e path = Raise
      /\ supported path = true
      /\ reader e path = Loader.read_txt e path).
Proof.
  split.
  - intros [[card chunks] sum] H.
    apply process_document_Ok in H as (text & pages & _ & _ & Hext & _).
    destruct Hext as [[H _]|[H _]]; auto.
  - intros Hext.
    assert (Htxt : Loader.mem (Py.lower (Utils.suffix path)) Loader.TXT_EXT
                   = true) by (now rewrite Hext).
    destruct (txt_supported path Htxt) as [Hs Hr].
    split; [|split; [exact Hs|apply Hr]].
    destruct (Processors.process_document e path) as [[[card chunks] sum]| |]
      eqn:H; [|reflexivity|].
    + apply process_document_Ok in H as (text & pages & _ & _ & Hx & _).
      rewrite Hext in Hx. destruct Hx as [[Hx _]|[Hx _]]; discriminate Hx.
    + now apply process_document_never_times_out in H.
Qed.

(** A witness: q.md of the sample folder. *)
Lemma process_document_extension_witness :
  Processors.process_document para_env (Py.lit "in/q.md") = Raise
  /\ supported (Py.lit "in/q.md") = true.
Proof.
  destruct (process_document_extension para_env (Py.lit "in/q.md"))
    as [_ H].
  destruct (H eq_refl) as (Hr & Hs & _). auto.
Defined.

(** *** The folder *)

Lemma process_document_card e p card chunks sum :
  Processors.process_document e p = Ok (card, chunks, sum) ->
  card_source_path card = p
  /\ Processors.calculate_checksum e p = Ok sum
  /\ Forall (fun c => chunk_doc_id c = card_id card
                      /\ chunk_source_path c = card_source_path card) chunks.
Proof.
  intros H.
  apply process_document_Ok in H
    as (text & pages & Hsum & _ & _ & Hcard & Hch).
  assert (Hp : card_source_path card = p) by (now rewrite Hcard).
  split; [exact Hp|]. split; [exact Hsum|].
  unfold Processors.create_chunks in Hch.
  apply chunk_paragraphs_spec in Hch as (new & -> & _ & Hall).
  simpl. eapply Forall_impl; [|exact Hall].
  intros c (H1 & H2 & _). rewrite Hp. auto.
Qed.

Lemma dict_set_fresh d k v :
  ~ In k (List.map fst d) -> Processors.dict_set d k v = d ++ [(k, v)].
Proof.
  induction d as [|[k' v'] d IH]; [reflexivity|].
  simpl. intros Hk.
  rewrite str_eqb_neq by (intros ->; apply Hk; now left).
  rewrite IH; [reflexivity|]. intros H. apply Hk. now right.
Qed.

Lemma dict_set_In d k v p sum :
  In (p, sum) (Processors.dict_set d k v) ->
  (p, sum) = (k, v) \/ In (p, sum) d.
Proof.
  induction d as [|[k' v'] d IH]; simpl.
  - intros [H|[]]. now left.
  - destruct (Py.str_eqb k' k) eqn:Hk.
    + apply str_eqb_eq in Hk as ->.
      intros [H|H]; [now left|right; now right].
    + intros [H|H]; [right; now left|].
      apply IH in H as [H|H]; [now left|right; now right].
Qed.

(** What the loop of [process_folder] adds to its four collections. *)
Lemma processors_process_spec e fs : forall a,
  let a' := Processors.process e fs a in
  List.map card_source_path (Processors.cards a')
  = List.map card_source_path (Processors.cards a)
    ++ List.filter (processed e) fs
  /\ Processors.acc_skipped a'
     = Processors.acc_skipped a
       ++ List.filter (fun p => negb (processed e p)) fs
  /\ (forall p sum,
        In (p, sum) (Processors.acc_checksums a') ->
        In (p, sum) (Processors.acc_checksums a)
        \/ Processors.calculate_checksum e p = Ok sum)
  /\ (NoDup fs ->
      (forall p, In p fs ->
                 ~ In p (List.map fst (Processors.acc_checksums a))) ->
      List.map fst (Processors.acc_checksums a')
      = List.map fst (Processors.acc_checksums a)
        ++ List.filter (processed e) fs).
Proof.
  induction fs as [|p fs IH]; intros a; cbv zeta.
  - simpl. rewrite !app_nil_r. auto.
  - cbn [Processors.process List.filter].
    assert (Hpr : processed e p
                  = match Processors.process_document e p with
                    | Ok _ => true
                    | _ => false
                    end) by reflexivity.
    destruct (Processors.process_document e p) as [[[card chunks] sum]| |]
      eqn:Hdoc; rewrite !Hpr; cbn [negb].
    + destruct (process_document_card _ _ _ _ _ Hdoc) as (Hp & Hsum & _).
      destruct (IH (Processors.mkAcc
                      (Processors.cards a ++ [card])
                      (Processors.all_chunks a ++ chunks)
                      (Processors.dict_set (Processors.acc_checksums a) p sum)
                      (Processors.acc_skipped a)))
        as (Hc & Hs & Hsums & Hkeys).
      cbn [Processors.cards Processors.acc_skipped Processors.acc_checksums
           negb] in *.
      split; [|split; [|split]].
      * rewrite Hc, map_app, <- app_assoc. simpl. now rewrite Hp.
      * exact Hs.
      * intros q s Hin. apply Hsums in Hin as [Hin|Hin]; [|now right].
        apply dict_set_In in Hin as [[= -> ->]|Hin]; [now right|now left].
      * intros Hnd Hfresh. inversion Hnd as [|? ? Hnotin Hnd']; subst.
        rewrite dict_set_fresh in * by (apply Hfresh; now left).
        rewrite Hkeys; [now rewrite map_app, <- app_assoc|exact Hnd'|].
        intros q Hq. rewrite map_app, in_app_iff. simpl.
        intros [H|[<-|[]]]; [|contradiction].
        revert H. apply Hfresh. now right.
    + destruct (IH (Processors.mkAcc
                      (Processors.cards a) (Processors.all_chunks a)
                      (Processors.acc_checksums a)
                      (Processors.acc_skipped a ++ [p])))
        as (Hc & Hs & Hsums & Hkeys).
      cbn [Processors.cards Processors.acc_skipped Processors.acc_checksums
           negb] in *.
      split; [exact Hc|]. split; [now rewrite Hs, <- app_assoc|].
      split; [exact Hsums|].
      intros Hnd Hfresh. inversion Hnd; subst.
      apply Hkeys; [assumption|]. intros q Hq. apply Hfresh. now right.
    + now apply process_document_never_times_out in Hdoc.
Qed.

Lemma processors_process_chunks e fs : forall a,
  let refers := fun cards (c : Chunk) =>
    exists card : KnowledgeCard,
      In card cards /\ card_id card = chunk_doc_id c
      /\ card_source_path card = chunk_source_path c in
  Forall (refers (Processors.cards a)) (Processors.all_chunks a) ->
  Forall (refers (Processors.cards (Processors.process e fs a)))
         (Processors.all_chunks (Processors.process e fs a)).
Proof.
  cbv zeta. induction fs as [|p fs IH]; intros a Ha; [exact Ha|].
  cbn [Processors.process].
  destruct (Processors.process_document e p) as [[[card chunks] sum]| |]
    eqn:Hdoc; apply IH; cbn [Processors.cards Processors.all_chunks];
    try exact Ha.
  apply Forall_app. split.
  - eapply Forall_impl; [|exact Ha].
    intros c (card' & Hin & H). exists card'. split; [|exact H].
    apply in_or_app. now left.
  - destruct (process_document_card _ _ _ _ _ Hdoc) as (_ & _ & Hall).
    eapply Forall_impl; [|exact Hall].
    intros c [Hid Hp]. exists card. split; [|auto].
    apply in_or_app. right. now left.
Qed.

(** X19: what becomes of each file in a run of [process_folder].  The
    cards are those of the files for which [process_document] returns, in
    sorted order; the skip list holds the others; the checksums have one
    entry for each card, the checksum of its file; every chunk refers to
    a card of the run; and [total_documents] counts the cards, not the
    files, so that with the skipped files it adds up to the number of
    files found. *)
Theorem process_folder_spec e glob out :
  NoDup glob ->
  Processors.process_folder e glob = Ok out ->
  let m := Processors.manifest_json out in
  let files := Py.sort_by (fun q => q) glob in
  let cards := Processors.cards_jsonl out in
  List.map card_source_path cards = List.filter (processed e) files
  /\ Processors.skipped_files m
     = List.filter (fun p => negb (processed e p)) files
  /\ sorted_paths (List.map card_source_path cards) = true
  /\ List.map fst (Processors.checksums m) = List.map card_source_path cards
  /\ (forall p sum, In (p, sum) (Processors.checksums m) ->
        Processors.calculate_checksum e p = Ok sum)
  /\ Forall (fun c =>
               exists card,
                 In card cards /\ card_id card = chunk_doc_id c
                 /\ card_source_path card = chunk_source_path c)
            (Processors.chunks_jsonl out)
  /\ Processors.total_documents m = Processors.total_cards m
  /\ (Processors.total_cards m + Py.len (Processors.skipped_files m)
      = Py.len glob)%Z.
Proof.
  intros Hnd Hrun. cbv zeta. unfold Processors.process_folder in Hrun.
  destruct (out_writable e); [|discriminate Hrun].
  injection Hrun as <-.
  set (files := Py.sort_by (fun q => q) glob).
  set (a0 := Processors.mkAcc [] [] [] []).
  cbn [Processors.manifest_json Processors.cards_jsonl
       Processors.chunks_jsonl Processors.write_manifest
       Processors.skipped_files Processors.checksums
       Processors.total_documents Processors.total_cards].
  destruct (processors_process_spec e files a0) as (Hc & Hs & Hsums & Hkeys).
  cbn [a0 Processors.cards Processors.acc_skipped Processors.acc_checksums
       List.map app] in Hc, Hs, Hsums, Hkeys.
  assert (Hndf : NoDup files).
  { apply (Permutation_NoDup (Permutation_sym (sort_by_perm _ glob)) Hnd). }
  assert (Hsorted : sorted_paths files = true).
  { pose proof (sort_by_sorted (fun q : Py.str => q) glob) as H.
    now rewrite map_id in H. }
  split; [exact Hc|]. split; [exact Hs|].
  split; [rewrite Hc; now apply sorted_paths_filter|].
  split; [rewrite Hc; apply Hkeys; [exact Hndf|intros p _ []]|].
  split.
  { intros p sum Hin. apply Hsums in Hin as [[]|Hin]. exact Hin. }
  split.
  { apply (processors_process_chunks e files a0). constructor. }
  split; [reflexivity|].
  rewrite Hs. unfold Py.len.
  rewrite <- (length_map card_source_path), Hc.
  pose proof (filter_partition_length (processed e) files).
  pose proof (sort_by_length (fun q : Py.str => q) glob).
  fold files in H0. lia.
Qed.

(** A witness: the folder with a text file and a .md file, were both
    handed over; the .md file is skipped, and one document is counted. *)
Lemma process_folder_spec_witness :
  exists out,
    Processors.process_folder para_env [Py.lit "in/q.md"; Py.lit "in/p.txt"]
    = Ok out
    /\ List.map card_source_path (Processors.cards_jsonl out)
       = [Py.lit "in/p.txt"]
    /\ Processors.skipped_files (Processors.manifest_json out)
       = [Py.lit "in/q.md"]
    /\ Processors.total_documents (Processors.manifest_json out) = 1%Z.
Proof.
  evaluate (Processors.process_folder para_env
              [Py.lit "in/q.md"; Py.lit "in/p.txt"]) as out Hrun.
  exists out. split; [reflexivity|].
  destruct (process_folder_spec para_env
              [Py.lit "in/q.md"; Py.lit "in/p.txt"] out)
    as (Hc & Hs & _ & _ & _ & _ & Hd & Hsum).
  - repeat constructor; simpl; intuition discriminate.
  - exact Hrun.
  - split; [rewrite Hc; vm_compute; reflexivity|].
    split; [rewrite Hs; vm_compute; reflexivity|].
    replace (Py.len (Processors.skipped_files (Processors.manifest_json out)))
      with 1%Z in Hsum by (rewrite Hs; vm_compute; reflexivity).
    change (Py.len [Py.lit "in/q.md"; Py.lit "in/p.txt"]) with 2%Z in Hsum.
    lia.
Defined.

(** *** The two pipelines on one text file *)

Lemma extract_facts_facts_of text :
  Processors.extract_facts text 5 = Cli.facts_of text.
Proof.
  unfold Processors.extract_facts, Cli.facts_of.
  now rewrite collect_facts_filter.
Qed.

(** X20: the two pipelines make the same card of a text file that is
    UTF-8, but for the id: title, source path, facts and the excerpt of
    the citation are equal. *)
Theorem pipelines_agree_on_utf8_text e path f s card chunks sum card' :
  Py.lower (Utils.suffix path) = Py.lit ".txt" ->
  Fs.lookup (files e) path = Some f ->
  Fs.decode_utf8 (Fs.file_bytes f) = Some s ->
  Processors.process_document e path = Ok (card, chunks, sum) ->
  Cli.build_knowledge_card e (Loader.read_txt e path) = Ok card' ->
  card_title card = card_title card'
  /\ card_source_path card = card_source_path card'
  /\ card_date card = card_date card'
  /\ card_facts card = card_facts card'
  /\ List.map cit_text_excerpt (card_citations card)
     = List.map cit_text_excerpt (card_citations card')
  /\ List.map cit_source_path (card_citations card)
     = List.map cit_source_path (card_citations card').
Proof.
  intros Hext Hf Hs Hdoc Hcard.
  apply process_document_Ok in Hdoc
    as (text & pages & Hsum & _ & Hread & -> & _).
  apply calculate_checksum_Ok in Hsum as (f' & Hf' & Hr & _).
  rewrite Hf in Hf'. injection Hf' as <-.
  destruct Hread as [[Hpdf _]|(_ & [lines Hread] & _)];
    [rewrite Hext in Hpdf; discriminate Hpdf|].
  unfold Processors.read_txt_file in Hread.
  rewrite Hf, Hr, Hs in Hread. injection Hread as <- _.
  apply build_knowledge_card_Ok in Hcard as [_ ->].
  rewrite (read_txt_success e path f (Fs.universal_newlines s) Hf)
    by (unfold Fs.read_utf8; now rewrite Hr, Hs).
  cbn. rewrite extract_facts_facts_of. repeat apply conj; reflexivity.
Qed.

(** A witness: a.txt of the sample folder. *)
Lemma pipelines_agree_on_utf8_text_witness :
  exists card chunks sum card',
    Processors.process_document abc_env (Py.lit "/in/a.txt")
    = Ok (card, chunks, sum)
    /\ Cli.build_knowledge_card abc_env
         (Loader.read_txt abc_env (Py.lit "/in/a.txt")) = Ok card'
    /\ card_title card = card_title card'
    /\ card_facts card = card_facts card'.
Proof.
  evaluate (Processors.process_document abc_env (Py.lit "/in/a.txt"))
    as r Hdoc.
  destruct r as [[card chunks] sum].
  evaluate (Cli.build_knowledge_card abc_env
              (Loader.read_txt abc_env (Py.lit "/in/a.txt"))) as card' Hcard.
  exists card, chunks, sum, card'.
  split; [reflexivity|]. split; [reflexivity|].
  destruct (pipelines_agree_on_utf8_text abc_env (Py.lit "/in/a.txt")
              (text_file (Py.lit "a b c")) (Py.lit "a b c")
              card chunks sum card')
    as (Ht & _ & _ & Hfacts & _); auto.
Defined.

(* ================================================================== *)
(** ** utils.py *)
(* ================================================================== *)

Lemma hex_digit_hex n : (n < 16)%N -> hex_char (SHA1.hex_digit n) = true.
Proof.
  intros H. unfold SHA1.hex_digit, hex_char.
  destruct (N.ltb_spec n 10).
  - apply orb_true_iff. left. apply andb_true_iff.
    split; apply N.leb_le; lia.
  - apply orb_true_iff. right. apply andb_true_iff.
    split; apply N.leb_le; lia.
Qed.

Lemma hex8_hex x : forallb hex_char (SHA1.hex8 x) = true.
Proof.
  unfold SHA1.hex8. rewrite forallb_forall. intros c Hc.
  apply in_map_iff in Hc as [k [<- _]].
  apply hex_digit_hex, N.mod_lt. discriminate.
Qed.

Lemma hexdigest_hex bs : forallb hex_char (SHA1.hexdigest bs) = true.
Proof.
  unfold SHA1.hexdigest. rewrite !forallb_app, !hex8_hex. reflexivity.
Qed.

Lemma sha1_hex s h :
  Utils.sha1 s = Ok h ->
  List.length h = 40%nat /\ forallb hex_char h = true.
Proof.
  unfold Utils.sha1. destruct (Py.encode_utf8 s); [|discriminate].
  intros [= <-]. split; [apply hexdigest_length|apply hexdigest_hex].
Qed.

(** X21: the format of the ids.  [sha1] returns forty characters out of
    0-9 and a-f, and raises exactly on a string that UTF-8 cannot encode;
    so every card id, and every id and document id of a chunk, that
    [build] writes is forty lowercase hexadecimal digits. *)
Theorem ids_are_forty_hex_digits :
  (forall s h, Utils.sha1 s = Ok h ->
     List.length h = 40%nat /\ forallb hex_char h = true)
  /\ (forall s, Utils.sha1 s = Raise <-> Py.encodable s = false)
  /\ forall fuel e walk chunk overlap out,
       Cli.build fuel e walk chunk overlap = Ok out ->
       Forall (fun card =>
                 List.length (card_id card) = 40%nat
                 /\ forallb hex_char (card_id card) = true)
              (Writer.cards_jsonl out)
       /\ Forall (fun c =>
                    List.length (chunk_id c) = 40%nat
                    /\ forallb hex_char (chunk_id c) = true
                    /\ List.length (chunk_doc_id c) = 40%nat
                    /\ forallb hex_char (chunk_doc_id c) = true)
                 (Writer.chunks_jsonl out).
Proof.
  split; [exact sha1_hex|]. split.
  - intros s. split.
    + intros H. destruct (Py.encodable s) eqn:Henc; [|reflexivity].
      apply sha1_encodable in Henc as [h Hh]. congruence.
    + apply sha1_not_encodable.
  - intros fuel e walk chunk overlap out H.
    apply build_spec in H as (Hc & Hch & _). cbv zeta in *.
    rewrite Hc, Hch, !Forall_forall. split.
    + intros card Hin. apply in_flat_map in Hin as (d & _ & Hin).
      unfold card_of in Hin.
      destruct (Cli.build_knowledge_card e d) as [card'| |] eqn:Hcard;
        try contradiction.
      destruct Hin as [<-|[]].
      apply build_knowledge_card_Ok in Hcard as [Hid _].
      now apply sha1_hex in Hid.
    + intros c Hin. apply in_flat_map in Hin as (d & _ & Hin).
      unfold chunks_of in Hin.
      destruct (Cli.build_knowledge_card e d) as [card| |] eqn:Hcard;
        try contradiction.
      destruct (Chunker.chunk_doc fuel d (card_id card) chunk overlap)
        as [chunks| |] eqn:Hrun; try contradiction.
      apply build_knowledge_card_Ok in Hcard as [Hid _].
      apply sha1_hex in Hid.
      pose proof (chunk_doc_spec _ _ _ _ _ _ Hrun) as Hspec.
      cbv zeta in Hspec. destruct Hspec as (Hnth & _).
      apply In_nth_error in Hin as [k Hk].
      apply Hnth in Hk as (_ & _ & Hdoc & _ & Hsha & _).
      apply sha1_hex in Hsha. rewrite Hdoc. tauto.
Qed.

(** A witness: the card of a.txt. *)
Lemma ids_are_forty_hex_digits_witness :
  exists out,
    Cli.build 10 abc_env [Py.lit "/in/a.txt"] 800 120 = Ok out
    /\ List.map card_id (Writer.cards_jsonl out)
       = [Py.lit "7dc4dac95ce6bf282314c6874e3b62e8f804ddfa"]
    /\ Forall (fun card => forallb hex_char (card_id card) = true)
              (Writer.cards_jsonl out).
Proof.
  evaluate (Cli.build 10 abc_env [Py.lit "/in/a.txt"] 800 120) as out Hrun.
  exists out. split; [reflexivity|]. split.
  - vm_compute in Hrun. injection Hrun as <-. reflexivity.
  - destruct ids_are_forty_hex_digits as (_ & _ & H).
    destruct (H _ _ _ _ _ _ Hrun) as [Hcards _].
    eapply Forall_impl; [|exact Hcards]. simpl. tauto.
Defined.

(** *** Resolved paths *)













(* ================================================================== *)
(** ** The size of the chunks *)
(* ================================================================== *)

(** X23: how many words a chunk has.  With [size >= 1] and any overlap,
    every chunk that [chunk_doc] returns has at least one word and at most
    [size], its text is not empty, and every chunk but the last has
    exactly [size] words. *)
Theorem chunk_word_counts fuel doc doc_id size overlap chunks :
  (1 <= size)%Z ->
  Chunker.chunk_doc fuel doc doc_id size overlap = Ok chunks ->
  Forall (fun c => (1 <= Py.len (chunk_words c) <= size)%Z
                   /\ chunk_text c <> []) chunks
  /\ (forall k c, nth_error chunks k = Some c ->
        (S k < List.length chunks)%nat ->
        Py.len (chunk_words c) = size).
Proof.
  intros Hsize Hrun.
  set (words := Py.split (Loader.doc_text doc)).
  assert (Hwords : Forall (fun w => is_word w = true) words)
    by apply split_words.
  pose proof (len_nonneg words) as Hn.
  assert (Hchunk : forall k c, nth_error chunks k = Some c ->
            let s := window_start size overlap 0 k in
            (0 <= s < Py.len words)%Z
            /\ chunk_words c
               = Py.slice words s (Z.min (s + size) (Py.len words))).
  { intros k c Hk. cbv zeta.
    pose proof (chunk_doc_spec _ _ _ _ _ _ Hrun) as Hspec.
    cbv zeta in Hspec. fold words in Hspec.
    destruct Hspec as (Hnth & _ & Hnil).
    destruct (Hnth k c Hk) as (_ & Ht & _ & _ & _ & Hlt).
    assert (Hne : words <> []).
    { intros E. apply Hnil in E. subst chunks. now destruct k. }
    split.
    - split; [|exact Hlt].
      destruct (Z.le_gt_cases (Py.len words) size) as [Hle|Hgt].
      + rewrite chunk_doc_short in Hrun by (fold words; auto).
        destruct (Utils.sha1 _); simpl in Hrun; try discriminate Hrun.
        injection Hrun as <-.
        destruct k as [|[|k]]; try discriminate Hk.
        unfold window_start. lia.
      + destruct (chunk_doc_Ok_config _ _ _ _ _ _ Hrun Hne) as [_ Hcfg].
        fold words in Hcfg. specialize (Hcfg Hgt).
        unfold window_start. nia.
    - unfold chunk_words. rewrite Ht.
      apply split_join. now apply slice_Forall. }
  assert (Hcount : forall k c, nth_error chunks k = Some c ->
            let s := window_start size overlap 0 k in
            Py.len (chunk_words c)
            = (Z.min (s + size) (Py.len words) - s)%Z
            /\ (0 <= s < Py.len words)%Z).
  { intros k c Hk. cbv zeta.
    destruct (Hchunk k c Hk) as [Hs ->].
    split; [|exact Hs]. apply slice_length; lia. }
  split.
  - rewrite Forall_forall. intros c Hin.
    apply In_nth_error in Hin as [k Hk].
    destruct (Hcount k c Hk) as [Hlen Hs]. cbv zeta in *.
    split; [lia|].
    intros E. unfold chunk_words in Hlen. rewrite E in Hlen.
    change (Py.len (Py.split [])) with 0%Z in Hlen. lia.
  - intros k c Hk Hlast.
    destruct (Hcount k c Hk) as [Hlen Hs]. cbv zeta in *.
    pose proof (chunk_doc_spec _ _ _ _ _ _ Hrun) as Hspec.
    cbv zeta in Hspec. fold words in Hspec.
    destruct Hspec as (_ & Hmore & _).
    specialize (Hmore k Hlast). lia.
Qed.

(** A witness: seven words in windows of three that overlap by one. *)
Lemma chunk_word_counts_witness :
  exists chunks,
    Chunker.chunk_doc 8 seven_doc some_id 3 1 = Ok chunks
    /\ List.map (fun c => Py.len (chunk_words c)) chunks = [3; 3; 3]%Z
    /\ Forall (fun c => (1 <= Py.len (chunk_words c) <= 3)%Z) chunks.
Proof.
  evaluate (Chunker.chunk_doc 8 seven_doc some_id 3 1) as chunks Hrun.
  exists chunks. split; [reflexivity|]. split.
  - vm_compute in Hrun. injection Hrun as <-. reflexivity.
  - destruct (chunk_word_counts 8 seven_doc some_id 3 1 chunks) as [H _];
      [lia|exact Hrun|].
    eapply Forall_impl; [|exact H]. simpl. tauto.
Defined.

(* ================================================================== *)
(** ** Two runs of [process_folder] *)
(* ================================================================== *)



(* ================================================================== *)
(** ** The highlight picker *)
(* ================================================================== *)

Lemma lstrip_blank s : forallb Py.isspace s = true -> Py.lstrip s = [].
Proof.
  induction s as [|c s IH]; [reflexivity|].
  simpl. intros H. apply andb_prop in H as [Hc Hs]. rewrite Hc. auto.
Qed.

Lemma strip_blank s : forallb Py.isspace s = true -> Py.strip s = [].
Proof.
  intros H. unfold Py.strip. now rewrite (lstrip_blank s H).
Qed.

Lemma lstrip_nil s : Py.lstrip s = [] -> forallb Py.isspace s = true.
Proof.
  induction s as [|c s IH]; [reflexivity|].
  simpl. destruct (Py.isspace c); [exact IH|discriminate].
Qed.

Lemma strip_nil s : Py.strip s = [] -> forallb Py.isspace s = true.
Proof.
  unfold Py.strip. intros H. apply lstrip_nil.
  destruct (Py.lstrip s) as [|c t] eqn:E; [reflexivity|].
  rewrite rstrip_cons in H by exact (lstrip_head _ _ _ E).
  discriminate H.
Qed.

Lemma space_no_letter c :
  Py.isspace c = true ->
  Hi5.is_lower_letter c || Hi5.is_upper_letter c = false.
Proof.
  unfold Py.isspace, Hi5.is_lower_letter, Hi5.is_upper_letter.
  intros H.
  destruct (N.leb_spec 97 c), (N.leb_spec c 122),
    (N.leb_spec 65 c), (N.leb_spec c 90); try reflexivity; exfalso;
    repeat match type of H with
           | (_ || _) = true => apply orb_prop in H as [H|H]
           end;
    rewrite ?andb_true_iff, ?N.leb_le, ?N.eqb_eq in H; lia.
Qed.

Lemma blank_not_caps line :
  forallb Py.isspace line = true -> Hi5.is_all_caps line = false.
Proof.
  intros H. unfold Hi5.is_all_caps.
  assert (Hl : Hi5.letters_of line = []).
  { unfold Hi5.letters_of. induction line as [|c line IH]; [reflexivity|].
    simpl in *. apply andb_prop in H as [Hc Hs].
    rewrite (space_no_letter c Hc). auto. }
  now rewrite Hl.
Qed.

Lemma find_existsb {A} (f : A -> bool) l :
  existsb f l = match List.find f l with Some _ => true | None => false end.
Proof.
  induction l as [|x l IH]; [reflexivity|].
  simpl. destruct (f x); [reflexivity|exact IH].
Qed.

Lemma existsb_perm {A} (f : A -> bool) l l' :
  Permutation l l' -> existsb f l = existsb f l'.
Proof.
  intros Hp. induction Hp; simpl; auto.
  - now rewrite IHHp.
  - destruct (f x), (f y); reflexivity.
  - congruence.
Qed.

Lemma len_snoc {A} (l : list A) x : Py.len (l ++ [x]) = (Py.len l + 1)%Z.
Proof. unfold Py.len. rewrite length_app, Nat2Z.inj_add. reflexivity. Qed.

(** The score and the number of reasons of a line that is not blank,
    whatever the keyword found. *)
Lemma score_line_count lower keywords line :
  let r := Hi5.score_line lower keywords line in
  let b := fun (x : bool) => if x then 1%Z else 0%Z in
  let plus :=
    (b (Hi5.ends_with_period line)
     + b (existsb (fun kw => Py.contains kw (lower line)) keywords)
     + b (Py.starts_with (Py.lit "- ") line
          || Py.starts_with [8226%N; 32%N] line)
     + b ((Hi5.MIN_LENGTH <=? Py.len line)
          && (Py.len line <=? Hi5.MAX_LENGTH))%Z)%Z in
  Utils.nonempty (Py.strip line) = true ->
  fst r = (plus - b (Hi5.is_all_caps line))%Z
  /\ Py.len (snd r) = (plus + b (Hi5.is_all_caps line))%Z.
Proof.
  cbv zeta. intros Hne. unfold Hi5.score_line, Hi5.first_keyword.
  rewrite Hne. cbn [negb]. rewrite find_existsb.
  destruct (Hi5.ends_with_period line);
    destruct (List.find (fun kw => Py.contains kw (lower line)) keywords);
    destruct (Py.starts_with (Py.lit "- ") line
              || Py.starts_with [8226%N; 32%N] line);
    destruct ((Hi5.MIN_LENGTH <=? Py.len line)
              && (Py.len line <=? Hi5.MAX_LENGTH))%Z;
    destruct (Hi5.is_all_caps line);
    cbn [fst snd]; rewrite ?len_snoc; split; reflexivity.
Qed.

(** X25: the score of a line.  It lies between -1 and 4; it is the number
    of reasons, less two for a line in capitals; a line of white space
    scores 0 with no reason; and neither the score nor the number of
    reasons depends on the order in which the set of keywords is gone
    through, though the keyword named in the reasons may. *)
Theorem score_line_spec lower keywords line :
  let r := Hi5.score_line lower keywords line in
  (-1 <= fst r <= 4)%Z
  /\ fst r = (Py.len (snd r) - (if Hi5.is_all_caps line then 2 else 0))%Z
  /\ (forallb Py.isspace line = true -> r = (0%Z, []))
  /\ (forall keywords', Permutation keywords keywords' ->
        fst (Hi5.score_line lower keywords' line) = fst r
        /\ Py.len (snd (Hi5.score_line lower keywords' line))
           = Py.len (snd r)).
Proof.
  cbv zeta.
  assert (Hblank : forall ks, Utils.nonempty (Py.strip line) = false ->
            Hi5.score_line lower ks line = (0%Z, [])).
  { intros ks H. unfold Hi5.score_line. now rewrite H. }
  destruct (Utils.nonempty (Py.strip line)) eqn:Hne.
  - pose proof (fun ks => score_line_count lower ks line) as Hcount.
    cbv zeta in Hcount.
    destruct (Hcount keywords Hne) as [Hs Hl].
    split; [|split; [|split]].
    + rewrite Hs.
      destruct (Hi5.ends_with_period line),
        (existsb (fun kw => Py.contains kw (lower line)) keywords),
        (Py.starts_with (Py.lit "- ") line
         || Py.starts_with [8226%N; 32%N] line),
        ((Hi5.MIN_LENGTH <=? Py.len line)
         && (Py.len line <=? Hi5.MAX_LENGTH))%Z,
        (Hi5.is_all_caps line); lia.
    + rewrite Hs, Hl. destruct (Hi5.is_all_caps line); lia.
    + intros H. rewrite (strip_blank line H) in Hne. discriminate Hne.
    + intros ks' Hp. destruct (Hcount ks' Hne) as [Hs' Hl'].
      rewrite Hs, Hl, Hs', Hl'.
      now rewrite (existsb_perm _ _ _ Hp).
  - rewrite !Hblank by reflexivity. cbn [fst snd].
    assert (Hsp : forallb Py.isspace line = true).
    { apply strip_nil. now destruct (Py.strip line). }
    rewrite (blank_not_caps line Hsp).
    split; [lia|]. split; [reflexivity|]. split; [reflexivity|].
    intros ks' _. rewrite Hblank by reflexivity. split; reflexivity.
Qed.

(** A witness: a line with two keywords, the set gone through in two
    orders; the scores agree, the reasons do not. *)
Lemma score_line_spec_witness :
  Hi5.score_line Py.lower Hi5.KEYWORDS (Py.lit "The key result is here.")
  = (2%Z, [Py.lit "period"; Py.lit "keyword=key"])
  /\ Hi5.score_line Py.lower (rev Hi5.KEYWORDS)
                    (Py.lit "The key result is here.")
     = (2%Z, [Py.lit "period"; Py.lit "keyword=result"])
  /\ fst (Hi5.score_line Py.lower (rev Hi5.KEYWORDS)
                         (Py.lit "The key result is here."))
     = fst (Hi5.score_line Py.lower Hi5.KEYWORDS
                           (Py.lit "The key result is here.")).
Proof.
  split; [reflexivity|]. split; [reflexivity|].
  destruct (score_line_spec Py.lower Hi5.KEYWORDS
              (Py.lit "The key result is here.")) as (_ & _ & _ & H).
  apply (H (rev Hi5.KEYWORDS)), Permutation_rev.
Defined.

(** *** The selection *)

Lemma key_ltb_spec a b :
  Hi5.key_ltb a b = true <->
  (fst a < fst b \/ (fst a = fst b /\ snd a < snd b))%Z.
Proof.
  unfold Hi5.key_ltb.
  rewrite orb_true_iff, andb_true_iff, !Z.ltb_lt, Z.eqb_eq. reflexivity.
Qed.

Lemma key_ltb_false a b :
  Hi5.key_ltb a b = false <->
  (fst b < fst a \/ (fst a = fst b /\ snd b <= snd a))%Z.
Proof.
  pose proof (key_ltb_spec a b) as H.
  destruct (Hi5.key_ltb a b).
  - split; [discriminate|]. intros H'. exfalso.
    assert (Ht : true = true) by reflexivity. apply H in Ht. lia.
  - split; [|reflexivity]. intros _.
    assert (Hn : ~ (fst a < fst b \/ fst a = fst b /\ snd a < snd b)%Z).
    { intros H'. apply H in H'. discriminate H'. }
    lia.
Qed.

Lemma insert_candidate_perm x l :
  Permutation (Hi5.insert_candidate x l) (x :: l).
Proof.
  induction l as [|y l IH]; simpl; [reflexivity|].
  destruct (Hi5.key_ltb (Hi5.sort_key y) (Hi5.sort_key x)); [|reflexivity].
  rewrite IH. apply perm_swap.
Qed.

Lemma sort_candidates_perm l : Permutation (Hi5.sort_candidates l) l.
Proof.
  induction l as [|x l IH]; simpl; [reflexivity|].
  rewrite insert_candidate_perm. now constructor.
Qed.

Lemma insert_candidate_ordered x l :
  ordered l -> ordered (Hi5.insert_candidate x l).
Proof.
  induction l as [|y l IH]; intros Ho; simpl; [auto|].
  destruct Ho as [Hall Ho].
  destruct (Hi5.key_ltb (Hi5.sort_key y) (Hi5.sort_key x)) eqn:Hlt.
  - split; [|auto].
    apply (Permutation_Forall
             (Permutation_sym (insert_candidate_perm x l))).
    constructor; [|exact Hall].
    apply key_ltb_spec in Hlt. apply key_ltb_false. lia.
  - split; [|split; auto].
    constructor; [exact Hlt|].
    eapply Forall_impl; [|exact Hall].
    intros z Hz. apply key_ltb_false in Hlt, Hz. apply key_ltb_false. lia.
Qed.

Lemma sort_candidates_ordered l : ordered (Hi5.sort_candidates l).
Proof.
  induction l as [|x l IH]; simpl; [exact I|].
  now apply insert_candidate_ordered.
Qed.

Lemma ordered_nth l : forall i j x y,
  ordered l -> (i < j)%nat ->
  nth_error l i = Some x -> nth_error l j = Some y ->
  Hi5.key_ltb (Hi5.sort_key y) (Hi5.sort_key x) = false.
Proof.
  induction l as [|z l IH]; intros i j x y Ho Hij Hx Hy.
  - now destruct i.
  - destruct Ho as [Hall Ho]. destruct j as [|j]; [lia|].
    simpl in Hy. destruct i as [|i].
    + injection Hx as <-. rewrite Forall_forall in Hall.
      apply Hall. now apply nth_error_In in Hy.
    + simpl in Hx. apply (IH i j); auto. lia.
Qed.

Lemma nth_error_firstn_Some {A} (l : list A) : forall n i x,
  nth_error (firstn n l) i = Some x ->
  (i < n)%nat /\ nth_error l i = Some x.
Proof.
  induction l as [|y l IH]; intros n i x H.
  - rewrite firstn_nil in H. now destruct i.
  - destruct n as [|n]; [now destruct i|].
    destruct i as [|i]; simpl in *; [split; [lia|exact H]|].
    apply IH in H as [Hi Hx]. split; [lia|exact Hx].
Qed.

Lemma nth_error_firstn_lt {A} (l : list A) : forall n i,
  (i < n)%nat -> nth_error (firstn n l) i = nth_error l i.
Proof.
  induction l as [|y l IH]; intros n i Hi.
  - now rewrite firstn_nil.
  - destruct n as [|n]; [lia|].
    destruct i as [|i]; simpl; [reflexivity|]. apply IH. lia.
Qed.

Lemma highlights_from_nth cs : forall r i,
  nth_error (Hi5.highlights_from r cs) i
  = option_map
      (fun c => Hi5.mkHighlight (r + Z.of_nat i) (Hi5.cand_line_no c)
                  (Hi5.cand_text c)
                  (Py.join (Py.lit "; ") (Hi5.cand_reasons c)))
      (nth_error cs i).
Proof.
  induction cs as [|c cs IH]; intros r i; [now destruct i|].
  destruct i as [|i]; simpl.
  - now rewrite Z.add_0_r.
  - rewrite IH. destruct (nth_error cs i); simpl; [|reflexivity].
    do 2 f_equal. lia.
Qed.

Lemma highlights_from_length cs : forall r,
  List.length (Hi5.highlights_from r cs) = List.length cs.
Proof.
  induction cs as [|c cs IH]; intros r; simpl; [reflexivity|].
  now rewrite IH.
Qed.

Lemma candidate_of_cons lower keywords i line lines c :
  candidate_of lower keywords (i + 1) lines c ->
  candidate_of lower keywords i (line :: lines) c.
Proof.
  intros (Hb & Hn & Hs & Hp). unfold candidate_of.
  rewrite len_cons. split; [lia|]. split; [|auto].
  replace (Z.to_nat (Hi5.cand_line_no c - i))
    with (S (Z.to_nat (Hi5.cand_line_no c - (i + 1)))) by lia.
  exact Hn.
Qed.

Lemma candidates_from_spec lower keywords lines : forall i,
  let cs := Hi5.candidates_from lower keywords i lines in
  Forall (candidate_of lower keywords i lines) cs
  /\ NoDup (List.map Hi5.cand_line_no cs)
  /\ List.length cs
     = List.length
         (List.filter
            (fun l => (fst (Hi5.score_line lower keywords l) >? 0)%Z) lines)
  /\ (forall n line,
        nth_error lines n = Some line ->
        (0 < fst (Hi5.score_line lower keywords line))%Z ->
        exists c, In c cs /\ Hi5.cand_line_no c = (i + Z.of_nat n)%Z
                  /\ Hi5.cand_text c = line).
Proof.
  induction lines as [|line lines IH]; intros i; cbv zeta.
  - simpl. repeat split; try constructor. intros n line Hn. now destruct n.
  - destruct (IH (i + 1)%Z) as (Hall & Hnd & Hlen & Hcomp). clear IH.
    cbv zeta in *.
    assert (Htail : Forall (candidate_of lower keywords i (line :: lines))
                      (Hi5.candidates_from lower keywords (i + 1) lines)).
    { eapply Forall_impl; [|exact Hall].
      intros c. apply candidate_of_cons. }
    cbn [Hi5.candidates_from List.filter].
    destruct (Hi5.score_line lower keywords line) as [score reasons] eqn:Hs.
    cbn [fst].
    destruct (score >? 0)%Z eqn:Hpos.
    + split; [|split; [|split]].
      * constructor; [|exact Htail].
        unfold candidate_of.
        cbn [Hi5.cand_line_no Hi5.cand_text Hi5.cand_score
             Hi5.cand_reasons].
        rewrite len_cons, Z.sub_diag.
        pose proof (len_nonneg lines).
        repeat split; auto; lia.
      * cbn. constructor; [|exact Hnd].
        intros Hin. apply in_map_iff in Hin as (c & Hc & Hin).
        rewrite Forall_forall in Hall.
        destruct (Hall c Hin) as [Hb _]. lia.
      * cbn. now rewrite Hlen.
      * intros n l Hn Hl. destruct n as [|n].
        -- injection Hn as <-. eexists. split; [now left|].
           cbn. split; [lia|reflexivity].
        -- destruct (Hcomp n l Hn Hl) as (c & Hin & Hno & Ht).
           exists c. split; [now right|]. split; [lia|exact Ht].
    + split; [exact Htail|]. split; [exact Hnd|]. split; [exact Hlen|].
      intros n l Hn Hl. destruct n as [|n].
      * injection Hn as <-. rewrite Hs in Hl. cbn in Hl. lia.
      * destruct (Hcomp n l Hn Hl) as (c & Hin & Hno & Ht).
        exists c. split; [exact Hin|]. split; [lia|exact Ht].
Qed.

Lemma pick_highlights_props lower keywords lines k :
  (0 <= k)%Z ->
  let score := fun l => fst (Hi5.score_line lower keywords l) in
  let hs := Hi5.pick_highlights lower keywords lines k in
  Py.len hs = Z.min k (Py.len (List.filter (fun l => score l >? 0)%Z lines))
  /\ (forall i h, nth_error hs i = Some h ->
        Hi5.rank h = (Z.of_nat i + 1)%Z
        /\ (1 <= Hi5.line_no h <= Py.len lines)%Z
        /\ nth_error lines (Z.to_nat (Hi5.line_no h - 1)) = Some (Hi5.text h)
        /\ (0 < score (Hi5.text h))%Z
        /\ Hi5.reason h
           = Py.join (Py.lit "; ")
                     (snd (Hi5.score_line lower keywords (Hi5.text h))))
  /\ (forall i j h h', (i < j)%nat ->
        nth_error hs i = Some h -> nth_error hs j = Some h' ->
        ranks_before score h h')
  /\ (forall n line h,
        nth_error lines n = Some line -> (0 < score line)%Z ->
        ~ In (Z.of_nat n + 1)%Z (List.map Hi5.line_no hs) ->
        In h hs ->
        (score line < score (Hi5.text h))%Z
        \/ (score line = score (Hi5.text h)
            /\ (Hi5.line_no h < Z.of_nat n + 1)%Z)).
Proof.
  intros Hk. cbv zeta. unfold Hi5.pick_highlights.
  rewrite slice_to_firstn by exact Hk.
  set (cs := Hi5.candidates_from lower keywords 1 lines).
  set (sorted := Hi5.sort_candidates cs).
  destruct (candidates_from_spec lower keywords lines 1)
    as (Hall & Hnd & Hlen & Hcomp).
  cbv zeta in *. fold cs in Hall, Hnd, Hlen, Hcomp.
  assert (Hperm : Permutation sorted cs) by apply sort_candidates_perm.
  assert (Hord : ordered sorted) by apply sort_candidates_ordered.
  assert (Hall' : Forall (candidate_of lower keywords 1 lines) sorted).
  { apply (Permutation_Forall (Permutation_sym Hperm) Hall). }
  assert (Hnd' : NoDup (List.map Hi5.cand_line_no sorted)).
  { apply (Permutation_NoDup
             (Permutation_map _ (Permutation_sym Hperm)) Hnd). }
  (* every highlight comes from the candidate at its place *)
  assert (Hfrom : forall i h,
            nth_error (Hi5.highlights_from 1
                         (firstn (Z.to_nat k) sorted)) i = Some h ->
            exists c,
              (i < Z.to_nat k)%nat /\ nth_error sorted i = Some c
              /\ h = Hi5.mkHighlight (1 + Z.of_nat i) (Hi5.cand_line_no c)
                       (Hi5.cand_text c)
                       (Py.join (Py.lit "; ") (Hi5.cand_reasons c))).
  { intros i h Hi. rewrite highlights_from_nth in Hi.
    destruct (nth_error (firstn (Z.to_nat k) sorted) i) as [c|] eqn:Hc;
      [|discriminate Hi].
    apply nth_error_firstn_Some in Hc as [Hlt Hc].
    injection Hi as <-. eauto. }
  (* two candidates at different places compare strictly *)
  assert (Hstrict : forall i j c c',
            (i < j)%nat -> nth_error sorted i = Some c ->
            nth_error sorted j = Some c' ->
            (Hi5.cand_score c' < Hi5.cand_score c)%Z
            \/ (Hi5.cand_score c' = Hi5.cand_score c
                /\ (Hi5.cand_line_no c < Hi5.cand_line_no c')%Z)).
  { intros i j c c' Hij Hc Hc'.
    pose proof (ordered_nth sorted i j c c' Hord Hij Hc Hc') as Hle.
    apply key_ltb_false in Hle. unfold Hi5.sort_key in Hle. cbn in Hle.
    assert (Hne : Hi5.cand_line_no c <> Hi5.cand_line_no c').
    { intros E.
      rewrite NoDup_nth_error in Hnd'.
      assert (i = j); [|lia].
      apply Hnd'.
      - rewrite length_map. apply nth_error_Some. congruence.
      - rewrite !nth_error_map, Hc, Hc'. cbn. now rewrite E. }
    lia. }
  assert (Hscore : forall c, In c sorted ->
            fst (Hi5.score_line lower keywords (Hi5.cand_text c))
            = Hi5.cand_score c).
  { intros c Hin. rewrite Forall_forall in Hall'.
    destruct (Hall' c Hin) as (_ & _ & -> & _). reflexivity. }
  split; [|split; [|split]].
  - unfold Py.len. rewrite highlights_from_length, length_firstn.
    rewrite (Permutation_length Hperm), Hlen. lia.
  - intros i h Hi. apply Hfrom in Hi as (c & Hlt & Hc & ->).
    cbn [Hi5.rank Hi5.line_no Hi5.text Hi5.reason].
    rewrite Forall_forall in Hall'.
    destruct (Hall' c (nth_error_In _ _ Hc)) as (Hb & Hn & Hs & Hp).
    rewrite Hs. cbn [fst snd]. repeat split; auto; lia.
  - intros i j h h' Hij Hi Hj.
    apply Hfrom in Hi as (c & _ & Hc & ->).
    apply Hfrom in Hj as (c' & _ & Hc' & ->).
    unfold ranks_before. cbn [Hi5.line_no Hi5.text].
    rewrite (Hscore c (nth_error_In _ _ Hc)),
      (Hscore c' (nth_error_In _ _ Hc')).
    now apply (Hstrict i j).
  - intros n line h Hn Hpos Hout Hin.
    apply In_nth_error in Hin as [i Hi].
    apply Hfrom in Hi as (c & Hlt & Hc & ->). cbn [Hi5.line_no Hi5.text].
    destruct (Hcomp n line Hn Hpos) as (c' & Hin' & Hno & Ht).
    apply (Permutation_in c' (Permutation_sym Hperm)) in Hin'.
    pose proof (Hscore c' Hin') as Hs'. rewrite Ht in Hs'.
    apply In_nth_error in Hin' as [j Hj].
    assert (Hno' : Hi5.cand_line_no c' = (Z.of_nat n + 1)%Z) by lia.
    rewrite Hs', (Hscore c (nth_error_In _ _ Hc)), <- Hno'.
    destruct (Nat.lt_ge_cases j (Z.to_nat k)) as [Hjk|Hjk].
    + exfalso. apply Hout. rewrite <- Hno'. apply in_map_iff.
      exists (Hi5.mkHighlight (1 + Z.of_nat j) (Hi5.cand_line_no c')
                (Hi5.cand_text c')
                (Py.join (Py.lit "; ") (Hi5.cand_reasons c'))).
      split; [reflexivity|].
      apply (nth_error_In _ j).
      rewrite highlights_from_nth, nth_error_firstn_lt by exact Hjk.
      now rewrite Hj.
    + apply (Hstrict i j c c'); auto. lia.
Qed.

(** X26: what [pick_highlights] selects, for [k >= 0].  The highlights
    are the [k] best lines with a positive score, or all of them when
    there are fewer; their ranks count from 1; each gives the number of
    its line, counted from 1, the line itself, and the reasons of its
    score joined by "; "; a highlight stands before another when its
    score is higher, or equal with an earlier line; and no line that was
    left out would stand before one that was selected. *)
Theorem pick_highlights_spec lower keywords lines k :
  (0 <= k)%Z ->
  let score := fun l => fst (Hi5.score_line lower keywords l) in
  let hs := Hi5.pick_highlights lower keywords lines k in
  Py.len hs = Z.min k (Py.len (List.filter (fun l => score l >? 0)%Z lines))
  /\ (forall i h, nth_error hs i = Some h ->
        Hi5.rank h = (Z.of_nat i + 1)%Z
        /\ (1 <= Hi5.line_no h <= Py.len lines)%Z
        /\ nth_error lines (Z.to_nat (Hi5.line_no h - 1)) = Some (Hi5.text h)
        /\ (0 < score (Hi5.text h))%Z
        /\ Hi5.reason h
           = Py.join (Py.lit "; ")
                     (snd (Hi5.score_line lower keywords (Hi5.text h))))
  /\ (forall i j h h', (i < j)%nat ->
        nth_error hs i = Some h -> nth_error hs j = Some h' ->
        ranks_before score h h')
  /\ (forall n line h,
        nth_error lines n = Some line -> (0 < score line)%Z ->
        ~ In (Z.of_nat n + 1)%Z (List.map Hi5.line_no hs) ->
        In h hs ->
        (score line < score (Hi5.text h))%Z
        \/ (score line = score (Hi5.text h)
            /\ (Hi5.line_no h < Z.of_nat n + 1)%Z)).
Proof. exact (pick_highlights_props lower keywords lines k). Qed.

(** A witness: the two best of five lines. *)
Lemma pick_highlights_spec_witness :
  List.map (fun h => (Hi5.rank h, Hi5.line_no h))
           (Hi5.pick_highlights Py.lower Hi5.KEYWORDS sample_lines 2)
  = [(1, 2); (2, 4)]%Z
  /\ Py.len (Hi5.pick_highlights Py.lower Hi5.KEYWORDS sample_lines 2) = 2%Z.
Proof.
  split; [reflexivity|].
  destruct (pick_highlights_spec Py.lower Hi5.KEYWORDS sample_lines 2)
    as [H _]; [lia|].
  rewrite H. reflexivity.
Defined.

(** X27: what [hi5 pick] writes.  When the command succeeds the file is
    there, has the suffix .txt or .md whatever the case, and decodes as
    UTF-8; at most five highlights are written; and each is a line of the
    file, numbered from 1, without its trailing white space: the text is
    not empty and does not end in white space. *)
Theorem pick_spec lower keywords e path hs :
  Hi5.pick lower keywords e path = Ok hs ->
  exists f raw,
    Fs.lookup (files e) path = Some f
    /\ Fs.read_utf8 f = Ok raw
    /\ Loader.mem (Py.lower (Utils.suffix path)) Loader.TXT_EXT = true
    /\ out_writable e = true
    /\ (Py.len hs <= 5)%Z
    /\ Forall (fun h =>
                 exists l,
                   nth_error (Fs.splitlines raw)
                             (Z.to_nat (Hi5.line_no h - 1)) = Some l
                   /\ Hi5.text h = Py.rstrip l
                   /\ Hi5.text h <> []
                   /\ Py.isspace (last (Hi5.text h) 32%N) = false)
              hs.
Proof.
  unfold Hi5.pick.
  destruct (Fs.lookup (files e) path) as [f|]; [|discriminate].
  change [Py.lit ".txt"; Py.lit ".md"] with Loader.TXT_EXT.
  destruct (Loader.mem (Py.lower (Utils.suffix path)) Loader.TXT_EXT)
    eqn:Hext; [|discriminate].
  cbn [negb].
  destruct (Fs.read_utf8 f) as [raw| |] eqn:Hraw; try discriminate.
  destruct (out_writable e) eqn:Hw; [|discriminate].
  intros [= <-]. exists f, raw.
  split; [reflexivity|]. split; [exact Hraw|]. split; [reflexivity|].
  split; [reflexivity|]. split.
  - destruct (pick_highlights_props lower keywords (Hi5.normalize_lines raw) 5)
      as [Hlen _]; [lia|].
    cbv zeta in Hlen. rewrite Hlen. lia.
  - rewrite Forall_forall. intros h Hin.
    apply In_nth_error in Hin as [i Hi].
    destruct (pick_highlights_props lower keywords (Hi5.normalize_lines raw) 5)
      as (_ & Hnth & _); [lia|].
    destruct (Hnth i h Hi) as (_ & _ & Hline & Hpos & _).
    unfold Hi5.normalize_lines in Hline. rewrite nth_error_map in Hline.
    destruct (nth_error (Fs.splitlines raw) (Z.to_nat (Hi5.line_no h - 1)))
      as [l|] eqn:Hl; [|discriminate Hline].
    injection Hline as Ht. exists l. split; [reflexivity|].
    split; [now rewrite Ht|].
    assert (Hne : Hi5.text h <> []).
    { intros E. rewrite E in Hpos.
      change (Hi5.score_line lower keywords []) with (0%Z, @nil Py.str)
        in Hpos.
      cbn in Hpos. lia. }
    split; [exact Hne|].
    rewrite <- Ht in *. now apply rstrip_last.
Qed.

(** A witness: the notes file; its second and third lines are picked. *)
Lemma pick_spec_witness :
  exists hs,
    Hi5.pick Py.lower Hi5.KEYWORDS notes_env (Py.lit "/in/notes.txt") = Ok hs
    /\ List.map (fun h => (Hi5.line_no h, Hi5.text h)) hs
       = [(2%Z, Py.lit "The key result is here.");
          (3%Z, Py.lit "- a bullet point")]
    /\ (Py.len hs <= 5)%Z.
Proof.
  evaluate (Hi5.pick Py.lower Hi5.KEYWORDS notes_env (Py.lit "/in/notes.txt"))
    as hs Hrun.
  exists hs. split; [reflexivity|]. split.
  - vm_compute in Hrun. injection Hrun as <-. reflexivity.
  - destruct (pick_spec Py.lower Hi5.KEYWORDS notes_env
                (Py.lit "/in/notes.txt") hs Hrun)
      as (f & raw & _ & _ & _ & _ & Hlen & _).
    exact Hlen.
Defined.
